(** * ansibullbot: the caching and mirror-synchronisation core

    A shallow embedding of

    - [ansibullbot/wrappers/ghapiwrapper.py]
      ([GithubWrapper.get_cached_request], [GithubWrapper.get_request],
      [RepoWrapper.load_update_fetch]), and
    - [ansibullbot/utils/git_tools.py] ([GitRepoWrapper]),

    followed by the properties of the specification that were checked
    against it.

    Python [bytes] are modelled by [string] (sequences of 8-bit
    characters) and a Python [str] by the [string] of its UTF-8 encoding,
    JSON numbers by [Z], time stamps by [Z] (seconds).  The
    HTTP server, the file system seen by the mirror and the subprocess
    runner are the environment: they are deterministic oracles over the
    history of what the program did so far. *)

From Stdlib Require Import ZArith Ascii String List Bool Lia.
From stdpp Require Import base option list gmap strings.

Local Open Scope Z_scope.

(** ** Python built-ins used by the sources *)

Module Py.

(** Exceptions that the embedded functions can raise. [ValueError] also
    stands for its subclasses [UnicodeDecodeError] and [JSONDecodeError],
    [OSError] for [FileNotFoundError], [IsADirectoryError],
    [gzip.BadGzipFile] and [requests.ConnectionError]. *)
Inductive exn :=
| RateLimitError
| AttributeError
| TypeError
| ValueError
| IndexError
| OSError.

(** The result of running a piece of code: a value, a raised exception, or
    [OutOfFuel] when the recursion budget of the model is exhausted (the
    Python code would still be recursing). *)
Inductive outcome (A : Type) :=
| Ok (a : A)
| Raise (e : exn)
| OutOfFuel.
Arguments Ok {A} a.
Arguments Raise {A} e.
Arguments OutOfFuel {A}.

(** [s.startswith(p)] *)
Definition startswith (p s : string) : bool := String.prefix p s.

(** [s.endswith(p)] *)
Definition endswith (p s : string) : bool :=
  String.prefix (String.rev p) (String.rev s).

Definition lower_ascii (c : ascii) : ascii :=
  let n := N_of_ascii c in
  if ((65 <=? n) && (n <=? 90))%N then ascii_of_N (n + 32) else c.

(** [s.lower()] *)
Fixpoint lower (s : string) : string :=
  match s with
  | EmptyString => EmptyString
  | String c s' => String (lower_ascii c) (lower s')
  end.

(** [sub in s] *)
Fixpoint contains (sub s : string) : bool :=
  String.prefix sub s ||
  match s with
  | EmptyString => false
  | String _ s' => contains sub s'
  end.

Fixpoint split_go (sep : ascii) (cur : string) (s : string) : list string :=
  match s with
  | EmptyString => [String.rev cur]
  | String c s' =>
      if Ascii.eqb c sep then String.rev cur :: split_go sep EmptyString s'
      else split_go sep (String c cur) s'
  end.

(** [s.split(sep)] for a one-character separator. *)
Definition split (sep : ascii) (s : string) : list string :=
  split_go sep EmptyString s.

(** [sep.join(l)] *)
Fixpoint join (sep : string) (l : list string) : string :=
  match l with
  | [] => ""
  | [x] => x
  | x :: l' => x +:+ sep +:+ join sep l'
  end.

Fixpoint replace_go (old new : string) (skip : nat) (s : string) : string :=
  match s with
  | EmptyString => EmptyString
  | String c s' =>
      match skip with
      | S k => replace_go old new k s'
      | O =>
          if String.prefix old s
          then new +:+ replace_go old new (String.length old - 1) s'
          else String c (replace_go old new 0 s')
      end
  end.

(** [s.replace(old, new)] for a non-empty [old] (the sources only replace
    ['https://'] and a context prefix ending in ['/']). *)
Definition replace (old new s : string) : string := replace_go old new 0 s.

Fixpoint drop (n : nat) (s : string) : string :=
  match n, s with
  | S k, String _ s' => drop k s'
  | _, _ => s
  end.

(** [s.replace(old, new, 1)] for a non-empty [old]. *)
Fixpoint replace_first (old new s : string) : string :=
  match s with
  | EmptyString => EmptyString
  | String c s' =>
      if String.prefix old s then new +:+ drop (String.length old) s
      else String c (replace_first old new s')
  end.

Fixpoint lstrip_by (f : ascii -> bool) (s : string) : string :=
  match s with
  | EmptyString => EmptyString
  | String c s' => if f c then lstrip_by f s' else s
  end.

Definition rstrip_by (f : ascii -> bool) (s : string) : string :=
  String.rev (lstrip_by f (String.rev s)).

Definition strip_by (f : ascii -> bool) (s : string) : string :=
  rstrip_by f (lstrip_by f s).

(** [bytes.strip()] removes ASCII white space. *)
Definition bytes_strip : string -> string := strip_by Ascii.is_space.

(** [str.isspace] on the code points below 128: ASCII white space and the
    four separators 0x1c to 0x1f. *)
Definition str_isspace (c : ascii) : bool :=
  Ascii.is_space c ||
  (let n := N_of_ascii c in (28 <=? n) && (n <=? 31))%N.

(** The white space of [str] beyond ASCII, by its UTF-8 encoding: U+0085
    and U+00A0 take two bytes; U+1680, U+2000 to U+200A, U+2028, U+2029,
    U+202F, U+205F and U+3000 take three. *)
Definition space2 (a b : ascii) : bool :=
  let x := N_of_ascii a in
  let y := N_of_ascii b in
  ((x =? 194) && ((y =? 133) || (y =? 160)))%N.

Definition space3 (a b c : ascii) : bool :=
  let x := N_of_ascii a in
  let y := N_of_ascii b in
  let z := N_of_ascii c in
  (((x =? 225) && (y =? 154) && (z =? 128)) ||
   ((x =? 226) && (y =? 128) &&
    (((128 <=? z) && (z <=? 138)) || (z =? 168) || (z =? 169) || (z =? 175))) ||
   ((x =? 226) && (y =? 129) && (z =? 159)) ||
   ((x =? 227) && (y =? 128) && (z =? 128)))%N.

(** Does the text start with a character to strip: one byte accepted by
    [p1], two by [p2] or three by [p3]? *)
Definition starts_with_char (p1 : ascii -> bool) (p2 : ascii -> ascii -> bool)
    (p3 : ascii -> ascii -> ascii -> bool) (s : string) : bool :=
  match s with
  | String a s1 =>
      p1 a ||
      match s1 with
      | String b s2 =>
          p2 a b ||
          match s2 with
          | String c _ => p3 a b c
          | EmptyString => false
          end
      | EmptyString => false
      end
  | EmptyString => false
  end.

(** The characters to strip are removed from the front, one after the
    other. *)
Fixpoint lstrip_chars (p1 : ascii -> bool) (p2 : ascii -> ascii -> bool)
    (p3 : ascii -> ascii -> ascii -> bool) (s : string) : string :=
  match s with
  | String a s1 =>
      if p1 a then lstrip_chars p1 p2 p3 s1
      else
        match s1 with
        | String b s2 =>
            if p2 a b then lstrip_chars p1 p2 p3 s2
            else
              match s2 with
              | String c s3 =>
                  if p3 a b c then lstrip_chars p1 p2 p3 s3 else s
              | EmptyString => s
              end
        | EmptyString => s
        end
  | EmptyString => EmptyString
  end.

(** [str.lstrip()] *)
Definition str_lstrip : string -> string :=
  lstrip_chars str_isspace space2 space3.

(** [str.rstrip()]: the same from the end, where the bytes of a character
    come in the reverse order. *)
Definition str_rstrip (s : string) : string :=
  String.rev
    (lstrip_chars str_isspace (fun a b => space2 b a) (fun a b c => space3 c b a)
       (String.rev s)).

(** [str.strip()]: every white-space character of Unicode is removed
    from both ends. *)
Definition str_strip (s : string) : string := str_rstrip (str_lstrip s).

(** A continuation byte [10xxxxxx] of UTF-8. *)
Definition utf8_cont (c : ascii) : bool :=
  let n := N_of_ascii c in ((128 <=? n) && (n <=? 191))%N.

(** The second byte of a sequence of UTF-8 led by the byte [x]: no
    overlong form, no surrogate, nothing above U+10FFFF. *)
Definition utf8_second (x : N) (b : ascii) : bool :=
  let y := N_of_ascii b in
  (if x =? 224 then (160 <=? y) && (y <=? 191)
   else if x =? 237 then (128 <=? y) && (y <=? 159)
   else if x =? 240 then (144 <=? y) && (y <=? 191)
   else if x =? 244 then (128 <=? y) && (y <=? 143)
   else utf8_cont b)%N.

(** The bytes are well-formed UTF-8: [bytes.decode('utf-8')] returns. *)
Fixpoint utf8_valid (s : string) : bool :=
  match s with
  | EmptyString => true
  | String a s1 =>
      let x := N_of_ascii a in
      if (x <? 128)%N then utf8_valid s1
      else
        match s1 with
        | String b s2 =>
            if ((194 <=? x) && (x <=? 223))%N then utf8_cont b && utf8_valid s2
            else
              match s2 with
              | String c s3 =>
                  if ((224 <=? x) && (x <=? 239))%N
                  then utf8_second x b && utf8_cont c && utf8_valid s3
                  else
                    match s3 with
                    | String d s4 =>
                        ((240 <=? x) && (x <=? 244))%N &&
                        utf8_second x b && utf8_cont c && utf8_cont d &&
                        utf8_valid s4
                    | EmptyString => false
                    end
              | EmptyString => false
              end
        | EmptyString => false
        end
  end.

(** [b.decode('utf-8')], which raises [UnicodeDecodeError] on bytes that
    are not well-formed; a [str] being modelled by its encoding, the
    decoded text is the bytes themselves. *)
Definition decode_utf8 (b : string) : outcome string :=
  if utf8_valid b then Ok b else Raise ValueError.

(** [s.rstrip('/')] *)
Definition rstrip_slash : string -> string :=
  rstrip_by (fun c => Ascii.eqb c "/").

(** [posixpath.join(a, b)] *)
Definition path_join (a b : string) : string :=
  if startswith "/" b then b
  else if String.eqb a "" || endswith "/" a then a +:+ b
  else a +:+ "/" +:+ b.

Fixpoint drop_to_slash (s : string) : string :=
  match s with
  | EmptyString => EmptyString
  | String c s' => if Ascii.eqb c "/" then s else drop_to_slash s'
  end.

(** [posixpath.dirname(p)]: everything up to the last ['/'], with the
    trailing slashes removed unless nothing else is left. *)
Definition dirname (p : string) : string :=
  let rhead := drop_to_slash (String.rev p) in
  match lstrip_by (fun c => Ascii.eqb c "/") rhead with
  | EmptyString => String.rev rhead
  | stripped => String.rev stripped
  end.

(** [l[-2]], which raises [IndexError] on a list shorter than two. *)
Definition index_minus2 {A} (l : list A) : option A :=
  match rev l with
  | _ :: x :: _ => Some x
  | _ => None
  end.

(** ['%s' % x] for an attribute that is a string or [None]. *)
Definition fmt (x : option string) : string :=
  match x with
  | Some s => s
  | None => "None"
  end.

(** Truth value of an attribute that is a string or [None]. *)
Definition truthy (x : option string) : bool :=
  match x with
  | Some s => negb (String.eqb s "")
  | None => false
  end.

End Py.

(** ** ansibullbot/wrappers/ghapiwrapper.py: GithubWrapper *)

Module GhApi.
Import Py.

(** *** Values returned by [rr.json()] and by the pagination merge *)

(** Keys of a Python [dict]. [rr.json()] only produces [KStr] keys; the
    others can appear when [dict.update] is fed a list of pairs. *)
Inductive pykey :=
| KStr (s : string)
| KInt (z : Z)
| KBool (b : bool)
| KNone.

(** JSON documents as Python values. A [dict] keeps its insertion order. *)
#[warnings="-register-all"]
Inductive json :=
| JNull
| JBool (b : bool)
| JNum (z : Z)
| JStr (s : string)
| JList (l : list json)
| JDict (d : list (pykey * json)).

Definition key_num (k : pykey) : option Z :=
  match k with
  | KInt z => Some z
  | KBool b => Some (if b then 1 else 0)
  | _ => None
  end.

(** Python's [==] on keys: [True == 1] and [False == 0]. *)
Definition key_eqb (a b : pykey) : bool :=
  match a, b with
  | KStr s, KStr t => String.eqb s t
  | KNone, KNone => true
  | _, _ =>
      match key_num a, key_num b with
      | Some x, Some y => Z.eqb x y
      | _, _ => false
      end
  end.

(** [d.get(k)] *)
Fixpoint dict_get (k : pykey) (d : list (pykey * json)) : option json :=
  match d with
  | [] => None
  | (k', v) :: d' => if key_eqb k' k then Some v else dict_get k d'
  end.

(** [d[k] = v]: an existing key keeps its place (and its key object), a
    new one goes last. *)
Fixpoint dict_set (k : pykey) (v : json) (d : list (pykey * json))
  : list (pykey * json) :=
  match d with
  | [] => [(k, v)]
  | (k', v') :: d' =>
      if key_eqb k' k then (k', v) :: d' else (k', v') :: dict_set k v d'
  end.

Definition dict_set_all (d : list (pykey * json)) (kvs : list (pykey * json))
  : list (pykey * json) :=
  fold_left (fun acc kv => dict_set (fst kv) (snd kv) acc) kvs d.

Definition key_to_json (k : pykey) : json :=
  match k with
  | KStr s => JStr s
  | KInt z => JNum z
  | KBool b => JBool b
  | KNone => JNull
  end.

(** The key an object hashes to, [None] for the unhashable [list] and
    [dict]. *)
Definition hashable (j : json) : option pykey :=
  match j with
  | JStr s => Some (KStr s)
  | JNum z => Some (KInt z)
  | JBool b => Some (KBool b)
  | JNull => Some KNone
  | JList _ | JDict _ => None
  end.

(** The characters of a text from the one whose first bytes are [cur]
    (in reverse) on: a character goes up to the next byte that is not a
    continuation byte. *)
Fixpoint chars_from (cur : string) (s : string) : list json :=
  match s with
  | EmptyString => [JStr (String.rev cur)]
  | String c s' =>
      if utf8_cont c then chars_from (String c cur) s'
      else JStr (String.rev cur) :: chars_from (String c EmptyString) s'
  end.

(** Iterating over a [str] yields its one-character strings: the code
    points of the text, each a [str] of its own. *)
Definition chars (s : string) : list json :=
  match s with
  | EmptyString => []
  | String c s' => chars_from (String c EmptyString) s'
  end.

(** [bool(x)] *)
Definition json_truthy (j : json) : bool :=
  match j with
  | JNull => false
  | JBool b => b
  | JNum z => negb (z =? 0)
  | JStr s => negb (String.eqb s "")
  | JList l => match l with [] => false | _ => true end
  | JDict d => match d with [] => false | _ => true end
  end.

(** [data += _data] for a list [data]: [list.__iadd__] extends the list by
    iterating over its argument. *)
Definition list_iadd (data : list json) (_data : json) : outcome (list json) :=
  match _data with
  | JList l => Ok (data ++ l)
  | JDict d => Ok (data ++ map (fun kv => key_to_json (fst kv)) d)
  | JStr s => Ok (data ++ chars s)
  | JNull | JBool _ | JNum _ => Raise TypeError
  end.

(** One element of the sequence given to [dict.update]: it must itself be
    a sequence of length two, whose first element is hashable. *)
Definition update_pair (e : json) : outcome (pykey * json) :=
  match e with
  | JList [k; v] =>
      match hashable k with
      | Some key => Ok (key, v)
      | None => Raise TypeError
      end
  | JList _ => Raise ValueError
  | JStr s =>
      match chars s with
      | [JStr a; b] => Ok (KStr a, b)
      | _ => Raise ValueError
      end
  | JDict [(k1, _); (k2, _)] => Ok (k1, key_to_json k2)
  | JDict _ => Raise ValueError
  | JNull | JBool _ | JNum _ => Raise TypeError
  end.

Fixpoint update_from_seq (d : list (pykey * json)) (l : list json)
  : outcome (list (pykey * json)) :=
  match l with
  | [] => Ok d
  | e :: l' =>
      match update_pair e with
      | Ok (k, v) => update_from_seq (dict_set k v d) l'
      | Raise x => Raise x
      | OutOfFuel => OutOfFuel
      end
  end.

(** [data.update(_data)] for a dict [data]. *)
Definition dict_update (data : list (pykey * json)) (_data : json)
  : outcome (list (pykey * json)) :=
  match _data with
  | JDict d => Ok (dict_set_all data d)
  | JList l => update_from_seq data l
  | JStr s => update_from_seq data (chars s)
  | JNull | JBool _ | JNum _ => Raise TypeError
  end.

(** *** The environment: HTTP, the cache directory, the metadata store *)

Record request := {
  req_url : string;
  req_headers : list (string * string)
}.

(** What the code reads of a [requests.Response]: [json_body] is [None]
    when [rr.json()] raises, [links] maps a relation to its url. *)
Record response := {
  status_code : Z;
  json_body : option json;
  resp_headers : list (string * string);
  links : list (string * string)
}.

(** The server answers a request knowing the requests made before;
    [None] is a connection failure. *)
Definition server := list request -> request -> option response.

(** A file of the cache directory: a gzip stream holding a serialised
    document, a plain text serialisation of one, or anything else. *)
Inductive file_data :=
| GzipJson (j : json)
| TextJson (j : json)
| Opaque.

(** A row of the request metadata table. *)
Record meta := {
  etag : option string;
  cachefile : string;
  headers_snapshot : list (string * string)
}.

Record state := {
  files : gmap string file_data;
  dirs : gset string;
  adb : gmap (string * option string) meta;
  sent : list request
}.

Definition with_files (f : gmap string file_data) (st : state) : state :=
  {| files := f; dirs := dirs st; adb := adb st; sent := sent st |}.
Definition with_dirs (d : gset string) (st : state) : state :=
  {| files := files st; dirs := d; adb := adb st; sent := sent st |}.
Definition with_adb (a : gmap (string * option string) meta) (st : state) : state :=
  {| files := files st; dirs := dirs st; adb := a; sent := sent st |}.
Definition with_sent (s : list request) (st : state) : state :=
  {| files := files st; dirs := dirs st; adb := adb st; sent := s |}.

(** Code that reads and writes the state and may raise. *)
Definition M (A : Type) : Type := state -> outcome A * state.

Definition ret {A} (a : A) : M A := fun st => (Ok a, st).
Definition raise {A} (e : exn) : M A := fun st => (Raise e, st).
Definition lift {A} (o : outcome A) : M A := fun st => (o, st).
Definition bind {A B} (m : M A) (k : A -> M B) : M B :=
  fun st =>
    match m st with
    | (Ok a, st') => k a st'
    | (Raise e, st') => (Raise e, st')
    | (OutOfFuel, st') => (OutOfFuel, st')
    end.

Notation "x <- m ;; k" := (bind m (fun x => k))
  (at level 100, m at next level, right associativity).
Notation "m ;;; k" := (bind m (fun _ => k))
  (at level 100, right associativity).

(** [os.path.exists] *)
Definition path_exists (p : string) (st : state) : bool :=
  bool_decide (is_Some (files st !! p)) || bool_decide (p ∈ dirs st).

(** [os.makedirs], taken to succeed; only the leaf directory is recorded. *)
Definition makedirs (p : string) : M unit :=
  fun st => (Ok tt, with_dirs ({[p]} ∪ dirs st) st).

(** [json.loads(open(p).read())]: the file is read as text. A gzip stream
    is not text that parses (its second byte 0x8b is no UTF-8 start byte,
    its first 0x1f no JSON token). *)
Definition read_text_json (p : string) : M json :=
  fun st =>
    match files st !! p with
    | Some (TextJson j) => (Ok j, st)
    | Some (GzipJson _) => (Raise ValueError, st)
    | Some Opaque => (Raise ValueError, st)
    | None => (Raise OSError, st)
    end.

(** Modelled from the spec: [ansibullbot.utils.file_tools.read_gzip_json_file]
    is not among the sources; it decompresses the file and deserialises the
    body ("compressed serialized bodies"). *)
Definition read_gzip_json_file (p : string) : M json :=
  fun st =>
    match files st !! p with
    | Some (GzipJson j) => (Ok j, st)
    | Some (TextJson _) => (Raise OSError, st)
    | Some Opaque => (Raise OSError, st)
    | None => (Raise OSError, st)
    end.

(** Modelled from the spec: [ansibullbot.utils.file_tools.write_gzip_json_file]
    is not among the sources; it serialises the body and stores it
    compressed at the given path. *)
Definition write_gzip_json_file (p : string) (data : json) : M unit :=
  fun st =>
    if bool_decide (p ∈ dirs st) then (Raise OSError, st)
    else (Ok tt, with_files (<[p := GzipJson data]> (files st)) st).

(** Header names are case-insensitive in [requests]. *)
Fixpoint header_get (name : string) (hs : list (string * string)) : option string :=
  match hs with
  | [] => None
  | (n, v) :: hs' =>
      if String.eqb (lower n) (lower name) then Some v else header_get name hs'
  end.

(** Modelled from the spec: the RequestMetadataStore
    ([ansibullbot.utils.sqlite_utils.AnsibullbotDatabase] is not among the
    sources), a durable mapping from the url (and token) to
    etag, cache path and headers snapshot; a url without a row gives
    [None]. *)
Definition get_github_api_request_meta (url : string) (token : option string)
  : M (option meta) :=
  fun st => (Ok (adb st !! (url, token)), st).

(** Modelled from the spec: the row of the url is replaced by the etag of
    the response, the cache path and the headers ("holding at least
    etag, cachePath, headersSnapshot"). *)
Definition set_github_api_request_meta (url : string)
    (hs : list (string * string)) (cdf : string) (token : option string)
  : M unit :=
  fun st =>
    (Ok tt,
     with_adb (<[(url, token) :=
                  {| etag := header_get "ETag" hs;
                     cachefile := cdf;
                     headers_snapshot := hs |}]> (adb st)) st).

(** [dict.get] on a dict with string keys, first match. *)
Fixpoint assoc (k : string) (l : list (string * string)) : option string :=
  match l with
  | [] => None
  | (k', v) :: l' => if String.eqb k' k then Some v else assoc k l'
  end.

Definition HEADERS : list string := [
  "application/json";
  "application/vnd.github.mockingbird-preview";
  "application/vnd.github.sailor-v-preview+json";
  "application/vnd.github.starfox-preview+json";
  "application/vnd.github.squirrel-girl-preview";
  "application/vnd.github.v3+json"
].

Record GithubWrapper := {
  token : option string;
  cachedir : string
}.

Definition cached_requests_dir (self : GithubWrapper) : string :=
  path_join (cachedir self) "cached_requests".

(** The cache file of a url. *)
Definition cdf_of (self : GithubWrapper) (url : string) : string :=
  path_join (cached_requests_dir self) (replace "https://" "" url +:+ ".json.gz").

(** The two headers of every request. *)
Definition base_headers (self : GithubWrapper) : list (string * string) := [
  ("Accept", join "," HEADERS);
  ("Authorization", "Bearer " +:+ fmt (token self))
].

(** [isinstance(data, dict) and data.get('message')] followed by the test
    of ['api rate limit exceeded']. *)
Definition handle_ratelimits (data : json) : M unit :=
  match data with
  | JDict d =>
      match dict_get (KStr "message") d with
      | Some m =>
          if json_truthy m then
            match m with
            | JStr s =>
                if startswith "api rate limit exceeded" (lower s)
                then raise RateLimitError
                else ret tt
            | _ => raise AttributeError
            end
          else ret tt
      | None => ret tt
      end
  | _ => ret tt
  end.

Section Wrapper.

Variable srv : server.
Variable self : GithubWrapper.

(** [requests.get(url, headers=headers)] *)
Definition requests_get (url : string) (hs : list (string * string)) : M response :=
  fun st =>
    let rq := {| req_url := url; req_headers := hs |} in
    let st' := with_sent (sent st ++ [rq]) st in
    match srv (sent st) rq with
    | Some rr => (Ok rr, st')
    | None => (Raise OSError, st')
    end.

(** [rr.json()] *)
Definition rr_json (rr : response) : M json :=
  match json_body rr with
  | Some j => ret j
  | None => raise ValueError
  end.

(** [rr.links.get('next')], then [rr.links['next']['url']] *)
Definition next_link (rr : response) : option string := assoc "next" (links rr).

(** [GithubWrapper.get_request]. The decorator [RateLimited] of
    [ansibullbot.decorators.github] is not among the sources: what is
    embedded is the body of the method, and the nested call
    [self.get_request] hands on the result or the exception of that body.
    One unit of [fuel] is one call. *)
Fixpoint get_request (fuel : nat) (url : string) : M json :=
  match fuel with
  | O => lift OutOfFuel
  | S fuel' =>
      let headers := base_headers self in
      rr <- requests_get url headers ;;
      data <- rr_json rr ;;
      handle_ratelimits data ;;;
      match next_link rr with
      | Some next =>
          _data <- get_request fuel' next ;;
          match data with
          | JList l => l' <- lift (list_iadd l _data) ;; ret (JList l')
          | JDict d => d' <- lift (dict_update d _data) ;; ret (JDict d')
          | _ => ret data
          end
      | None => ret data
      end
  end.

(** [os.path.exists] as a step of the code. *)
Definition os_path_exists (p : string) : M bool :=
  fun st => (Ok (path_exists p st), st).

(** Lines 82-84: the directory of the cache file is created on demand. *)
Definition prepare_cache_dir (cdf : string) : M unit :=
  let cdd := dirname cdf in
  cdd_exists <- os_path_exists cdd ;;
  if negb cdd_exists then makedirs cdd else ret tt.

(** Lines 100-102: [If-None-Match] is added when the stored etag is truthy
    and the cache file exists. *)
Definition conditional_headers (m : option meta) (cdf_exists : bool)
  : list (string * string) :=
  match m with
  | Some mt =>
      match etag mt with
      | Some e =>
          if negb (String.eqb e "") && cdf_exists
          then [("If-None-Match", e)]
          else []
      | None => []
      end
  | None => []
  end.

(** Lines 90-104: the headers are built and the GET is issued. *)
Definition conditional_get (url cdf : string) : M response :=
  m <- get_github_api_request_meta url (token self) ;;
  cdf_exists <- os_path_exists cdf ;;
  let headers := base_headers self ++ conditional_headers m cdf_exists in
  requests_get url headers.

(** Lines 106-120: the data of the response, from the cache file on a
    304, from the body (then written to the cache file) otherwise. *)
Definition response_data (rr : response) (cdf : string) : M json :=
  if status_code rr =? 304 then
    (* not modified *)
    read_text_json cdf
  else
    data <- rr_json rr ;;
    (* handle ratelimits ... *)
    handle_ratelimits data ;;;
    (* cache data to disk *)
    write_gzip_json_file cdf data ;;;
    ret data.

(** Lines 126-131: pagination. *)
Definition follow_next_link (fuel : nat) (rr : response) (data : json) : M json :=
  match next_link rr with
  | Some next =>
      _data <- get_request fuel next ;;
      match data with
      | JList l => l' <- lift (list_iadd l _data) ;; ret (JList l')
      | JDict d => d' <- lift (dict_update d _data) ;; ret (JDict d')
      | _ => raise AttributeError
      end
  | None => ret data
  end.

(** [GithubWrapper.get_cached_request], the body of the method as for
    [get_request]. [fuel] bounds the pagination done by [get_request]. *)
Definition get_cached_request (fuel : nat) (url : string) : M json :=
  let url_parts := split "/" url in
  let cdf := cdf_of self url in
  prepare_cache_dir cdf ;;;
  part <- lift (match index_minus2 url_parts with
                | Some p => Ok p
                | None => Raise IndexError
                end) ;;
  cdf_exists <- os_path_exists cdf ;;
  (* commits are static and can always be used from cache *)
  if String.eqb part "commits" && cdf_exists then read_gzip_json_file cdf
  else
    rr <- conditional_get url cdf ;;
    data <- response_data rr cdf ;;
    (* save the meta *)
    set_github_api_request_meta url (resp_headers rr) cdf (token self) ;;;
    (* pagination *)
    follow_next_link fuel rr data.

(** *** Notions used to state the properties *)

(** The state once the directory of the cache file of [url] is there. *)
Definition prepared (url : string) (st : state) : state :=
  let cdd := dirname (cdf_of self url) in
  if path_exists cdd st then st else with_dirs ({[cdd]} ∪ dirs st) st.

(** The request that [get_cached_request] sends for [url] from [st]. *)
Definition first_request (url : string) (st : state) : request :=
  {| req_url := url;
     req_headers :=
       base_headers self ++
       conditional_headers (adb st !! (url, token self))
                           (path_exists (cdf_of self url) st) |}.

(** The request that [get_request] sends for [url]. *)
Definition plain_request (url : string) : request :=
  {| req_url := url; req_headers := base_headers self |}.

(** What [get_cached_request] does once the response [rr] is there. *)
Definition after_response (fuel : nat) (url : string) (rr : response) : M json :=
  data <- response_data rr (cdf_of self url) ;;
  set_github_api_request_meta url (resp_headers rr) (cdf_of self url) (token self) ;;;
  follow_next_link fuel rr data.

(** [plain st st']: from [st] to [st'] the cache directory and the
    metadata store are untouched, and the requests sent in between carry
    the two base headers only. *)
Definition plain (st st' : state) : Prop :=
  files st' = files st /\ dirs st' = dirs st /\ adb st' = adb st /\
  exists new, sent st' = sent st ++ new /\
    Forall (fun rq => req_headers rq = base_headers self) new.

(** [confined url st st']: as [plain], except that the cache file and
    the metadata row of [url] may have changed. *)
Definition confined (url : string) (st st' : state) : Prop :=
  (forall p, p <> cdf_of self url -> files st' !! p = files st !! p) /\
  (forall k, k <> (url, token self) -> adb st' !! k = adb st !! k) /\
  exists new, sent st' = sent st ++ new /\
    Forall (fun rq => req_headers rq = base_headers self) new.

(** A body that passes the rate limit test. *)
Definition ratelimit_free (data : json) : Prop :=
  forall st, handle_ratelimits data st = (Ok tt, st).



End Wrapper.






(** The body carries the rate limit message. *)
Definition rate_limited (data : json) : Prop :=
  exists d m, data = JDict d /\
    dict_get (KStr "message") d = Some (JStr m) /\
    startswith "api rate limit exceeded" (lower m) = true.

End GhApi.

(** ** ansibullbot/wrappers/ghapiwrapper.py: RepoWrapper.load_update_fetch *)

Module RepoCache.
Import Py.

(** The elements of a sub-collection (labels, assignees). *)
Definition item := string.

(** The content of a pickle file: one that fails to load, a pickled falsy
    value, or the two-element list [[updated, events]] that
    [load_update_fetch] dumps ([updated] may be [None]). *)
Inductive pickle_data :=
| PCorrupt
| PFalsy
| PEntry (updated : option Z) (events : list item).

(** The cache directory, the remote repository object, the local
    [self.repo] object refreshed by [update()], the clock, and the log of
    the collection getters called on the remote. *)
Record state := {
  pickles : gmap string pickle_data;
  dirs : gset string;
  remote_updated_at : Z;
  remote_get : string -> option (list item);
  repo_updated_at : Z;
  now : Z;
  fetched : list string
}.

Record RepoWrapper := {
  cachedir : string
}.

Definition with_pickles (p : gmap string pickle_data) (st : state) : state :=
  {| pickles := p; dirs := dirs st; remote_updated_at := remote_updated_at st;
     remote_get := remote_get st; repo_updated_at := repo_updated_at st;
     now := now st; fetched := fetched st |}.
Definition with_dirs (d : gset string) (st : state) : state :=
  {| pickles := pickles st; dirs := d; remote_updated_at := remote_updated_at st;
     remote_get := remote_get st; repo_updated_at := repo_updated_at st;
     now := now st; fetched := fetched st |}.
Definition with_repo_updated_at (t : Z) (st : state) : state :=
  {| pickles := pickles st; dirs := dirs st; remote_updated_at := remote_updated_at st;
     remote_get := remote_get st; repo_updated_at := t;
     now := now st; fetched := fetched st |}.
Definition with_fetched (l : list string) (st : state) : state :=
  {| pickles := pickles st; dirs := dirs st; remote_updated_at := remote_updated_at st;
     remote_get := remote_get st; repo_updated_at := repo_updated_at st;
     now := now st; fetched := l |}.
Definition with_now (t : Z) (st : state) : state :=
  {| pickles := pickles st; dirs := dirs st; remote_updated_at := remote_updated_at st;
     remote_get := remote_get st; repo_updated_at := repo_updated_at st;
     now := t; fetched := fetched st |}.

(** [self.repo.update()]: the local object takes the remote's attributes. *)
Definition repo_update (st : state) : state :=
  with_repo_updated_at (remote_updated_at st) st.

(** [getattr(self.repo, 'get_' + property_name)()], listed in full. *)
Definition call_getter (property_name : string) (st : state)
  : outcome (list item) * state :=
  match remote_get st property_name with
  | Some l => (Ok l, with_fetched (fetched st ++ ["get_" +:+ property_name]) st)
  | None => (Raise AttributeError, st)
  end.

(** [os.path.isfile(pfile)] *)
Definition isfile (p : string) (st : state) : bool :=
  bool_decide (is_Some (pickles st !! p)).

Definition pfile_of (self : RepoWrapper) (property_name : string) : string :=
  path_join (cachedir self) (property_name +:+ ".pickle").

Section LoadUpdateFetch.

(** [ansibullbot.constants.DEFAULT_PICKLE_ISSUES] *)
Variable DEFAULT_PICKLE_ISSUES : bool.
Variable self : RepoWrapper.

(** [RepoWrapper.load_update_fetch], the body of the method under its
    decorator [RateLimited]. The local variables are threaded as in the
    source. *)
Definition load_update_fetch (property_name : string) (st0 : state)
  : outcome (list item) * state :=
  let st := repo_update st0 in
  let pfile := pfile_of self property_name in
  let pdir := dirname pfile in
  let st := if bool_decide (pdir ∈ dirs st) then st
            else with_dirs ({[pdir]} ∪ dirs st) st in
  (* edata, update, write_cache after the try block *)
  let '(edata, update, write_cache) :=
    match pickles st !! pfile with
    | Some PCorrupt => (None, true, true)
    | Some PFalsy => (None, false, false)
    | Some (PEntry u ev) => (Some (u, ev), false, false)
    | None => (None, false, false)
    end in
  (* check the timestamp on the cache *)
  let checked : outcome (option Z * list item * bool * bool) :=
    match edata with
    | Some (Some u, ev) =>
        if u <? repo_updated_at st then Ok (Some u, ev, true, true)
        else Ok (Some u, ev, update, write_cache)
    | Some (None, ev) => Raise TypeError
    | None => Ok (None, [], update, write_cache)
    end in
  match checked with
  | Raise e => (Raise e, st)
  | OutOfFuel => (OutOfFuel, st)
  | Ok (updated, events, update, write_cache) =>
      (* pull all events if timestamp is behind or no events cached *)
      let pulled :=
        if update || match events with [] => true | _ => false end then
          match call_getter property_name st with
          | (Ok l, st') => (Ok (Some (now st), l, true), st')
          | (Raise e, st') => (Raise e, st')
          | (OutOfFuel, st') => (OutOfFuel, st')
          end
        else (Ok (updated, events, write_cache), st) in
      match pulled with
      | (Raise e, st') => (Raise e, st')
      | (OutOfFuel, st') => (OutOfFuel, st')
      | (Ok (updated, events, write_cache), st') =>
          if DEFAULT_PICKLE_ISSUES && (write_cache || negb (isfile pfile st'))
          then (Ok events,
                with_pickles (<[pfile := PEntry updated events]> (pickles st')) st')
          else (Ok events, st')
      end
  end.

End LoadUpdateFetch.

End RepoCache.

(** ** ansibullbot/utils/git_tools.py: GitRepoWrapper *)

Module GitTools.
Import Py.

(** What the wrapper does to the outside world, in order.  The model
    follows the runs in which [shutil.rmtree], [os.makedirs], the
    download and the extraction of an archive return: one that fails
    ends the call with the exception of its library. *)
Inductive event :=
| Run (cmd : string) (env : list (string * string))
| Rmtree (path : string)
| Makedirs (path : string)
| Download (url : string)
| Extract (path : string).

(** The outside world: what a subprocess returns ([rc], [so], [se]), and
    what the file system answers, after a given history of events. *)
Record world := {
  run_result : list event -> string -> Z * string * string;
  isdir_result : list event -> string -> bool;
  exists_result : list event -> string -> bool;
  read_result : list event -> string -> outcome string
}.

Record GitRepoWrapper := {
  _needs_rebase : bool;
  repo : option string;
  commit : option string;
  context : option string;
  _lrev_map : gmap string string;
  _is_git : bool;
  checkoutdir : option string;
  _files : list string;
  commits_by_email : option (list (string * list string))
}.

Definition with_lrev_map (m : gmap string string) (o : GitRepoWrapper) :=
  {| _needs_rebase := _needs_rebase o; repo := repo o; commit := commit o;
     context := context o; _lrev_map := m; _is_git := _is_git o;
     checkoutdir := checkoutdir o; _files := _files o;
     commits_by_email := commits_by_email o |}.
Definition with_is_git (b : bool) (o : GitRepoWrapper) :=
  {| _needs_rebase := _needs_rebase o; repo := repo o; commit := commit o;
     context := context o; _lrev_map := _lrev_map o; _is_git := b;
     checkoutdir := checkoutdir o; _files := _files o;
     commits_by_email := commits_by_email o |}.
Definition with_checkoutdir (d : option string) (o : GitRepoWrapper) :=
  {| _needs_rebase := _needs_rebase o; repo := repo o; commit := commit o;
     context := context o; _lrev_map := _lrev_map o; _is_git := _is_git o;
     checkoutdir := d; _files := _files o;
     commits_by_email := commits_by_email o |}.
Definition with_files (l : list string) (o : GitRepoWrapper) :=
  {| _needs_rebase := _needs_rebase o; repo := repo o; commit := commit o;
     context := context o; _lrev_map := _lrev_map o; _is_git := _is_git o;
     checkoutdir := checkoutdir o; _files := l;
     commits_by_email := commits_by_email o |}.
Definition with_commits_by_email (c : option (list (string * list string)))
    (o : GitRepoWrapper) :=
  {| _needs_rebase := _needs_rebase o; repo := repo o; commit := commit o;
     context := context o; _lrev_map := _lrev_map o; _is_git := _is_git o;
     checkoutdir := checkoutdir o; _files := _files o;
     commits_by_email := c |}.

(** The object and the history so far. *)
Definition state : Type := GitRepoWrapper * list event.

Definition M (A : Type) : Type := state -> outcome A * state.

Definition ret {A} (a : A) : M A := fun st => (Ok a, st).
Definition raise {A} (e : exn) : M A := fun st => (Raise e, st).
Definition bind {A B} (m : M A) (k : A -> M B) : M B :=
  fun st =>
    match m st with
    | (Ok a, st') => k a st'
    | (Raise e, st') => (Raise e, st')
    | (OutOfFuel, st') => (OutOfFuel, st')
    end.

Notation "x <- m ;; k" := (bind m (fun x => k))
  (at level 100, m at next level, right associativity).
Notation "m ;;; k" := (bind m (fun _ => k))
  (at level 100, right associativity).

Definition get_self : M GitRepoWrapper := fun st => (Ok (fst st), st).
Definition modify_self (f : GitRepoWrapper -> GitRepoWrapper) : M unit :=
  fun st => (Ok tt, (f (fst st), snd st)).
Definition emit (e : event) : M unit :=
  fun st => (Ok tt, (fst st, snd st ++ [e])).

(** The environment passed to the git commands that may prompt. *)
Definition GIT_ENV : list (string * string) :=
  [("GIT_TERMINAL_PROMPT", "0"); ("GIT_ASKPASS", "/bin/echo")].

(** Does the text mention ['http']? *)
Definition has_http (x : string) : bool := contains "http" x.

Section World.

Variable W : world.

(** Modelled from the spec: [ansibullbot.utils.systemtools.run_command]
    is not among the sources; the command is handed to the shell and its
    exit code, stdout and stderr come back, without raising.
    [ansibullbot._text_compat.to_text], which decodes the output, is the
    identity on [string]. *)
Definition run_command (cmd : string) (env : list (string * string))
  : M (Z * string * string) :=
  fun st => (Ok (run_result W (snd st) cmd), (fst st, snd st ++ [Run cmd env])).

(** [os.path.isdir], which raises [TypeError] on [None]. *)
Definition os_isdir (p : option string) : M bool :=
  fun st =>
    match p with
    | Some d => (Ok (isdir_result W (snd st) d), st)
    | None => (Raise TypeError, st)
    end.

(** [os.path.exists] *)
Definition os_exists (p : string) : M bool :=
  fun st => (Ok (exists_result W (snd st) p), st).

(** [open(fp, 'r', encoding='utf-8').read()] *)
Definition read_file (p : string) : M string :=
  fun st => (read_result W (snd st) p, st).

(** [self.repo.endswith('.tar.gz')]: [None] has no such attribute. *)
Definition repo_endswith_targz : M bool :=
  o <- get_self ;;
  match repo o with
  | Some r => ret (endswith ".tar.gz" r)
  | None => raise AttributeError
  end.

(** [GitRepoWrapper.isgit] *)
Definition isgit : M bool :=
  b <- repo_endswith_targz ;;
  ret (negb b).

(** [GitRepoWrapper.create_checkout] *)
Definition create_checkout : M unit :=
  o <- get_self ;;
  d <- os_isdir (checkoutdir o) ;;
  (if d then emit (Rmtree (fmt (checkoutdir o))) else ret tt) ;;;
  tgz <- repo_endswith_targz ;;
  if tgz then
    modify_self (with_is_git false) ;;;
    emit (Download (fmt (repo o))) ;;;
    emit (Makedirs (fmt (checkoutdir o))) ;;;
    emit (Extract (fmt (checkoutdir o)))
  else
    let cmd := "git clone " +:+ fmt (repo o) +:+ " " +:+ fmt (checkoutdir o) in
    r <- run_command cmd GIT_ENV ;;
    let '(rc, so, se) := r in
    if negb (rc =? 0) then emit (Makedirs (fmt (checkoutdir o))) else ret tt.

(** [GitRepoWrapper.update_checkout] *)
Definition update_checkout : M bool :=
  o <- get_self ;;
  if truthy (commit o) then
    let cmd := "cd " +:+ fmt (checkoutdir o) +:+
               "; git log -1  | head -n1 | awk '{print $2}'" in
    r <- run_command cmd [] ;;
    let '(rc, so, se) := r in
    let so := str_strip so in
    r2 <- (if negb (String.eqb so (fmt (commit o))) then
             let cmd := "cd " +:+ fmt (checkoutdir o) +:+ "; git checkout " +:+
                        fmt (commit o) in
             r' <- run_command cmd GIT_ENV ;;
             let '(rc', so', se') := r' in
             ret (rc', true)
           else ret (rc, false)) ;;
    let '(rc, changed) := r2 in
    changed <- (if negb (rc =? 0) then create_checkout ;;; ret true
                else ret changed) ;;
    modify_self (with_commits_by_email None) ;;;
    ret changed
  else
    let cmd := "cd " +:+ fmt (checkoutdir o) +:+ " ; git pull --rebase" in
    r <- run_command cmd GIT_ENV ;;
    let '(rc, so, se) := r in
    (* If rebase failed, recreate the checkout *)
    if negb (rc =? 0) then
      create_checkout ;;;
      ret true
    else
      let changed :=
        negb (contains "current branch devel is up to date." (lower so)) in
      modify_self (with_commits_by_email None) ;;;
      ret changed.

(** [GitRepoWrapper.manage_checkout] *)
Definition manage_checkout : M bool :=
  o <- get_self ;;
  if negb (_is_git o) then ret false
  else
    d <- os_isdir (checkoutdir o) ;;
    if negb d then
      create_checkout ;;;
      ret true
    else if _needs_rebase o then update_checkout
    else ret false.

(** The lines of [git ls-files], stripped, without the empty ones. *)
Definition tracked_files (so : string) : list string :=
  map str_strip (filter (fun x => negb (String.eqb (str_strip x) "")) (split "010" so)).

(** The lines of [find .] that start with ['./'], without that prefix. *)
Definition found_files (so : string) : list string :=
  map (replace_first "./" "")
      (filter (fun fp => startswith "./" fp) (split "010" so)).

(** [GitRepoWrapper.get_files] *)
Definition get_files (force : bool) : M unit :=
  g <- isgit ;;
  o <- get_self ;;
  if g then
    if match _files o with [] => true | _ => false end || force then
      let cmd := "cd " +:+ fmt (checkoutdir o) +:+ "; git ls-files" in
      r <- run_command cmd [] ;;
      let '(rc, so, se) := r in
      let files := tracked_files so in
      (if truthy (context o) then
         modify_self (with_files
           (filter (fun x => bool_decide (fmt (context o) ∈ files)) files))
       else ret tt) ;;;
      modify_self (with_files files)
    else ret tt
  else
    modify_self (with_files []) ;;;
    let cmd := "cd " +:+ fmt (checkoutdir o) +:+ "; find ." in
    r <- run_command cmd [] ;;
    let '(rc, so, se) := r in
    modify_self (with_files (found_files so)).

(** [GitRepoWrapper.update] *)
Definition update (force : bool) : M unit :=
  changed <- manage_checkout ;;
  o <- get_self ;;
  (if changed || force || negb (_is_git o) then get_files true else ret tt) ;;;
  modify_self (with_commits_by_email None) ;;;
  modify_self (with_lrev_map ∅).

(** [GitRepoWrapper.files] *)
Definition files : M (list string) :=
  get_files false ;;;
  o <- get_self ;;
  if truthy (context o) then
    let ctx := fmt (context o) in
    let _files := filter (fun x => startswith ctx x) (_files o) in
    ret (map (replace (rstrip_slash ctx +:+ "/") "") _files)
  else ret (_files o).

(** [GitRepoWrapper.exists] *)
Definition exists_ (filename : string) : M bool :=
  fs <- files ;;
  ret (bool_decide (filename ∈ fs)).

(** [GitRepoWrapper.get_last_rev_for_file]. What [git rev-list] prints is
    a revision in hexadecimal or nothing, which [decode('utf-8')] leaves
    as it is. *)
Definition get_last_rev_for_file (filepath : string) : M string :=
  o <- get_self ;;
  match _lrev_map o !! filepath with
  | Some lrev => ret lrev
  | None =>
      let cmd := "cd " +:+ fmt (checkoutdir o) +:+
                 "; git rev-list --max-count=1 --all -- " +:+ filepath in
      r <- run_command cmd [] ;;
      let '(rc, so, se) := r in
      let lrev := bytes_strip so in
      modify_self (fun o => with_lrev_map (<[filepath := lrev]> (_lrev_map o)) o) ;;;
      ret lrev
  end.

(** [GitRepoWrapper.existed] *)
Definition existed (filepath : string) : M bool :=
  o <- get_self ;;
  let filepath :=
    if truthy (context o) then path_join (fmt (context o)) filepath
    else filepath in
  lrev <- get_last_rev_for_file filepath ;;
  ret (negb (String.eqb lrev "")).

(** [so.decode('utf-8')] as a step of the code. *)
Definition decode (b : string) : M string :=
  fun st => (decode_utf8 b, st).

(** [GitRepoWrapper.get_file_content]; the result [None] is Python's.
    With [follow] the result is the [bytes] that git printed. *)
Definition get_file_content (filepath : string) (follow : bool)
  : M (option string) :=
  o <- get_self ;;
  match checkoutdir o with
  | None => raise TypeError
  | Some dir =>
      let fp := path_join dir filepath in
      e <- os_exists fp ;;
      if e then
        data <- read_file fp ;;
        ret (Some data)
      else if negb follow then ret None
      else
        lrev <- get_last_rev_for_file filepath ;;
        let cmd := "cd " +:+ dir +:+ "; git show " +:+ lrev +:+ "^:" +:+ filepath in
        r <- run_command cmd [] ;;
        let '(rc, so, se) := r in
        let so := bytes_strip so in
        text <- decode so ;;
        if endswith ".py" text then
          let newpath := dirname filepath in
          text <- decode so ;;
          let newpath := path_join newpath text in
          lrev <- get_last_rev_for_file filepath ;;
          let cmd := "cd " +:+ dir +:+ "; git show " +:+ lrev +:+ "^:" +:+ newpath in
          r <- run_command cmd [] ;;
          let '(rc, so, se) := r in
          ret (Some (bytes_strip so))
        else ret (Some so)
  end.

(** [os.path.join] of several parts. *)
Definition path_join_all (first : string) (rest : list string) : string :=
  fold_left path_join rest first.

(** [GitRepoWrapper.__init__], from the fresh object. *)
Definition init (cachedir : string) (repo_ : option string)
    (commit_ : option string) (rebase : bool) (context_ : option string)
  : list event -> outcome unit * state :=
  fun history =>
    let o := {| _needs_rebase := rebase; repo := repo_; commit := commit_;
                context := context_; _lrev_map := ∅; _is_git := true;
                checkoutdir := None; _files := [];
                commits_by_email := None |} in
    ((* allow for null repos *)
     (if truthy repo_ then
        let urlparts := split "/" (fmt repo_) in
        let urlparts :=
          filter (fun x => negb (String.eqb x "") && negb (has_http x)) urlparts in
        let dir := path_join_all cachedir urlparts in
        modify_self (with_checkoutdir (Some dir)) ;;;
        let parent := dirname dir in
        e <- os_exists parent ;;
        if negb e then emit (Makedirs parent) else ret tt
      else ret tt) ;;;
     if truthy repo_ then update true else ret tt) (o, history).

(** *** Notions used to state the properties *)

Definition rc_of (r : Z * string * string) : Z := fst (fst r).
Definition stdout_of (r : Z * string * string) : string := snd (fst r).

Definition clone_cmd (r d : string) : string := "git clone " +:+ r +:+ " " +:+ d.
Definition pull_cmd (d : string) : string := "cd " +:+ d +:+ " ; git pull --rebase".
Definition log_cmd (d : string) : string :=
  "cd " +:+ d +:+ "; git log -1  | head -n1 | awk '{print $2}'".
Definition checkout_cmd (d c : string) : string :=
  "cd " +:+ d +:+ "; git checkout " +:+ c.
Definition ls_files_cmd (d : string) : string := "cd " +:+ d +:+ "; git ls-files".
Definition rev_list_cmd (d filepath : string) : string :=
  "cd " +:+ d +:+ "; git rev-list --max-count=1 --all -- " +:+ filepath.
Definition show_cmd (d rev path : string) : string :=
  "cd " +:+ d +:+ "; git show " +:+ rev +:+ "^:" +:+ path.

(** What recreating the checkout [d] of the repository [r] does after
    the history [hist]: the directory is removed if it is there, the
    repository is cloned, and an empty directory is made should the clone
    fail. *)
Definition recreate_events (hist : list event) (r d : string) : list event :=
  let removed := if isdir_result W hist d then [Rmtree d] else [] in
  let cloned := Run (clone_cmd r d) GIT_ENV in
  let made :=
    if negb (rc_of (run_result W (hist ++ removed) (clone_cmd r d)) =? 0)
    then [Makedirs d] else [] in
  removed ++ cloned :: made.

(** The history after a synchronisation of the checkout [d] whose
    subprocess exits non-zero: the rebase when no commit is pinned, the
    checkout of the pinned commit when the head is another one. [None]
    when the subprocess succeeds (or is not run). *)
Definition failed_sync (o : GitRepoWrapper) (hist : list event) (d : string)
  : option (list event) :=
  if truthy (commit o) then
    let c := fmt (commit o) in
    let h := hist ++ [Run (log_cmd d) []] in
    if negb (String.eqb (str_strip (stdout_of (run_result W hist (log_cmd d)))) c)
       && negb (rc_of (run_result W h (checkout_cmd d c)) =? 0)
    then Some (h ++ [Run (checkout_cmd d c) GIT_ENV])
    else None
  else
    if negb (rc_of (run_result W hist (pull_cmd d)) =? 0)
    then Some (hist ++ [Run (pull_cmd d) GIT_ENV])
    else None.


End World.

End GitTools.

(** ** ansibullbot/utils/git_tools.py: the other methods of GitRepoWrapper *)

Module GitMore.
Import Py GitTools.

(** The attributes that the constructor sets and no method changes. *)
Definition config (o : GitRepoWrapper)
  : bool * option string * option string * option string * option string :=
  (_needs_rebase o, repo o, commit o, context o, checkoutdir o).

(** The directory that the constructor derives for a repository: the
    parts of the url that are not empty and do not mention ['http'],
    under the cache directory. *)
Definition checkout_path (cachedir r : string) : string :=
  path_join_all cachedir
    (filter (fun x => negb (String.eqb x "") && negb (has_http x)) (split "/" r)).

(** A piece of code that leaves these attributes as they are. *)
Definition keeps_config {A} (m : M A) : Prop :=
  forall st, config (fst (snd (m st))) = config (fst st).

(** The code returns from the state [st], and only adds to the history. *)
Definition returns {A} (m : M A) (st : state) : Prop :=
  exists a o1 evs, m st = (Ok a, (o1, snd st ++ evs)).

(** The command that lists the files of an extracted archive. *)
Definition find_cmd (d : string) : string := "cd " +:+ d +:+ "; find .".

(** The result of [find]: the pattern itself, or a set of file names. *)
Inductive find_result :=
| Exact (pattern : string)
| Matches (m : gset string).

Section World.

Variable W : world.

(** [GitRepoWrapper.isdir] *)
Definition isdir (filename : string) : M bool :=
  o <- get_self ;;
  match checkoutdir o with
  | None => raise TypeError
  | Some d =>
      let checkfile :=
        if truthy (context o)
        then path_join (path_join d (fmt (context o))) filename
        else path_join d filename in
      os_isdir W (Some checkfile)
  end.

(** [GitRepoWrapper.module_files] *)
Definition module_files : M (list string) :=
  o <- get_self ;;
  ret (filter (fun x => startswith "lib/ansible/modules" x) (_files o)).

(** One round of the loop of [find]. *)
Definition find_step (ctx : option string) (pattern : string)
    (matches : gset string) (fn : string) : gset string :=
  if truthy ctx && negb (contains (fmt ctx) fn) then matches
  else if endswith pattern fn then {[fn]} ∪ matches
  else matches.

(** [GitRepoWrapper.find] *)
Definition find (pattern : string) : M find_result :=
  o <- get_self ;;
  if bool_decide (pattern ∈ _files o) then ret (Exact pattern)
  else ret (Matches (fold_left (find_step (context o) pattern) (_files o) ∅)).

End World.

End GitMore.

(** ** ansibullbot/wrappers/ghapiwrapper.py: the memos of RepoWrapper *)

Module RepoMore.
Import Py RepoCache.

(** [self._assignees] and [self._labels]: [False] ([None] here) until the
    property is first read, the list afterwards. *)
Record memos := {
  _assignees : option (list item);
  _labels : option (list item)
}.

(** The memos that [RepoWrapper.__init__] sets. *)
Definition fresh : memos := {| _assignees := None; _labels := None |}.

Section Properties.

Variable DEFAULT_PICKLE_ISSUES : bool.
Variable self : RepoWrapper.

(** [x.login] for an assignee. *)
Variable login : item -> string.

(** [RepoWrapper.labels] *)
Definition labels (m : memos) (st : state)
  : outcome (list item) * (memos * state) :=
  match _labels m with
  | None =>
      match load_update_fetch DEFAULT_PICKLE_ISSUES self "labels" st with
      | (Ok l, st') =>
          (Ok l, ({| _assignees := _assignees m; _labels := Some l |}, st'))
      | (Raise e, st') => (Raise e, (m, st'))
      | (OutOfFuel, st') => (OutOfFuel, (m, st'))
      end
  | Some l => (Ok l, (m, st))
  end.

(** [RepoWrapper.assignees] *)
Definition assignees (m : memos) (st : state)
  : outcome (list item) * (memos * state) :=
  match _assignees m with
  | None =>
      match load_update_fetch DEFAULT_PICKLE_ISSUES self "assignees" st with
      | (Ok l, st') =>
          (Ok l, ({| _assignees := Some l; _labels := _labels m |}, st'))
      | (Raise e, st') => (Raise e, (m, st'))
      | (OutOfFuel, st') => (OutOfFuel, (m, st'))
      end
  | Some l => (Ok l, (m, st))
  end.

(** [RepoWrapper.has_in_assignees] *)
Definition has_in_assignees (login_ : string) (m : memos) (st : state)
  : outcome bool * (memos * state) :=
  match assignees m st with
  | (Ok l, s) => (Ok (bool_decide (login_ ∈ map login l)), s)
  | (Raise e, s) => (Raise e, s)
  | (OutOfFuel, s) => (OutOfFuel, s)
  end.

End Properties.

End RepoMore.

(** ** ansibullbot/wrappers/ghapiwrapper.py: the issues of RepoWrapper *)

From stdpp Require Import pretty.

Local Open Scope Z_scope.

Module IssueCache.
Import Py.

(** The exceptions that [get_issue] tells apart: the one it handles,
    [TypeError], which [load_issue] handles when [pickle.load] raises it,
    and all the others, by name. *)
Inductive error :=
| UnicodeDecodeError
| PickleTypeError
| OtherError (name : string).

(** The result of a method: a value, a raised exception, or [Looping]
    when the rounds of the loop allowed to the model are used up (the
    Python code would still be looping). *)
Inductive result (A : Type) :=
| Returned (a : A)
| Raised (e : error)
| Looping.
Arguments Returned {A} a.
Arguments Raised {A} e.
Arguments Looping {A}.

(** An issue, as far as the wrapper looks at it: its number, and the
    rest of its attributes. *)
Record issue := {
  number : Z;
  raw_data : string
}.

(** The content of a file [issue.pickle]: an issue, a pickled falsy
    value, or bytes on which [pickle.load] raises. *)
Inductive pickle :=
| PIssue (i : issue)
| PFalsy
| PBroken (e : error).

(** The calls made to the API. *)
Inductive call :=
| GetIssue (number : Z)
| Update (i : issue).

(** The files and directories of the cache, what the API answers after
    the calls made so far, and those calls.  [repo.get_issue(number)]
    gives an issue or raises; [issue.update()] raises, finds nothing new
    ([None]) or gives the issue new attributes. *)
Record state := {
  files : gmap string pickle;
  dirs : gset string;
  remote_get_issue : list call -> Z -> error + issue;
  remote_update : list call -> issue -> error + option issue;
  calls : list call
}.

Definition with_files (f : gmap string pickle) (st : state) : state :=
  {| files := f; dirs := dirs st; remote_get_issue := remote_get_issue st;
     remote_update := remote_update st; calls := calls st |}.
Definition with_dirs (d : gset string) (st : state) : state :=
  {| files := files st; dirs := d; remote_get_issue := remote_get_issue st;
     remote_update := remote_update st; calls := calls st |}.
Definition with_calls (c : list call) (st : state) : state :=
  {| files := files st; dirs := dirs st; remote_get_issue := remote_get_issue st;
     remote_update := remote_update st; calls := c |}.

(** Text without a slash. *)
Fixpoint no_slash (s : string) : bool :=
  match s with
  | EmptyString => true
  | String c s' => negb (Ascii.eqb c "/") && no_slash s'
  end.

(** What [os.path.join] puts in front of a relative second part. *)
Definition joined_prefix (a : string) : string :=
  if String.eqb a "" || endswith "/" a then a else a +:+ "/".

(** Is the path [x] the directory [p] or something below it? *)
Definition under (p x : string) : bool :=
  String.eqb x p || startswith (p +:+ "/") x.

(** [shutil.rmtree(path)], which raises unless the directory is there. *)
Definition rmtree (path : string) (st : state) : result unit * state :=
  if bool_decide (path ∈ dirs st) then
    (Returned tt,
     with_dirs (filter (fun d => negb (under path d)) (dirs st))
       (with_files (filter (fun kv => negb (under path (fst kv))) (files st)) st))
  else (Raised (OtherError "FileNotFoundError"), st).

Section Issues.

(** [ansibullbot.constants.DEFAULT_PICKLE_ISSUES] *)
Variable DEFAULT_PICKLE_ISSUES : bool.

(** [self.cachedir] *)
Variable cachedir : string.

(** [os.path.join(self.cachedir, 'issues', str(number))] *)
Definition issue_dir (number : Z) : string :=
  path_join (path_join cachedir "issues") (pretty number).

(** [os.path.join(self.cachedir, 'issues', str(number), 'issue.pickle')] *)
Definition issue_file (number : Z) : string :=
  path_join (issue_dir number) "issue.pickle".

(** [RepoWrapper.load_issue]; [None] is a falsy result. *)
Definition load_issue (number : Z) (st : state) : result (option issue) :=
  if negb DEFAULT_PICKLE_ISSUES then Returned None
  else
    match files st !! issue_file number with
    | Some (PIssue i) => Returned (Some i)
    | Some PFalsy => Returned None
    | Some (PBroken PickleTypeError) => Returned None
    | Some (PBroken e) => Raised e
    | None => Returned None
    end.

(** [RepoWrapper.save_issue] *)
Definition save_issue (i : issue) (st : state) : state :=
  if negb DEFAULT_PICKLE_ISSUES then st
  else
    let cfile := issue_file (number i) in
    let cdir := dirname cfile in
    let st := if bool_decide (cdir ∈ dirs st) then st
              else with_dirs ({[cdir]} ∪ dirs st) st in
    with_files (<[cfile := PIssue i]> (files st)) st.

(** The body of the [try] block of [get_issue]. *)
Definition get_issue_try (number : Z) (st : state) : result issue * state :=
  match load_issue number st with
  | Raised e => (Raised e, st)
  | Looping => (Looping, st)
  | Returned (Some i) =>
      let st' := with_calls (calls st ++ [Update i]) st in
      match remote_update st (calls st) i with
      | inl e => (Raised e, st')
      | inr None => (Returned i, st')
      | inr (Some i') => (Returned i', save_issue i' st')
      end
  | Returned None =>
      let st' := with_calls (calls st ++ [GetIssue number]) st in
      match remote_get_issue st (calls st) number with
      | inl e => (Raised e, st')
      | inr i => (Returned i, save_issue i st')
      end
  end.

(** [RepoWrapper.get_issue], the body of the method under its decorator
    [RateLimited]; [fuel] bounds the rounds of its [while True]. *)
Fixpoint get_issue (fuel : nat) (number : Z) (st : state)
  : result issue * state :=
  match fuel with
  | O => (Looping, st)
  | S fuel =>
      match get_issue_try number st with
      | (Raised UnicodeDecodeError, st') =>
          match rmtree (issue_dir number) st' with
          | (Returned _, st'') => get_issue fuel number st''
          | (Raised e, st'') => (Raised e, st'')
          | (Looping, st'') => (Looping, st'')
          end
      | r => r
      end
  end.

End Issues.

End IssueCache.

(** ** Concrete situations used as witnesses and counterexamples *)

Module Scenario.
Import Py.

(** *** One issue, fetched twice *)

Definition gh : GhApi.GithubWrapper :=
  {| GhApi.token := Some "secret"; GhApi.cachedir := "/cache" |}.

Definition issue_url : string := "https://api.github.com/repos/a/b/issues/1".

(** The document [{"id": 1, "state": "open"}]. *)
Definition issue_body : GhApi.json :=
  GhApi.JDict [(GhApi.KStr "id", GhApi.JNum 1);
               (GhApi.KStr "state", GhApi.JStr "open")].

(** A server that knows one document under the etag [abc]: it answers 304
    to a request that presents this etag and 200 with the document
    otherwise. *)
Definition etag_server : GhApi.server :=
  fun _ rq =>
    match GhApi.header_get "If-None-Match" (GhApi.req_headers rq) with
    | Some "abc" =>
        Some {| GhApi.status_code := 304; GhApi.json_body := None;
                GhApi.resp_headers := [("ETag", "abc")]; GhApi.links := [] |}
    | _ =>
        Some {| GhApi.status_code := 200; GhApi.json_body := Some issue_body;
                GhApi.resp_headers := [("ETag", "abc")]; GhApi.links := [] |}
    end.

Definition empty_cache : GhApi.state :=
  {| GhApi.files := ∅; GhApi.dirs := ∅; GhApi.adb := ∅; GhApi.sent := [] |}.

(** The cache after the first fetch of the issue. *)
Definition warm_cache : GhApi.state :=
  snd (GhApi.get_cached_request etag_server gh 1 issue_url empty_cache).

(** *** A server out of quota *)

Definition quota_body : GhApi.json :=
  GhApi.JDict [(GhApi.KStr "message",
                GhApi.JStr "API rate limit exceeded for user ID 1.")].

Definition quota_response : GhApi.response :=
  {| GhApi.status_code := 403; GhApi.json_body := Some quota_body;
     GhApi.resp_headers := []; GhApi.links := [] |}.

Definition quota_server : GhApi.server := fun _ _ => Some quota_response.

(** *** Paginated collections *)

Definition labels_url : string := "https://api.github.com/repos/a/b/labels".
Definition labels_url2 : string := "https://api.github.com/repos/a/b/labels?page=2".

Definition labels_page1 : GhApi.json :=
  GhApi.JList [GhApi.JStr "bug"; GhApi.JStr "docs"].
Definition labels_page2 : GhApi.json :=
  GhApi.JList [GhApi.JStr "feature"].

Definition labels_response1 : GhApi.response :=
  {| GhApi.status_code := 200; GhApi.json_body := Some labels_page1;
     GhApi.resp_headers := [("ETag", "l1")];
     GhApi.links := [("next", labels_url2)] |}.
Definition labels_response2 : GhApi.response :=
  {| GhApi.status_code := 200; GhApi.json_body := Some labels_page2;
     GhApi.resp_headers := [("ETag", "l2")]; GhApi.links := [] |}.

(** Two pages of labels. *)
Definition labels_server : GhApi.server :=
  fun _ rq =>
    if String.eqb (GhApi.req_url rq) labels_url then Some labels_response1
    else if String.eqb (GhApi.req_url rq) labels_url2 then Some labels_response2
    else None.





(** *** The labels of a repository, cached by [load_update_fetch] *)

Definition rw : RepoCache.RepoWrapper := {| RepoCache.cachedir := "/cache/a/b" |}.

(** A repository without labels, last updated at 50; the cache holds an
    empty list of labels stamped 100. *)
Definition no_labels_cached : RepoCache.state :=
  {| RepoCache.pickles :=
       {[ RepoCache.pfile_of rw "labels" := RepoCache.PEntry (Some 100) [] ]};
     RepoCache.dirs := {[ "/cache/a/b" ]};
     RepoCache.remote_updated_at := 50;
     RepoCache.remote_get :=
       fun p => if String.eqb p "labels" then Some [] else None;
     RepoCache.repo_updated_at := 50;
     RepoCache.now := 200;
     RepoCache.fetched := [] |}.

(** The same repository with nothing cached yet. *)
Definition no_labels_cold : RepoCache.state :=
  RepoCache.with_pickles ∅ no_labels_cached.

(** A repository with two labels, last updated at 50, nothing cached, the
    clock at 200. *)
Definition two_labels_cold : RepoCache.state :=
  {| RepoCache.pickles := ∅;
     RepoCache.dirs := ∅;
     RepoCache.remote_updated_at := 50;
     RepoCache.remote_get :=
       fun p => if String.eqb p "labels" then Some ["bug"; "docs"] else None;
     RepoCache.repo_updated_at := 0;
     RepoCache.now := 200;
     RepoCache.fetched := [] |}.

(** *** A mirror of a git repository *)

Definition nl : string := String "010" EmptyString.

Definition mirror_dir : string := "/cache/github.com/ansible/ansible".

(** The object of a mirror that was set up earlier. *)
Definition mirror : GitTools.GitRepoWrapper :=
  {| GitTools._needs_rebase := true;
     GitTools.repo := Some "https://github.com/ansible/ansible";
     GitTools.commit := None;
     GitTools.context := None;
     GitTools._lrev_map := ∅;
     GitTools._is_git := true;
     GitTools.checkoutdir := Some mirror_dir;
     GitTools._files := ["setup.py"];
     GitTools.commits_by_email := None |}.

(** The same mirror pinned to the commit [abc123]. *)
Definition pinned_mirror : GitTools.GitRepoWrapper :=
  {| GitTools._needs_rebase := true;
     GitTools.repo := Some "https://github.com/ansible/ansible";
     GitTools.commit := Some "abc123";
     GitTools.context := None;
     GitTools._lrev_map := ∅;
     GitTools._is_git := true;
     GitTools.checkoutdir := Some mirror_dir;
     GitTools._files := ["setup.py"];
     GitTools.commits_by_email := None |}.

(** A world in which the rebase and the checkout of a commit fail, the
    clone succeeds, and two files are tracked. *)
Definition conflict_world : GitTools.world :=
  {| GitTools.run_result := fun _ cmd =>
       if String.eqb cmd (GitTools.pull_cmd mirror_dir) then (1, "", "CONFLICT")
       else if String.eqb cmd (GitTools.log_cmd mirror_dir) then (0, "fff999" +:+ nl, "")
       else if String.eqb cmd (GitTools.checkout_cmd mirror_dir "abc123")
            then (1, "", "error: pathspec")
       else if String.eqb cmd (GitTools.ls_files_cmd mirror_dir)
            then (0, "README.md" +:+ nl +:+ "setup.py" +:+ nl, "")
       else (0, "", "");
     GitTools.isdir_result := fun _ _ => true;
     GitTools.exists_result := fun _ _ => true;
     GitTools.read_result := fun _ _ => Raise OSError |}.

(** A world in which [setup.py] is in the working tree, and two files
    are not: [removed_module.py], whose last revision is [c3] and whose
    content before it was a line of Python, and [docs/run.txt], whose
    last revision is [c4] and whose content before it was the words
    [python setup.py]. *)
Definition history_world : GitTools.world :=
  {| GitTools.run_result := fun _ cmd =>
       if String.eqb cmd (GitTools.rev_list_cmd mirror_dir "removed_module.py")
       then (0, "c3" +:+ nl, "")
       else if String.eqb cmd (GitTools.show_cmd mirror_dir "c3" "removed_module.py")
       then (0, "print('hi')" +:+ nl, "")
       else if String.eqb cmd (GitTools.rev_list_cmd mirror_dir "docs/run.txt")
       then (0, "c4" +:+ nl, "")
       else if String.eqb cmd (GitTools.show_cmd mirror_dir "c4" "docs/run.txt")
       then (0, "python setup.py", "")
       else (128, "", "fatal");
     GitTools.isdir_result := fun _ _ => true;
     GitTools.exists_result := fun _ p =>
       String.eqb p (path_join mirror_dir "setup.py");
     GitTools.read_result := fun _ p =>
       if String.eqb p (path_join mirror_dir "setup.py")
       then Ok ("import setuptools" +:+ nl)
       else Raise OSError |}.

(** A world without any git repository around: every command fails and
    prints nothing. *)
Definition bare_world : GitTools.world :=
  {| GitTools.run_result := fun _ _ => (128, "", "fatal: not a git repository");
     GitTools.isdir_result := fun _ _ => false;
     GitTools.exists_result := fun _ _ => false;
     GitTools.read_result := fun _ _ => Raise OSError |}.

End Scenario.

(** ** More concrete situations *)

Module Scenario2.
Import Py.

(** *** A page that is neither a list nor a mapping *)

Definition zen_url : string := "https://api.github.com/zen".
Definition zen_url2 : string := "https://api.github.com/zen?page=2".

Definition zen_response1 : GhApi.response :=
  {| GhApi.status_code := 200;
     GhApi.json_body := Some (GhApi.JStr "Keep it logically awesome.");
     GhApi.resp_headers := [("ETag", "z1")];
     GhApi.links := [("next", zen_url2)] |}.

Definition zen_server : GhApi.server :=
  fun _ rq =>
    if String.eqb (GhApi.req_url rq) zen_url then Some zen_response1
    else if String.eqb (GhApi.req_url rq) zen_url2 then
      Some {| GhApi.status_code := 200;
              GhApi.json_body := Some (GhApi.JStr "Half measures are as bad as nothing at all.");
              GhApi.resp_headers := []; GhApi.links := [] |}
    else None.

(** *** Cache files of labels that are of no use *)

(** A repository with two labels, last updated at 50, the clock at 200;
    the cache file of the labels does not load. *)
Definition labels_corrupt : RepoCache.state :=
  RepoCache.with_pickles
    {[ RepoCache.pfile_of Scenario.rw "labels" := RepoCache.PCorrupt ]}
    Scenario.two_labels_cold.

(** The same repository; the cache file holds one label stamped 10. *)
Definition labels_stale : RepoCache.state :=
  RepoCache.with_pickles
    {[ RepoCache.pfile_of Scenario.rw "labels" :=
         RepoCache.PEntry (Some 10) ["bug"] ]}
    Scenario.two_labels_cold.

(** *** Mirrors that need nothing, mirrors of archives, and contexts *)

(** A world in which the rebase finds nothing new. *)
Definition quiet_world : GitTools.world :=
  {| GitTools.run_result := fun _ cmd =>
       if String.eqb cmd (GitTools.pull_cmd Scenario.mirror_dir)
       then (0, "Current branch devel is up to date." +:+ Scenario.nl, "")
       else if String.eqb cmd (GitTools.ls_files_cmd Scenario.mirror_dir)
       then (0, "README.md" +:+ Scenario.nl +:+ " setup.py " +:+ Scenario.nl
                +:+ Scenario.nl +:+ String "194" (String "160" "nbsp.py")
                +:+ String "226" (String "128" (String "168" Scenario.nl)), "")
       else (0, "", "");
     GitTools.isdir_result := fun _ _ => true;
     GitTools.exists_result := fun _ _ => true;
     GitTools.read_result := fun _ _ => Raise OSError |}.


Definition archive_url : string := "https://example.org/dist/ansible.tar.gz".
Definition archive_dir : string := "/cache/example.org/dist/ansible.tar.gz".

(** The object of a mirror of an archive, as the constructor sets it
    before its call of [update]. *)
Definition archive : GitTools.GitRepoWrapper :=
  {| GitTools._needs_rebase := true;
     GitTools.repo := Some archive_url;
     GitTools.commit := None;
     GitTools.context := None;
     GitTools._lrev_map := ∅;
     GitTools._is_git := true;
     GitTools.checkoutdir := Some archive_dir;
     GitTools._files := [];
     GitTools.commits_by_email := None |}.

(** A world in which the archive has been extracted by an earlier run,
    and git fails in its directory. *)
Definition archive_world : GitTools.world :=
  {| GitTools.run_result := fun _ cmd =>
       if String.eqb cmd (GitMore.find_cmd archive_dir)
       then (0, "." +:+ Scenario.nl +:+ "./setup.py" +:+ Scenario.nl +:+
                "./lib" +:+ Scenario.nl +:+ "./lib/a.py" +:+ Scenario.nl, "")
       else (128, "", "fatal: not a git repository");
     GitTools.isdir_result := fun _ _ => true;
     GitTools.exists_result := fun _ _ => true;
     GitTools.read_result := fun _ _ => Raise OSError |}.

(** The mirror seen through the context [lib/]. *)
Definition lib_mirror : GitTools.GitRepoWrapper :=
  {| GitTools._needs_rebase := true;
     GitTools.repo := Some "https://github.com/ansible/ansible";
     GitTools.commit := None;
     GitTools.context := Some "lib/";
     GitTools._lrev_map := ∅;
     GitTools._is_git := true;
     GitTools.checkoutdir := Some Scenario.mirror_dir;
     GitTools._files := ["lib/a.py"; "setup.py"; "docs/lib/b.py"];
     GitTools.commits_by_email := None |}.

(** *** Removed files that point elsewhere, or that do not decode *)


(** *** Pages of different shapes *)



(** *** Issues *)

Definition issue7 : IssueCache.issue :=
  {| IssueCache.number := 7; IssueCache.raw_data := "crash" |}.

Definition issue7_edited : IssueCache.issue :=
  {| IssueCache.number := 7; IssueCache.raw_data := "crash on start" |}.

(** Issue 7 is on the server, nothing is cached. *)
Definition issues_cold : IssueCache.state :=
  {| IssueCache.files := ∅;
     IssueCache.dirs := ∅;
     IssueCache.remote_get_issue := fun _ n =>
       if n =? 7 then inr issue7_edited
       else inl (IssueCache.OtherError "UnknownObjectException");
     IssueCache.remote_update := fun _ i =>
       if String.eqb (IssueCache.raw_data i) "crash" then inr (Some issue7_edited)
       else inr None;
     IssueCache.calls := [] |}.

(** The same, with a cache file of issue 7 that does not decode. *)
Definition issues_broken : IssueCache.state :=
  IssueCache.with_dirs {[ IssueCache.issue_dir "/cache/a/b" 7 ]}
    (IssueCache.with_files
       {[ IssueCache.issue_file "/cache/a/b" 7 :=
            IssueCache.PBroken IssueCache.UnicodeDecodeError ]}
       issues_cold).

(** The same, with issue 7 cached as it was before it was edited. *)
Definition issues_cached : IssueCache.state :=
  IssueCache.with_dirs {[ IssueCache.issue_dir "/cache/a/b" 7 ]}
    (IssueCache.with_files
       {[ IssueCache.issue_file "/cache/a/b" 7 := IssueCache.PIssue issue7 ]}
       issues_cold).

(** The same, with issue 7 cached as it is on the server. *)
Definition issues_up_to_date : IssueCache.state :=
  IssueCache.with_files
    {[ IssueCache.issue_file "/cache/a/b" 7 := IssueCache.PIssue issue7_edited ]}
    issues_cached.

(** Issue 7 is cached, and refreshing it fails to decode. *)
Definition issues_cached_undecodable : IssueCache.state :=
  {| IssueCache.files := IssueCache.files issues_cached;
     IssueCache.dirs := IssueCache.dirs issues_cached;
     IssueCache.remote_get_issue := IssueCache.remote_get_issue issues_cached;
     IssueCache.remote_update := fun _ _ => inl IssueCache.UnicodeDecodeError;
     IssueCache.calls := [] |}.

(** A server on which every call fails to decode. *)
Definition issues_undecodable : IssueCache.state :=
  {| IssueCache.files := ∅;
     IssueCache.dirs := {[ IssueCache.issue_dir "/cache/a/b" 7 ]};
     IssueCache.remote_get_issue := fun _ _ => inl IssueCache.UnicodeDecodeError;
     IssueCache.remote_update := fun _ _ => inl IssueCache.UnicodeDecodeError;
     IssueCache.calls := [] |}.

End Scenario2.
Example split_url :
  Py.split "/" "https://api.github.com/repos/a/b" =
  ["https:"; ""; "api.github.com"; "repos"; "a"; "b"].
Proof. reflexivity. Qed.

Example replace_url :
  Py.replace "https://" "" "https://api.github.com/repos" = "api.github.com/repos".
Proof. reflexivity. Qed.

Example dirname_ex :
  Py.dirname "/c/api.github.com/x.json.gz" = "/c/api.github.com" /\
  Py.dirname "x" = "" /\ Py.dirname "//x" = "//" /\ Py.dirname "a//b" = "a".
Proof. repeat split; reflexivity. Qed.

Example strip_ex : Py.bytes_strip "  ab c
" = "ab c".
Proof. reflexivity. Qed.


Example join_all_ex :
  GitTools.path_join_all "/cache" ["github.com"; "ansible"; "ansible"] =
  "/cache/github.com/ansible/ansible".
Proof. reflexivity. Qed.

Example endswith_ex :
  Py.endswith ".tar.gz" "https://host/a.tar.gz" = true /\
  Py.endswith ".tar.gz" "" = false /\
  Py.contains "up to date." "current branch devel is up to date." = true.
Proof. repeat split; reflexivity. Qed.

(** [[1] += {"a": 2}] extends the list by the keys, [[1] += 2] raises. *)
Example list_iadd_ex :
  GhApi.list_iadd [GhApi.JNum 1] (GhApi.JDict [(GhApi.KStr "a", GhApi.JNum 2)]) =
    Py.Ok [GhApi.JNum 1; GhApi.JStr "a"] /\
  GhApi.list_iadd [GhApi.JNum 1] (GhApi.JNum 2) = Py.Raise Py.TypeError.
Proof. split; reflexivity. Qed.

(** [{"a": 1}.update([["b", 2]])] adds the pair, [{"a": 1}.update([1])]
    raises. *)
Example dict_update_ex :
  GhApi.dict_update [(GhApi.KStr "a", GhApi.JNum 1)]
    (GhApi.JList [GhApi.JList [GhApi.JStr "b"; GhApi.JNum 2]]) =
    Py.Ok [(GhApi.KStr "a", GhApi.JNum 1); (GhApi.KStr "b", GhApi.JNum 2)] /\
  GhApi.dict_update [(GhApi.KStr "a", GhApi.JNum 1)]
    (GhApi.JList [GhApi.JNum 1]) = Py.Raise Py.TypeError.
Proof. split; reflexivity. Qed.

(** The first fetch of the issue stores the body compressed, and the etag
    in the metadata store. *)
Example first_fetch_ex :
  fst (GhApi.get_cached_request Scenario.etag_server Scenario.gh 1
         Scenario.issue_url Scenario.empty_cache) = Py.Ok Scenario.issue_body /\
  GhApi.files Scenario.warm_cache !! GhApi.cdf_of Scenario.gh Scenario.issue_url =
    Some (GhApi.GzipJson Scenario.issue_body) /\
  GhApi.etag <$> (GhApi.adb Scenario.warm_cache !! (Scenario.issue_url, Some "secret")) =
    Some (Some "abc").
Proof. repeat split; reflexivity. Qed.

(** The stored body of a commit is served by [read_gzip_json_file]
    without a request. *)
Example commit_from_cache_ex :
  let url := "https://api.github.com/repos/a/b/commits/abc123" in
  let st := GhApi.with_files
              {[ GhApi.cdf_of Scenario.gh url := GhApi.GzipJson Scenario.issue_body ]}
              Scenario.empty_cache in
  let r := GhApi.get_cached_request Scenario.etag_server Scenario.gh 1 url st in
  fst r = Py.Ok Scenario.issue_body /\ GhApi.sent (snd r) = [].
Proof. split; reflexivity. Qed.

(** Constructing the wrapper for a repository: the checkout directory is
    derived from the url, and the files are listed. *)
Example init_ex :
  let r := GitTools.init Scenario.conflict_world "/cache"
             (Some "https://github.com/ansible/ansible") None true None [] in
  fst r = Py.Ok tt /\
  GitTools.checkoutdir (fst (snd r)) = Some Scenario.mirror_dir /\
  GitTools._files (fst (snd r)) = ["README.md"; "setup.py"].
Proof. repeat split; reflexivity. Qed.

(** A rebase that finds nothing new changes nothing. *)
Example up_to_date_ex :
  let W := {| GitTools.run_result := fun _ _ =>
                (0, "Current branch devel is up to date.", "");
              GitTools.isdir_result := fun _ _ => true;
              GitTools.exists_result := fun _ _ => true;
              GitTools.read_result := fun _ _ => Py.Raise Py.OSError |} in
  GitTools.manage_checkout W (Scenario.mirror, []) =
  (Py.Ok false,
   (Scenario.mirror,
    [GitTools.Run (GitTools.pull_cmd Scenario.mirror_dir) GitTools.GIT_ENV])).
Proof. reflexivity. Qed.
Import Py.

(** ** Strings and paths *)

Lemma app_cons x (a b : string) : String x a +:+ b = String x (a +:+ b).
Proof. reflexivity. Qed.

Lemma app_nil_l (b : string) : "" +:+ b = b.
Proof. reflexivity. Qed.

Lemma app_assoc_s (a b c : string) : (a +:+ b) +:+ c = a +:+ (b +:+ c).
Proof. induction a as [|x a IH]; [done|]. rewrite !app_cons. by rewrite IH. Qed.

Lemma app_empty_r (a : string) : a +:+ "" = a.
Proof. induction a as [|x a IH]; [done|]. rewrite app_cons. by rewrite IH. Qed.

Lemma app_length_s (a b : string) :
  String.length (a +:+ b) = (String.length a + String.length b)%nat.
Proof. induction a as [|x a IH]; [done|]. rewrite app_cons. simpl. by rewrite IH. Qed.

Lemma rev_app_spec s1 s2 : String.rev_app s1 s2 = String.rev s1 +:+ s2.
Proof.
  unfold String.rev. revert s2.
  induction s1 as [|c s1 IH]; intros s2; simpl; [done|].
  rewrite (IH (String c s2)), (IH (String c "")), app_assoc_s. done.
Qed.

Lemma rev_cons c s : String.rev (String c s) = String.rev s +:+ String c "".
Proof. unfold String.rev at 1. simpl. apply rev_app_spec. Qed.

Lemma rev_append (a b : string) : String.rev (a +:+ b) = String.rev b +:+ String.rev a.
Proof.
  induction a as [|x a IH].
  - by rewrite app_nil_l, app_empty_r.
  - rewrite app_cons, !rev_cons, IH, app_assoc_s. done.
Qed.

Lemma rev_length s : String.length (String.rev s) = String.length s.
Proof.
  induction s as [|c s IH]; [done|].
  rewrite rev_cons, app_length_s, IH. simpl. lia.
Qed.

Lemma lstrip_by_length f s : (String.length (lstrip_by f s) <= String.length s)%nat.
Proof. induction s as [|c s IH]; simpl; [done|]. destruct (f c); simpl; lia. Qed.

Lemma drop_to_slash_length s : (String.length (drop_to_slash s) <= String.length s)%nat.
Proof.
  induction s as [|c s IH]; simpl; [done|].
  destruct (Ascii.eqb c "/"); simpl; lia.
Qed.

Lemma dirname_shorter p c r :
  String.rev p = String c r -> c <> "/"%char ->
  (String.length (dirname p) < String.length p)%nat.
Proof.
  intros Hr Hc. unfold dirname. rewrite Hr. simpl.
  apply Ascii.eqb_neq in Hc. rewrite Hc.
  assert (Hp : String.length p = S (String.length r)).
  { rewrite <- rev_length, Hr. done. }
  pose proof (drop_to_slash_length r) as H1.
  pose proof (lstrip_by_length (fun c => Ascii.eqb c "/") (drop_to_slash r)) as H2.
  destruct (lstrip_by _ (drop_to_slash r)) eqn:E; rewrite rev_length.
  - lia.
  - simpl in H2. simpl. lia.
Qed.

Lemma path_join_rev a b : exists t, String.rev (path_join a b) = String.rev b +:+ t.
Proof.
  unfold path_join. destruct (startswith "/" b).
  - exists "". by rewrite app_empty_r.
  - destruct (_ || _).
    + eexists. apply rev_append.
    + eexists. rewrite !rev_append, app_assoc_s. done.
Qed.

Lemma cdf_not_its_dirname self url :
  dirname (GhApi.cdf_of self url) <> GhApi.cdf_of self url.
Proof.
  unfold GhApi.cdf_of.
  destruct (path_join_rev (GhApi.cached_requests_dir self)
              (replace "https://" "" url +:+ ".json.gz")) as [t Ht].
  rewrite rev_append in Ht.
  intros Heq.
  eapply (dirname_shorter _ "z") in Ht; [|done].
  rewrite Heq in Ht. lia.
Qed.


(** ** GithubWrapper: conditional requests, rate limits, pagination *)

Section Dicts.
Import GhApi.

Lemma key_eqb_refl k : key_eqb k k = true.
Proof.
  destruct k as [s|z|b|]; simpl; try done.
  - apply String.eqb_refl.
  - apply Z.eqb_refl.
  - by destruct b.
Qed.














End Dicts.

Section GhApiFacts.
Import GhApi.

Variable srv : server.
Variable self : GithubWrapper.

Lemma bind_ok {A B} (m : M A) (k : A -> M B) st a st' :
  m st = (Ok a, st') -> bind m k st = k a st'.
Proof. unfold bind. by intros ->. Qed.

Lemma bind_raise {A B} (m : M A) (k : A -> M B) st e st' :
  m st = (Raise e, st') -> bind m k st = (Raise e, st').
Proof. unfold bind. by intros ->. Qed.

Lemma bind_out_of_fuel {A B} (m : M A) (k : A -> M B) st st' :
  m st = (OutOfFuel, st') -> bind m k st = (OutOfFuel, st').
Proof. unfold bind. by intros ->. Qed.

Lemma prepare_cache_dir_eq url st :
  prepare_cache_dir (cdf_of self url) st = (Ok tt, prepared self url st).
Proof.
  unfold prepare_cache_dir, prepared, bind, os_path_exists.
  by destruct (path_exists _ st).
Qed.

Lemma prepared_files url st : files (prepared self url st) = files st.
Proof. unfold prepared. by destruct (path_exists _ _). Qed.

Lemma prepared_adb url st : adb (prepared self url st) = adb st.
Proof. unfold prepared. by destruct (path_exists _ _). Qed.

Lemma prepared_sent url st : sent (prepared self url st) = sent st.
Proof. unfold prepared. by destruct (path_exists _ _). Qed.

Lemma prepared_path_exists url st :
  path_exists (cdf_of self url) (prepared self url st) = path_exists (cdf_of self url) st.
Proof.
  unfold prepared. destruct (path_exists (dirname _) st) eqn:E; [done|].
  unfold path_exists. simpl. f_equal.
  apply bool_decide_ext. rewrite elem_of_union, elem_of_singleton.
  pose proof (cdf_not_its_dirname self url). intuition congruence.
Qed.

Lemma prepared_cdf_in_dirs url st :
  cdf_of self url ∈ dirs (prepared self url st) <-> cdf_of self url ∈ dirs st.
Proof.
  unfold prepared. destruct (path_exists (dirname _) st) eqn:E; [done|].
  simpl. rewrite elem_of_union, elem_of_singleton.
  pose proof (cdf_not_its_dirname self url). intuition congruence.
Qed.

Lemma conditional_get_eq url st :
  conditional_get srv self url (cdf_of self url) st =
  (match srv (sent st) (first_request self url st) with
   | Some rr => Ok rr
   | None => Raise OSError
   end,
   with_sent (sent st ++ [first_request self url st]) st).
Proof.
  unfold conditional_get, bind, get_github_api_request_meta, os_path_exists,
    requests_get, first_request.
  by destruct (srv _ _).
Qed.

Lemma handle_ratelimits_state data st : snd (handle_ratelimits data st) = st.
Proof.
  unfold handle_ratelimits.
  destruct data as [| | | | |d]; try done.
  destruct (dict_get _ d) as [m|]; [|done].
  destruct (json_truthy m); [|done].
  destruct m; try done.
  by destruct (startswith _ _).
Qed.

Lemma plain_refl st : plain self st st.
Proof. repeat split. exists []. by rewrite app_nil_r. Qed.

Lemma plain_trans st1 st2 st3 : plain self st1 st2 -> plain self st2 st3 -> plain self st1 st3.
Proof.
  intros (Hf1 & Hd1 & Ha1 & n1 & Hs1 & Hall1) (Hf2 & Hd2 & Ha2 & n2 & Hs2 & Hall2).
  repeat split; try congruence.
  exists (n1 ++ n2). split.
  - by rewrite Hs2, Hs1, app_assoc.
  - by apply Forall_app.
Qed.

Lemma plain_requests_get url st :
  plain self st (snd (requests_get srv url (base_headers self) st)).
Proof.
  unfold requests_get.
  assert (plain self st (with_sent
    (sent st ++ [{| req_url := url; req_headers := base_headers self |}]) st)).
  { repeat split. eexists. split; [done|]. by constructor. }
  by destruct (srv _ _).
Qed.

(** [get_request] touches neither the cache directory nor the metadata
    store, and sends no conditional header. *)
Lemma get_request_plain fuel url st :
  plain self st (snd (get_request srv self fuel url st)).
Proof.
  revert url st. induction fuel as [|fuel IH]; intros url st; simpl.
  { apply plain_refl. }
  unfold bind at 1.
  pose proof (plain_requests_get url st) as H1.
  destruct (requests_get srv url (base_headers self) st) as [[rr|e|] st1];
    simpl in H1; try done.
  unfold bind at 1. unfold rr_json at 1.
  destruct (json_body rr) as [data|]; [|done].
  unfold ret at 1. unfold bind at 1.
  pose proof (handle_ratelimits_state data st1) as Hh.
  destruct (handle_ratelimits data st1) as [[[]|e|] st2]; simpl in Hh; subst st2;
    try done.
  destruct (next_link rr) as [next|]; [|done].
  unfold bind at 1.
  specialize (IH next st1).
  destruct (get_request srv self fuel next st1) as [[_data|e|] st3]; simpl in IH;
    pose proof (plain_trans _ _ _ H1 IH) as H3; try done.
  destruct data as [| | | |l|d]; try done.
  - unfold bind, lift. by destruct (list_iadd l _data).
  - unfold bind, lift. by destruct (dict_update d _data).
Qed.

Lemma plain_confined url st st' : plain self st st' -> confined self url st st'.
Proof.
  intros (Hf & Hd & Ha & Hs). repeat split; [by rewrite Hf|by rewrite Ha|done].
Qed.

Lemma confined_refl url st : confined self url st st.
Proof. apply plain_confined, plain_refl. Qed.

Lemma confined_trans url st1 st2 st3 :
  confined self url st1 st2 -> confined self url st2 st3 -> confined self url st1 st3.
Proof.
  intros (Hf1 & Ha1 & n1 & Hs1 & Hall1) (Hf2 & Ha2 & n2 & Hs2 & Hall2).
  repeat split.
  - intros p Hp. by rewrite Hf2, Hf1.
  - intros k Hk. by rewrite Ha2, Ha1.
  - exists (n1 ++ n2). split.
    + by rewrite Hs2, Hs1, app_assoc.
    + by apply Forall_app.
Qed.

Lemma confined_with_files url st data :
  confined self url st (with_files (<[cdf_of self url := data]> (files st)) st).
Proof.
  repeat split; simpl.
  - intros p Hp. by rewrite lookup_insert_ne.
  - exists []. by rewrite app_nil_r.
Qed.

Lemma confined_with_adb url st m :
  confined self url st (with_adb (<[(url, token self) := m]> (adb st)) st).
Proof.
  repeat split; simpl.
  - intros k Hk. by rewrite lookup_insert_ne.
  - exists []. by rewrite app_nil_r.
Qed.

Lemma response_data_confined url rr st :
  confined self url st (snd (response_data rr (cdf_of self url) st)).
Proof.
  unfold response_data. destruct (status_code rr =? 304).
  - unfold read_text_json.
    destruct (files st !! cdf_of self url) as [[]|]; apply confined_refl.
  - unfold bind at 1, rr_json.
    destruct (json_body rr) as [data|]; [|apply confined_refl].
    unfold ret at 1, bind at 1.
    pose proof (handle_ratelimits_state data st) as Hh.
    destruct (handle_ratelimits data st) as [[[]|e|] st2]; simpl in Hh; subst st2;
      try apply confined_refl.
    unfold bind, write_gzip_json_file.
    destruct (bool_decide _); [apply confined_refl|].
    apply confined_with_files.
Qed.

Lemma follow_next_link_plain fuel rr data st :
  plain self st (snd (follow_next_link srv self fuel rr data st)).
Proof.
  unfold follow_next_link.
  destruct (next_link rr) as [next|]; [|apply plain_refl].
  unfold bind at 1.
  pose proof (get_request_plain fuel next st) as H.
  destruct (get_request srv self fuel next st) as [[_data|e|] st3]; simpl in H;
    try done.
  destruct data as [| | | |l|d]; try done.
  - unfold bind, lift. by destruct (list_iadd l _data).
  - unfold bind, lift. by destruct (dict_update d _data).
Qed.

Lemma after_response_confined fuel url rr st :
  confined self url st (snd (after_response srv self fuel url rr st)).
Proof.
  unfold after_response, bind at 1.
  pose proof (response_data_confined url rr st) as H1.
  destruct (response_data rr (cdf_of self url) st) as [[data|e|] st1];
    simpl in H1; try done.
  unfold bind, set_github_api_request_meta.
  set (st2 := with_adb _ st1).
  assert (H2 : confined self url st1 st2) by apply confined_with_adb.
  pose proof (follow_next_link_plain fuel rr data st2) as H3.
  destruct (follow_next_link srv self fuel rr data st2) as [[r|e|] st3];
    simpl in *; eauto using confined_trans, plain_confined.
Qed.

(** The three ways through [get_cached_request]. *)
Lemma get_cached_request_cases fuel url st :
  get_cached_request srv self fuel url st =
  match index_minus2 (split "/" url) with
  | None => (Raise IndexError, prepared self url st)
  | Some part =>
      if String.eqb part "commits" && path_exists (cdf_of self url) st
      then read_gzip_json_file (cdf_of self url) (prepared self url st)
      else
        match srv (sent st) (first_request self url st) with
        | Some rr =>
            after_response srv self fuel url rr
              (with_sent (sent st ++ [first_request self url st])
                         (prepared self url st))
        | None =>
            (Raise OSError,
             with_sent (sent st ++ [first_request self url st])
                       (prepared self url st))
        end
  end.
Proof.
  unfold get_cached_request.
  rewrite (bind_ok _ _ _ _ _ (prepare_cache_dir_eq url st)).
  destruct (index_minus2 (split "/" url)) as [part|]; [|done].
  unfold bind at 1, lift at 1.
  unfold bind at 1, os_path_exists at 1.
  rewrite prepared_path_exists.
  destruct (String.eqb part "commits" && _); [done|].
  unfold bind at 1. rewrite conditional_get_eq.
  assert (Hrq : first_request self url (prepared self url st) = first_request self url st).
  { unfold first_request. by rewrite prepared_adb, prepared_path_exists. }
  rewrite Hrq, prepared_sent.
  destruct (srv (sent st) (first_request self url st)) as [rr|]; done.
Qed.

(** The path taken by a call that is not the special case of commits. *)
Lemma get_cached_request_fetches fuel url st part :
  index_minus2 (split "/" url) = Some part ->
  String.eqb part "commits" && path_exists (cdf_of self url) st = false ->
  get_cached_request srv self fuel url st =
  match srv (sent st) (first_request self url st) with
  | Some rr =>
      after_response srv self fuel url rr
        (with_sent (sent st ++ [first_request self url st]) (prepared self url st))
  | None =>
      (Raise OSError,
       with_sent (sent st ++ [first_request self url st]) (prepared self url st))
  end.
Proof.
  intros Hpart Hspecial.
  by rewrite get_cached_request_cases, Hpart, Hspecial.
Qed.

(** C2. A call of [get_cached_request] that is not served from the cache
    of commits sends one GET for the url first, and this GET carries the
    header [If-None-Match] with value [e] exactly when the metadata store
    has a row for the url whose etag is [e], [e] is not empty, and the
    cache file of the url exists. *)
Theorem conditional_header_iff_etag_and_body fuel url st part :
  index_minus2 (split "/" url) = Some part ->
  String.eqb part "commits" && path_exists (cdf_of self url) st = false ->
  exists rq rest,
    sent (snd (get_cached_request srv self fuel url st)) = sent st ++ rq :: rest /\
    req_url rq = url /\
    forall e,
      header_get "If-None-Match" (req_headers rq) = Some e <->
      ((exists m, adb st !! (url, token self) = Some m /\
                  etag m = Some e /\ e <> "") /\
       path_exists (cdf_of self url) st = true).
Proof.
  intros Hpart Hspecial.
  exists (first_request self url st).
  assert (Hsent : exists rest,
    sent (snd (get_cached_request srv self fuel url st)) =
    sent st ++ first_request self url st :: rest).
  { rewrite (get_cached_request_fetches fuel url st part Hpart Hspecial).
    destruct (srv (sent st) (first_request self url st)) as [rr|].
    - destruct (after_response_confined fuel url rr
        (with_sent (sent st ++ [first_request self url st]) (prepared self url st)))
        as (_ & _ & new & Hs & _).
      exists new. rewrite Hs. simpl. by rewrite <- app_assoc.
    - by exists []. }
  destruct Hsent as [rest Hrest]. exists rest.
  split; [done|]. split; [done|].
  intros e. unfold first_request, conditional_headers. simpl.
  destruct (adb st !! (url, token self)) as [m|] eqn:Hm; simpl.
  - destruct (etag m) as [e'|] eqn:He; simpl.
    + destruct (String.eqb_spec e' ""); simpl.
      * split; [done|]. intros ((m' & Hm' & He' & Hne) & _). congruence.
      * destruct (path_exists (cdf_of self url) st); simpl.
        -- split.
           ++ intros [= <-]. split; [|done]. by exists m.
           ++ intros ((m' & Hm' & He' & Hne) & _). congruence.
        -- split; [done|]. by intros (_ & ?).
    + split; [done|]. intros ((m' & Hm' & He' & Hne) & _). congruence.
  - split; [done|]. intros ((m' & Hm' & _) & _). congruence.
Qed.

Lemma rate_limited_handle data st :
  rate_limited data -> handle_ratelimits data st = (Raise RateLimitError, st).
Proof.
  intros (d & m & -> & Hget & Hpre).
  unfold handle_ratelimits. rewrite Hget.
  destruct m as [|c m]; [done|].
  simpl json_truthy. simpl negb. cbv iota. by rewrite Hpre.
Qed.

(** C5. When the body of a response is a mapping whose ['message'] starts,
    in any letter case, with ['api rate limit exceeded'], [get_request]
    raises [RateLimitError], and so does [get_cached_request] when the
    status is not 304; the cache files and the metadata store are then as
    they were before the call. *)
Theorem rate_limit_raises_and_keeps_cache fuel url st rr data :
  json_body rr = Some data ->
  rate_limited data ->
  (srv (sent st) (plain_request self url) = Some rr ->
   let r := get_request srv self (S fuel) url st in
   fst r = Raise RateLimitError /\
   files (snd r) = files st /\ adb (snd r) = adb st) /\
  (forall part,
   index_minus2 (split "/" url) = Some part ->
   String.eqb part "commits" && path_exists (cdf_of self url) st = false ->
   srv (sent st) (first_request self url st) = Some rr ->
   status_code rr <> 304 ->
   let r := get_cached_request srv self fuel url st in
   fst r = Raise RateLimitError /\
   files (snd r) = files st /\ adb (snd r) = adb st).
Proof.
  intros Hbody Hrl. split.
  - intros Hsrv.
    assert (E : get_request srv self (S fuel) url st =
      (Raise RateLimitError, with_sent (sent st ++ [plain_request self url]) st)).
    { simpl. unfold bind at 1, requests_get at 1.
      fold (plain_request self url). rewrite Hsrv.
      unfold bind at 1, rr_json at 1. rewrite Hbody. unfold ret at 1.
      unfold bind at 1. by rewrite rate_limited_handle. }
    cbv zeta. by rewrite E.
  - intros part Hpart Hspecial Hsrv Hstatus.
    assert (E : get_cached_request srv self fuel url st =
      (Raise RateLimitError,
       with_sent (sent st ++ [first_request self url st]) (prepared self url st))).
    { rewrite (get_cached_request_fetches fuel url st part Hpart Hspecial), Hsrv.
      unfold after_response, bind at 1, response_data.
      apply Z.eqb_neq in Hstatus. rewrite Hstatus.
      unfold bind at 1, rr_json at 1. rewrite Hbody. unfold ret at 1.
      unfold bind at 1. by rewrite rate_limited_handle. }
    cbv zeta. rewrite E. simpl.
    by rewrite prepared_files, prepared_adb.
Qed.


(** C1 (the code departs from it). With the body in the cache file as
    [write_gzip_json_file] left it and a 304 from the server,
    [get_cached_request] does not return the stored body: it reads the
    gzip file as text and raises. *)
Theorem not_modified_reads_the_gzip_file_as_text fuel url st part rr j :
  index_minus2 (split "/" url) = Some part ->
  String.eqb part "commits" = false ->
  files st !! cdf_of self url = Some (GzipJson j) ->
  srv (sent st) (first_request self url st) = Some rr ->
  status_code rr = 304 ->
  fst (get_cached_request srv self fuel url st) = Raise ValueError.
Proof.
  intros Hpart Hcommits Hfile Hsrv Hstatus.
  rewrite (get_cached_request_fetches fuel url st part Hpart)
    by (by rewrite Hcommits).
  rewrite Hsrv. unfold after_response, bind at 1, response_data.
  rewrite Hstatus. simpl. unfold read_text_json. simpl.
  by rewrite prepared_files, Hfile.
Qed.









End GhApiFacts.

Section GhApiWitnesses.
Import GhApi Scenario.

Lemma conditional_header_witness :
  exists rq rest,
    sent (snd (get_cached_request etag_server gh 1 issue_url warm_cache)) =
    sent warm_cache ++ rq :: rest /\
    req_url rq = issue_url /\
    forall e,
      header_get "If-None-Match" (req_headers rq) = Some e <->
      ((exists m, adb warm_cache !! (issue_url, token gh) = Some m /\
                  etag m = Some e /\ e <> "") /\
       path_exists (cdf_of gh issue_url) warm_cache = true).
Proof.
  apply (conditional_header_iff_etag_and_body etag_server gh 1 issue_url
           warm_cache "issues"); reflexivity.
Defined.

Lemma rate_limit_witness :
  (let r := get_request quota_server gh 1 issue_url empty_cache in
   fst r = Raise RateLimitError /\
   files (snd r) = files empty_cache /\ adb (snd r) = adb empty_cache) /\
  (let r := get_cached_request quota_server gh 0 issue_url warm_cache in
   fst r = Raise RateLimitError /\
   files (snd r) = files warm_cache /\ adb (snd r) = adb warm_cache).
Proof.
  assert (Hrl : rate_limited quota_body).
  { exists [(KStr "message", JStr "API rate limit exceeded for user ID 1.")],
      "API rate limit exceeded for user ID 1.". repeat split. }
  split.
  - apply (rate_limit_raises_and_keeps_cache quota_server gh 0 issue_url
             empty_cache quota_response quota_body eq_refl Hrl). reflexivity.
  - apply (proj2 (rate_limit_raises_and_keeps_cache quota_server gh 0 issue_url
             warm_cache quota_response quota_body eq_refl Hrl) "issues");
      try reflexivity.
    vm_compute. discriminate.
Defined.


Lemma not_modified_witness :
  files warm_cache !! cdf_of gh issue_url = Some (GzipJson issue_body) /\
  fst (get_cached_request etag_server gh 1 issue_url warm_cache) = Raise ValueError.
Proof.
  split; [reflexivity|].
  apply (not_modified_reads_the_gzip_file_as_text etag_server gh 1 issue_url
           warm_cache "issues"
           {| status_code := 304; json_body := None;
              resp_headers := [("ETag", "abc")]; links := [] |} issue_body);
    reflexivity.
Defined.





End GhApiWitnesses.

(** ** RepoWrapper.load_update_fetch *)

Section RepoCacheFacts.
Import RepoCache.

Variable DEFAULT_PICKLE_ISSUES : bool.
Variable self : RepoWrapper.

(** A cached entry that is not older than the repository and is not
    empty is returned without a fetch and without a write. *)
Lemma fresh_entry_is_served property_name st u ev :
  pickles st !! pfile_of self property_name = Some (PEntry (Some u) ev) ->
  ev <> [] ->
  remote_updated_at st <= u ->
  let r := load_update_fetch DEFAULT_PICKLE_ISSUES self property_name st in
  fst r = Ok ev /\ fetched (snd r) = fetched st /\ pickles (snd r) = pickles st.
Proof.
  intros Hentry Hne Hfresh. cbv zeta.
  unfold load_update_fetch.
  set (st1 := if bool_decide _ then _ else _).
  assert (Hp : pickles st1 = pickles st).
  { unfold st1. by destruct (bool_decide _). }
  assert (Hu : repo_updated_at st1 = remote_updated_at st).
  { unfold st1. by destruct (bool_decide _). }
  assert (Hf : fetched st1 = fetched st).
  { unfold st1. by destruct (bool_decide _). }
  rewrite Hp, Hentry, Hu.
  replace (u <? remote_updated_at st) with false by (symmetry; apply Z.ltb_ge; lia).
  destruct ev as [|e ev]; [done|]. simpl.
  unfold isfile. rewrite Hp, Hentry. simpl.
  rewrite andb_false_r. done.
Qed.

(** The first call on an empty cache fetches, and stores what it fetched
    under the time of the fetch. *)
Lemma cold_call_fetches_and_stores property_name st items :
  DEFAULT_PICKLE_ISSUES = true ->
  pickles st !! pfile_of self property_name = None ->
  remote_get st property_name = Some items ->
  exists st',
    load_update_fetch DEFAULT_PICKLE_ISSUES self property_name st = (Ok items, st') /\
    pickles st' !! pfile_of self property_name = Some (PEntry (Some (now st)) items) /\
    fetched st' = fetched st ++ ["get_" +:+ property_name] /\
    remote_updated_at st' = remote_updated_at st.
Proof.
  intros -> Hnone Hget.
  unfold load_update_fetch.
  set (st1 := if bool_decide _ then _ else _).
  assert (Hp : pickles st1 = pickles st).
  { unfold st1. by destruct (bool_decide _). }
  assert (Hg : remote_get st1 = remote_get st).
  { unfold st1. by destruct (bool_decide _). }
  assert (Hf : fetched st1 = fetched st).
  { unfold st1. by destruct (bool_decide _). }
  assert (Hn : now st1 = now st).
  { unfold st1. by destruct (bool_decide _). }
  assert (Hr : remote_updated_at st1 = remote_updated_at st).
  { unfold st1. by destruct (bool_decide _). }
  rewrite Hp, Hnone. simpl.
  unfold call_getter. rewrite Hg, Hget. simpl.
  eexists. split; [reflexivity|]. simpl.
  rewrite lookup_insert_eq, Hn, Hf, Hr. done.
Qed.

(** A cached entry without elements is fetched again, whatever its time
    stamp. *)
Lemma empty_entry_is_fetched property_name st u items :
  pickles st !! pfile_of self property_name = Some (PEntry (Some u) []) ->
  remote_get st property_name = Some items ->
  let r := load_update_fetch DEFAULT_PICKLE_ISSUES self property_name st in
  fst r = Ok items /\ fetched (snd r) = fetched st ++ ["get_" +:+ property_name].
Proof.
  intros Hentry Hget. cbv zeta.
  unfold load_update_fetch.
  set (st1 := if bool_decide _ then _ else _).
  assert (Hp : pickles st1 = pickles st).
  { unfold st1. by destruct (bool_decide _). }
  assert (Hg : remote_get st1 = remote_get st).
  { unfold st1. by destruct (bool_decide _). }
  assert (Hf : fetched st1 = fetched st).
  { unfold st1. by destruct (bool_decide _). }
  rewrite Hp, Hentry.
  destruct (u <? repo_updated_at st1); simpl;
    unfold call_getter; rewrite Hg, Hget; simpl;
    destruct (DEFAULT_PICKLE_ISSUES && _); simpl; by rewrite Hf.
Qed.

(** C3, as the code has it. A cached entry that loads, is not empty, and
    whose time stamp is not before the repository's [updated_at], is
    returned as it is, without a fetch; an entry without elements is
    fetched again whatever its time stamp.  Hence, when pickling is
    enabled, nothing is cached yet, the collection is not empty and the
    clock is not behind the repository's [updated_at], two calls in a row
    with that [updated_at] unchanged fetch the collection once in total. *)
Theorem fresh_nonempty_cache_is_not_refetched property_name st :
  (forall u ev,
     pickles st !! pfile_of self property_name = Some (PEntry (Some u) ev) ->
     ev <> [] ->
     remote_updated_at st <= u ->
     let r := load_update_fetch DEFAULT_PICKLE_ISSUES self property_name st in
     fst r = Ok ev /\ fetched (snd r) = fetched st) /\
  (forall u items,
     pickles st !! pfile_of self property_name = Some (PEntry (Some u) []) ->
     remote_get st property_name = Some items ->
     let r := load_update_fetch DEFAULT_PICKLE_ISSUES self property_name st in
     fst r = Ok items /\ fetched (snd r) = fetched st ++ ["get_" +:+ property_name]) /\
  (forall items t,
     DEFAULT_PICKLE_ISSUES = true ->
     pickles st !! pfile_of self property_name = None ->
     remote_get st property_name = Some items ->
     items <> [] ->
     remote_updated_at st <= now st ->
     let r1 := load_update_fetch DEFAULT_PICKLE_ISSUES self property_name st in
     let r2 := load_update_fetch DEFAULT_PICKLE_ISSUES self property_name
                 (with_now t (snd r1)) in
     fst r1 = Ok items /\ fst r2 = Ok items /\
     fetched (snd r2) = fetched st ++ ["get_" +:+ property_name]).
Proof.
  split; [|split].
  - intros u ev Hentry Hne Hfresh.
    destruct (fresh_entry_is_served property_name st u ev Hentry Hne Hfresh)
      as (H1 & H2 & _). done.
  - intros u items. apply empty_entry_is_fetched.
  - intros items t HD Hnone Hget Hne Hclock. cbv zeta.
    destruct (cold_call_fetches_and_stores property_name st items HD Hnone Hget)
      as (st' & -> & Hp & Hf & Hr).
    simpl.
    destruct (fresh_entry_is_served property_name (with_now t st') (now st) items)
      as (H1 & H2 & _); simpl; try done.
    + by rewrite Hr.
    + split; [done|]. split; [done|]. by rewrite H2.
Qed.

End RepoCacheFacts.

Section RepoCacheWitnesses.
Import RepoCache Scenario.

(** C3 as stated does not hold: a cached entry that loads and is newer
    than the repository, but holds no element, is fetched again (and two
    calls in a row on a repository without labels fetch twice). *)
Lemma empty_cached_list_is_refetched :
  pickles no_labels_cached !! pfile_of rw "labels" = Some (PEntry (Some 100) []) /\
  remote_updated_at no_labels_cached <= 100 /\
  fetched (snd (load_update_fetch true rw "labels" no_labels_cached)) = ["get_labels"] /\
  fetched no_labels_cached = [] /\
  (let r1 := load_update_fetch true rw "labels" no_labels_cold in
   let r2 := load_update_fetch true rw "labels" (snd r1) in
   fetched (snd r2) = ["get_labels"; "get_labels"]).
Proof. repeat split; vm_compute; congruence. Qed.

Lemma fresh_nonempty_cache_witness :
  let r1 := load_update_fetch true rw "labels" two_labels_cold in
  let r2 := load_update_fetch true rw "labels" (with_now 300 (snd r1)) in
  let r3 := load_update_fetch true rw "labels" (snd r2) in
  fst r1 = Ok ["bug"; "docs"] /\ fst r2 = Ok ["bug"; "docs"] /\
  fetched (snd r2) = ["get_labels"] /\
  fst r3 = Ok ["bug"; "docs"] /\ fetched (snd r3) = ["get_labels"].
Proof.
  cbv zeta.
  destruct (fresh_nonempty_cache_is_not_refetched true rw "labels" two_labels_cold)
    as (_ & _ & Htwice).
  destruct (Htwice ["bug"; "docs"] 300) as (H1 & H2 & H3);
    [reflexivity | reflexivity | reflexivity | discriminate
    | vm_compute; discriminate | ].
  split; [exact H1|]. split; [exact H2|]. split; [exact H3|].
  destruct (fresh_nonempty_cache_is_not_refetched true rw "labels"
    (snd (load_update_fetch true rw "labels"
       (with_now 300 (snd (load_update_fetch true rw "labels" two_labels_cold))))))
    as (Hfresh & _ & _).
  destruct (Hfresh 200 ["bug"; "docs"]) as (H4 & H5);
    [reflexivity | discriminate | vm_compute; discriminate | ].
  split; [exact H4|]. rewrite H5. exact H3.
Defined.

End RepoCacheWitnesses.

(** ** GitRepoWrapper *)

Section GitToolsFacts.
Import GitTools.

Variable W : world.

Lemma git_bind_ok {A B} (m : M A) (k : A -> M B) st a st' :
  m st = (Ok a, st') -> bind m k st = k a st'.
Proof. unfold bind. by intros ->. Qed.

Lemma git_bind_raise {A B} (m : M A) (k : A -> M B) st e st' :
  m st = (Raise e, st') -> bind m k st = (Raise e, st').
Proof. unfold bind. by intros ->. Qed.

Lemma get_self_eq o hist : get_self (o, hist) = (Ok o, (o, hist)).
Proof. done. Qed.

Lemma os_exists_eq p o hist :
  os_exists W p (o, hist) = (Ok (exists_result W hist p), (o, hist)).
Proof. done. Qed.

Lemma run_command_eq cmd env o hist :
  run_command W cmd env (o, hist) =
  (Ok (run_result W hist cmd), (o, hist ++ [Run cmd env])).
Proof. done. Qed.

Lemma repo_endswith_targz_some o hist r :
  repo o = Some r ->
  repo_endswith_targz (o, hist) = (Ok (endswith ".tar.gz" r), (o, hist)).
Proof. intros Hr. unfold repo_endswith_targz, bind, get_self. simpl. by rewrite Hr. Qed.

Lemma repo_endswith_targz_none o hist :
  repo o = None ->
  repo_endswith_targz (o, hist) = (Raise AttributeError, (o, hist)).
Proof. intros Hr. unfold repo_endswith_targz, bind, get_self. simpl. by rewrite Hr. Qed.

(** Recreating the checkout of a git repository. *)
Lemma create_checkout_git o hist r d :
  repo o = Some r -> endswith ".tar.gz" r = false -> checkoutdir o = Some d ->
  create_checkout W (o, hist) = (Ok tt, (o, hist ++ recreate_events W hist r d)).
Proof.
  intros Hr Htgz Hd.
  unfold create_checkout, recreate_events.
  unfold bind at 1, get_self at 1. simpl fst.
  unfold bind at 1, os_isdir at 1. rewrite Hd. simpl snd.
  destruct (isdir_result W hist d).
  - unfold bind at 1, emit at 1. simpl.
    unfold bind at 1. rewrite (repo_endswith_targz_some _ _ r Hr), Htgz.
    unfold bind at 1, run_command at 1. simpl. rewrite Hr. simpl.
    fold (clone_cmd r d).
    destruct (run_result W (hist ++ [Rmtree d]) (clone_cmd r d)) as [[rc so] se].
    unfold rc_of. simpl. destruct (rc =? 0); unfold ret, emit; simpl;
      by rewrite <- !app_assoc.
  - unfold bind at 1, ret at 1.
    unfold bind at 1. rewrite (repo_endswith_targz_some _ _ r Hr), Htgz.
    unfold bind at 1, run_command at 1. simpl. rewrite Hr. simpl.
    fold (clone_cmd r d). rewrite app_nil_r.
    destruct (run_result W hist (clone_cmd r d)) as [[rc so] se].
    unfold rc_of. simpl. destruct (rc =? 0); unfold ret, emit; simpl;
      by rewrite <- ?app_assoc.
Qed.

Lemma with_files_with_files l l' o : with_files l (with_files l' o) = with_files l o.
Proof. done. Qed.

(** Listing the files of a git checkout anew. *)
Lemma get_files_force_git o hist r d :
  repo o = Some r -> endswith ".tar.gz" r = false -> checkoutdir o = Some d ->
  get_files W true (o, hist) =
  (Ok tt,
   (with_files (tracked_files (stdout_of (run_result W hist (ls_files_cmd d)))) o,
    hist ++ [Run (ls_files_cmd d) []])).
Proof.
  intros Hr Htgz Hd.
  unfold get_files, isgit, repo_endswith_targz, bind, get_self, ret, raise,
    run_command, modify_self.
  simpl. rewrite Hr, Htgz. simpl. rewrite Hd, orb_true_r. simpl.
  fold (ls_files_cmd d).
  destruct (run_result W hist (ls_files_cmd d)) as [[rc so] se].
  unfold stdout_of. simpl.
  by destruct (truthy (context o)).
Qed.

(** A synchronisation whose subprocess exits non-zero recreates the
    checkout and reports a change. *)
Lemma update_checkout_failed o hist r d hist1 :
  repo o = Some r -> endswith ".tar.gz" r = false -> checkoutdir o = Some d ->
  failed_sync W o hist d = Some hist1 ->
  exists o',
    update_checkout W (o, hist) =
      (Ok true, (o', hist1 ++ recreate_events W hist1 r d)) /\
    repo o' = repo o /\ checkoutdir o' = checkoutdir o /\
    _is_git o' = _is_git o /\ context o' = context o.
Proof.
  intros Hr Htgz Hd Hfail.
  unfold failed_sync in Hfail.
  destruct (truthy (commit o)) eqn:Hpin.
  - destruct (run_result W hist (log_cmd d)) as [[rc so] se] eqn:E1.
    unfold stdout_of in Hfail. simpl in Hfail.
    destruct (negb (String.eqb (str_strip so) (fmt (commit o)))) eqn:Hhead; [|done].
    destruct (run_result W (hist ++ [Run (log_cmd d) []])
                (checkout_cmd d (fmt (commit o)))) as [[rc' so'] se'] eqn:E2.
    unfold rc_of in Hfail. simpl in Hfail.
    destruct (negb (rc' =? 0)) eqn:Hrc; [|done]. injection Hfail as <-.
    unfold update_checkout, bind, get_self, ret, run_command, modify_self.
    simpl. rewrite Hpin, Hd. simpl.
    fold (log_cmd d) (checkout_cmd d (fmt (commit o))).
    rewrite E1. simpl. rewrite Hhead. simpl. rewrite E2. simpl. rewrite Hrc.
    rewrite (create_checkout_git o _ r d Hr Htgz Hd). simpl.
    eexists. split; [reflexivity|]. done.
  - destruct (run_result W hist (pull_cmd d)) as [[rc so] se] eqn:E1.
    unfold rc_of in Hfail. simpl in Hfail.
    destruct (negb (rc =? 0)) eqn:Hrc; [|done]. injection Hfail as <-.
    unfold update_checkout, bind, get_self, ret, run_command, modify_self.
    simpl. rewrite Hpin, Hd. simpl.
    fold (pull_cmd d).
    rewrite E1. simpl. rewrite Hrc.
    rewrite (create_checkout_git o _ r d Hr Htgz Hd).
    eexists. split; [reflexivity|]. done.
Qed.

(** C4. When the subprocess of a synchronisation of a git mirror (the
    rebase, or the checkout of the pinned commit) exits non-zero, the
    checkout is recreated: the directory is removed and the repository
    cloned again; the synchronisation reports a change; and [update]
    lists the tracked files anew, so that the cached file list is the one
    of the new checkout. *)
Theorem failed_sync_recreates_checkout o hist r d hist1 force :
  repo o = Some r -> endswith ".tar.gz" r = false -> checkoutdir o = Some d ->
  _is_git o = true -> _needs_rebase o = true ->
  isdir_result W hist d = true ->
  failed_sync W o hist d = Some hist1 ->
  let hist2 := hist1 ++ recreate_events W hist1 r d in
  (isdir_result W hist1 d = true ->
   exists made,
     recreate_events W hist1 r d =
     Rmtree d :: Run (clone_cmd r d) GIT_ENV :: made) /\
  (exists o', update_checkout W (o, hist) = (Ok true, (o', hist2))) /\
  (exists o', manage_checkout W (o, hist) = (Ok true, (o', hist2))) /\
  (exists o',
     update W force (o, hist) = (Ok tt, (o', hist2 ++ [Run (ls_files_cmd d) []])) /\
     _files o' = tracked_files (stdout_of (run_result W hist2 (ls_files_cmd d)))).
Proof.
  intros Hr Htgz Hd Hgit Hrebase Hisdir Hfail hist2.
  destruct (update_checkout_failed o hist r d hist1 Hr Htgz Hd Hfail)
    as (o' & Hupd & Hr' & Hd' & Hgit' & Hctx').
  fold hist2 in Hupd.
  assert (Hmanage : manage_checkout W (o, hist) = (Ok true, (o', hist2))).
  { unfold manage_checkout, bind, get_self, ret, os_isdir. simpl.
    rewrite Hgit, Hd. simpl. rewrite Hisdir, Hrebase. simpl. exact Hupd. }
  split; [|split; [|split]].
  - intros Hstill. unfold recreate_events. rewrite Hstill. simpl. eauto.
  - by exists o'.
  - by exists o'.
  - unfold update. rewrite (git_bind_ok _ _ _ _ _ Hmanage).
    unfold bind at 1, get_self at 1. simpl orb. cbv iota.
    rewrite Hr in Hr'. rewrite Hd in Hd'.
    unfold bind at 1.
    rewrite (get_files_force_git o' hist2 r d Hr' Htgz Hd').
    unfold bind, modify_self. simpl.
    eexists. split; [reflexivity|]. done.
Qed.

(** C8. A path that exists in the working tree is read from disk: the
    result is what reading the file gives, whatever [follow] is, no
    subprocess is run and the object is left as it is. *)
Theorem existing_file_is_read_from_disk o hist d filepath follow :
  checkoutdir o = Some d ->
  exists_result W hist (path_join d filepath) = true ->
  get_file_content W filepath follow (o, hist) =
  (match read_result W hist (path_join d filepath) with
   | Ok data => Ok (Some data)
   | Raise e => Raise e
   | OutOfFuel => OutOfFuel
   end, (o, hist)).
Proof.
  intros Hd Hex.
  unfold get_file_content, bind, get_self, os_exists, read_file, ret.
  simpl. rewrite Hd. simpl. rewrite Hex. simpl.
  by destruct (read_result W hist (path_join d filepath)).
Qed.





Lemma isgit_none o h : repo o = None -> isgit (o, h) = (Raise AttributeError, (o, h)).
Proof.
  intros Hr. unfold isgit.
  by rewrite (git_bind_raise _ _ _ _ _ (repo_endswith_targz_none o h Hr)).
Qed.

Lemma isgit_some o h r :
  repo o = Some r -> isgit (o, h) = (Ok (negb (endswith ".tar.gz" r)), (o, h)).
Proof.
  intros Hr. unfold isgit.
  by rewrite (git_bind_ok _ _ _ _ _ (repo_endswith_targz_some o h r Hr)).
Qed.

Lemma files_none o h : repo o = None -> files W (o, h) = (Raise AttributeError, (o, h)).
Proof.
  intros Hr. unfold files, get_files.
  assert (H : (g <- isgit ;; o0 <- get_self ;;
     if g then
       if match _files o0 with [] => true | _ => false end || false then
         let cmd := "cd " +:+ fmt (checkoutdir o0) +:+ "; git ls-files" in
         r <- run_command W cmd [] ;;
         let '(rc, so, se) := r in
         let files := tracked_files so in
         (if truthy (context o0) then
            modify_self (with_files
              (filter (fun x => bool_decide (fmt (context o0) ∈ files)) files))
          else ret tt) ;;;
         modify_self (with_files files)
       else ret tt
     else
       modify_self (with_files []) ;;;
       let cmd := "cd " +:+ fmt (checkoutdir o0) +:+ "; find ." in
       r <- run_command W cmd [] ;;
       let '(rc, so, se) := r in
       modify_self (with_files (found_files so))) (o, h)
     = (Raise AttributeError, (o, h))).
  { by rewrite (git_bind_raise _ _ _ _ _ (isgit_none o h Hr)). }
  by rewrite (git_bind_raise _ _ _ _ _ H).
Qed.

(** With the empty string for a repository and no file listed yet, the
    files are listed by [git ls-files] run after [cd None]. *)
Lemma files_empty_repo o h :
  repo o = Some "" -> checkoutdir o = None -> _files o = [] ->
  exists l o', files W (o, h) = (Ok l, (o', h ++ [Run "cd None; git ls-files" []])).
Proof.
  intros Hr Hd Hf.
  destruct (run_result W h "cd None; git ls-files") as [[rc so] se] eqn:E.
  unfold files, get_files, isgit, repo_endswith_targz, bind, get_self, ret,
    run_command, modify_self.
  simpl. rewrite Hr. simpl. rewrite Hf, Hd. simpl.
  change ("cd " +:+ "None" +:+ "; git ls-files") with "cd None; git ls-files".
  rewrite E. simpl.
  destruct (truthy (context o)) eqn:Hc; simpl; rewrite ?Hc; simpl; eauto.
Qed.

(** C10, as the code has it. Constructed with a falsy repository ([None]
    or the empty string), the wrapper creates no checkout and its
    [checkoutdir] stays [None].  With [None], [isgit], [files] and
    [exists] then raise [AttributeError].  With the empty string they do
    not raise: [isgit] is true, and [files] and [exists] answer from the
    output of [git ls-files] run after [cd None]. *)
Theorem null_repo_raises_for_none_only cachedir commit_ rebase context_ hist :
  (forall repo_, truthy repo_ = false ->
     exists o,
       init W cachedir repo_ commit_ rebase context_ hist = (Ok tt, (o, hist)) /\
       repo o = repo_ /\ checkoutdir o = None /\ _files o = []) /\
  (forall o h filename, repo o = None ->
     isgit (o, h) = (Raise AttributeError, (o, h)) /\
     files W (o, h) = (Raise AttributeError, (o, h)) /\
     exists_ W filename (o, h) = (Raise AttributeError, (o, h))) /\
  (forall o h filename,
     repo o = Some "" -> checkoutdir o = None -> _files o = [] ->
     isgit (o, h) = (Ok true, (o, h)) /\
     (exists l o',
        files W (o, h) = (Ok l, (o', h ++ [Run "cd None; git ls-files" []]))) /\
     (exists b o',
        exists_ W filename (o, h) =
        (Ok b, (o', h ++ [Run "cd None; git ls-files" []])))).
Proof.
  split; [|split].
  - intros repo_ Hfalsy. unfold init. rewrite Hfalsy.
    eexists. split; [reflexivity|]. done.
  - intros o h filename Hr. split; [by apply isgit_none|].
    split; [by apply files_none|].
    unfold exists_. by rewrite (git_bind_raise _ _ _ _ _ (files_none o h Hr)).
  - intros o h filename Hr Hd Hf. split; [by rewrite (isgit_some o h "" Hr)|].
    destruct (files_empty_repo o h Hr Hd Hf) as (l & o' & Hfiles).
    split; [by exists l, o'|].
    unfold exists_. rewrite (git_bind_ok _ _ _ _ _ Hfiles).
    eexists _, o'. reflexivity.
Qed.

End GitToolsFacts.

Section GitToolsWitnesses.
Import GitTools Scenario.

Lemma failed_sync_witness :
  (exists o',
     update conflict_world false (mirror, []) =
       (Ok tt,
        (o', [Run (pull_cmd mirror_dir) GIT_ENV; Rmtree mirror_dir;
              Run (clone_cmd "https://github.com/ansible/ansible" mirror_dir) GIT_ENV;
              Run (ls_files_cmd mirror_dir) []])) /\
     _files o' = ["README.md"; "setup.py"]) /\
  (exists o',
     update_checkout conflict_world (pinned_mirror, []) =
       (Ok true,
        (o', [Run (log_cmd mirror_dir) [];
              Run (checkout_cmd mirror_dir "abc123") GIT_ENV; Rmtree mirror_dir;
              Run (clone_cmd "https://github.com/ansible/ansible" mirror_dir) GIT_ENV]))).
Proof.
  split.
  - refine (proj2 (proj2 (proj2 (failed_sync_recreates_checkout conflict_world
      mirror [] "https://github.com/ansible/ansible" mirror_dir
      [Run (pull_cmd mirror_dir) GIT_ENV] false _ _ _ _ _ _ _)))); reflexivity.
  - refine (proj1 (proj2 (failed_sync_recreates_checkout conflict_world
      pinned_mirror [] "https://github.com/ansible/ansible" mirror_dir
      [Run (log_cmd mirror_dir) []; Run (checkout_cmd mirror_dir "abc123") GIT_ENV]
      false _ _ _ _ _ _ _))); reflexivity.
Defined.

Lemma existing_file_witness :
  get_file_content history_world "setup.py" true (mirror, []) =
    (Ok (Some ("import setuptools" +:+ nl)), (mirror, [])) /\
  get_file_content history_world "setup.py" false (mirror, []) =
    (Ok (Some ("import setuptools" +:+ nl)), (mirror, [])).
Proof.
  split.
  - apply (existing_file_is_read_from_disk history_world mirror [] mirror_dir
             "setup.py" true); reflexivity.
  - apply (existing_file_is_read_from_disk history_world mirror [] mirror_dir
             "setup.py" false); reflexivity.
Defined.



(** C10 as stated does not hold: constructed with the empty string, the
    wrapper has no checkout, and yet [isgit], [files] and [exists] return
    without raising. *)
Lemma empty_string_repo_does_not_raise :
  exists o,
    init bare_world "/cache" (Some "") None true None [] = (Ok tt, (o, [])) /\
    checkoutdir o = None /\
    fst (isgit (o, [])) = Ok true /\
    fst (files bare_world (o, [])) = Ok [] /\
    fst (exists_ bare_world "setup.py" (o, [])) = Ok false.
Proof. eexists. split; [reflexivity|]. repeat split. Qed.

Lemma null_repo_witness :
  (exists o,
     init bare_world "/cache" None None true None [] = (Ok tt, (o, [])) /\
     repo o = None /\ checkoutdir o = None /\ _files o = []) /\
  (let o := fst (snd (init bare_world "/cache" None None true None [])) in
   isgit (o, []) = (Raise AttributeError, (o, [])) /\
   files bare_world (o, []) = (Raise AttributeError, (o, [])) /\
   exists_ bare_world "setup.py" (o, []) = (Raise AttributeError, (o, []))) /\
  (let o := fst (snd (init bare_world "/cache" (Some "") None true None [])) in
   isgit (o, []) = (Ok true, (o, []))).
Proof.
  destruct (null_repo_raises_for_none_only bare_world "/cache" None true None [])
    as (Hinit & Hnone & Hempty).
  split; [|split].
  - apply Hinit. reflexivity.
  - apply Hnone. reflexivity.
  - apply (Hempty _ [] "setup.py"); reflexivity.
Defined.

End GitToolsWitnesses.

(** * Further properties of the code *)

(** ** More on strings *)

Lemma rev_involutive_s s : String.rev (String.rev s) = s.
Proof.
  induction s as [|c s IH]; [done|].
  rewrite rev_cons, rev_append, IH. done.
Qed.

Lemma prefix_refl_app (a b : string) : String.prefix a (a +:+ b) = true.
Proof.
  induction a as [|c a IH]; [by destruct b|].
  rewrite app_cons. simpl. by destruct (ascii_dec c c).
Qed.

Lemma endswith_app (a p : string) : endswith p (a +:+ p) = true.
Proof. unfold endswith. rewrite rev_append. apply prefix_refl_app. Qed.

Lemma prefix_cons_eq c s c' s' :
  String.prefix (String c s) (String c' s') = Ascii.eqb c c' && String.prefix s s'.
Proof.
  simpl. destruct (ascii_dec c c') as [->|Hne].
  - by rewrite Ascii.eqb_refl.
  - apply Ascii.eqb_neq in Hne. by rewrite Hne.
Qed.

(** A string without the separator is not split. *)
Lemma split_go_no_sep sep cur s :
  contains (String sep "") s = false ->
  split_go sep cur s = [String.rev cur +:+ s].
Proof.
  revert cur. induction s as [|c s IH]; intros cur Hno.
  - simpl. by rewrite app_empty_r.
  - simpl in Hno. apply orb_false_iff in Hno as [Hc Hs].
    destruct (ascii_dec sep c) as [->|Hne]; [by destruct s|].
    simpl. rewrite Ascii.eqb_sym.
    apply Ascii.eqb_neq in Hne. rewrite Hne.
    rewrite IH by done. rewrite rev_cons, app_assoc_s. done.
Qed.

Lemma split_no_sep sep s :
  contains (String sep "") s = false -> split sep s = [s].
Proof. intros H. unfold split. by rewrite split_go_no_sep. Qed.

Lemma lstrip_by_idem f s : lstrip_by f (lstrip_by f s) = lstrip_by f s.
Proof.
  induction s as [|c s IH]; [done|]. simpl.
  destruct (f c) eqn:E; [done|]. simpl. by rewrite E.
Qed.

Lemma lstrip_by_suffix f s : exists a, s = a +:+ lstrip_by f s.
Proof.
  induction s as [|c s [a IH]]; [by exists ""|]. simpl.
  destruct (f c).
  - exists (String c a). rewrite app_cons. by rewrite <- IH.
  - by exists "".
Qed.

Lemma lstrip_by_head f s c t : lstrip_by f s = String c t -> f c = false.
Proof.
  induction s as [|c' s IH]; [done|]. simpl.
  destruct (f c') eqn:E; [done|]. by intros [= <- <-].
Qed.

Lemma rstrip_by_prefix f s : exists b, s = rstrip_by f s +:+ b.
Proof.
  unfold rstrip_by.
  destruct (lstrip_by_suffix f (String.rev s)) as [a Ha].
  exists (String.rev a).
  rewrite <- rev_append, <- Ha. by rewrite rev_involutive_s.
Qed.

Lemma rstrip_by_idem f s : rstrip_by f (rstrip_by f s) = rstrip_by f s.
Proof. unfold rstrip_by. by rewrite rev_involutive_s, lstrip_by_idem. Qed.

(** Stripping twice is stripping once. *)
Lemma strip_by_idem f s : strip_by f (strip_by f s) = strip_by f s.
Proof.
  unfold strip_by.
  assert (H : lstrip_by f (rstrip_by f (lstrip_by f s)) = rstrip_by f (lstrip_by f s)).
  { destruct (rstrip_by_prefix f (lstrip_by f s)) as [b Hb].
    destruct (rstrip_by f (lstrip_by f s)) as [|c u] eqn:E; [done|].
    rewrite app_cons in Hb. apply lstrip_by_head in Hb.
    simpl. by rewrite Hb. }
  by rewrite H, rstrip_by_idem.
Qed.

Lemma drop_length_app (a b : string) : drop (String.length a) (a +:+ b) = b.
Proof.
  induction a as [|c a IH]; [by destruct b|]. rewrite app_cons. simpl. exact IH.
Qed.

Lemma replace_go_skip old new k s :
  replace_go old new k s = replace_go old new 0 (drop k s).
Proof.
  revert k. induction s as [|c s IH]; intros k.
  - by destruct k.
  - destruct k as [|k]; [done|]. simpl. apply IH.
Qed.

(** Text without the old string is left as it is. *)
Lemma replace_absent old new s : contains old s = false -> replace old new s = s.
Proof.
  unfold replace. induction s as [|c s IH]; [done|].
  intros Hno. simpl in Hno. apply orb_false_iff in Hno as [Hp Hs].
  change (String.prefix old (String c s)) with
    (match old with
     | EmptyString => true
     | String a s1' =>
         match ascii_dec a c with
         | left _ => String.prefix s1' s
         | right _ => false
         end
     end) in Hp.
  simpl. rewrite Hp. by rewrite IH.
Qed.

(** The old string in front is replaced, and the rest is gone through. *)
Lemma replace_prefix a old new p :
  replace (String a old) new (String a old +:+ p) =
  new +:+ replace (String a old) new p.
Proof.
  unfold replace. rewrite app_cons.
  change (replace_go (String a old) new 0 (String a (old +:+ p))) with
    (if String.prefix (String a old) (String a (old +:+ p))
     then new +:+ replace_go (String a old) new
                    (String.length (String a old) - 1) (old +:+ p)
     else String a (replace_go (String a old) new 0 (old +:+ p))).
  rewrite <- app_cons, prefix_refl_app.
  rewrite replace_go_skip.
  replace (String.length (String a old) - 1)%nat with (String.length old)
    by (simpl; symmetry; apply Nat.sub_0_r).
  by rewrite drop_length_app.
Qed.

(** The first occurrence is the one in front. *)
Lemma replace_first_prefix a old new p :
  replace_first (String a old) new (String a old +:+ p) = new +:+ p.
Proof.
  rewrite app_cons.
  change (replace_first (String a old) new (String a (old +:+ p))) with
    (if String.prefix (String a old) (String a (old +:+ p))
     then new +:+ drop (String.length (String a old)) (String a (old +:+ p))
     else String a (replace_first (String a old) new (old +:+ p))).
  rewrite <- app_cons, prefix_refl_app. by rewrite drop_length_app.
Qed.

Lemma split_go_app sep cur (a b : string) :
  split_go sep cur (a +:+ String sep b) =
  split_go sep cur a ++ split_go sep "" b.
Proof.
  revert cur. induction a as [|c a IH]; intros cur.
  - rewrite app_nil_l. simpl. by rewrite Ascii.eqb_refl.
  - rewrite app_cons. simpl. destruct (Ascii.eqb c sep).
    + by rewrite IH.
    + apply IH.
Qed.

(** *** Stripping the white space of Unicode *)

Section StripChars.

Variable p1 : ascii -> bool.
Variable p2 : ascii -> ascii -> bool.
Variable p3 : ascii -> ascii -> ascii -> bool.

(** One step of the stripping: nothing to strip, or a character less. *)
Lemma lstrip_chars_step s :
  (starts_with_char p1 p2 p3 s = false /\ lstrip_chars p1 p2 p3 s = s) \/
  (starts_with_char p1 p2 p3 s = true /\
   exists a s', s = a +:+ s' /\ (String.length s' < String.length s)%nat /\
                lstrip_chars p1 p2 p3 s = lstrip_chars p1 p2 p3 s').
Proof.
  destruct s as [|a s1]; [by left|].
  simpl. destruct (p1 a) eqn:E1.
  { right. split; [done|]. exists (String a ""), s1.
    rewrite app_cons, app_nil_l. simpl. split; [done|]. split; [lia|done]. }
  destruct s1 as [|b s2]; [by left|].
  destruct (p2 a b) eqn:E2.
  { right. split; [done|]. exists (String a (String b "")), s2.
    rewrite !app_cons, app_nil_l. simpl. split; [done|]. split; [lia|done]. }
  destruct s2 as [|c s3]; [by left|].
  destruct (p3 a b c) eqn:E3.
  { right. split; [done|]. exists (String a (String b (String c ""))), s3.
    rewrite !app_cons, app_nil_l. simpl. split; [done|]. split; [lia|done]. }
  by left.
Qed.

Lemma lstrip_chars_ind (P : string -> Prop) :
  (forall s, starts_with_char p1 p2 p3 s = false ->
             lstrip_chars p1 p2 p3 s = s -> P s) ->
  (forall s a s', s = a +:+ s' ->
                  lstrip_chars p1 p2 p3 s = lstrip_chars p1 p2 p3 s' ->
                  P s' -> P s) ->
  forall s, P s.
Proof.
  intros Hbase Hstep s.
  remember (String.length s) as n eqn:Hn. revert s Hn.
  induction n as [n IH] using lt_wf_ind. intros s ->.
  destruct (lstrip_chars_step s) as [[Hh Hfix]|[_ (a & s' & Hs & Hlen & Heq)]].
  - by apply Hbase.
  - apply (Hstep s a s' Hs Heq). by apply (IH (String.length s')).
Qed.

(** What is left does not start with a character to strip. *)
Lemma lstrip_chars_clean s :
  starts_with_char p1 p2 p3 (lstrip_chars p1 p2 p3 s) = false.
Proof.
  induction s as [s Hh Hfix|s a s' _ Heq IH] using lstrip_chars_ind.
  - by rewrite Hfix.
  - by rewrite Heq.
Qed.

Lemma lstrip_chars_fix s :
  starts_with_char p1 p2 p3 s = false -> lstrip_chars p1 p2 p3 s = s.
Proof.
  intros Hh. destruct (lstrip_chars_step s) as [[_ Hfix]|[Hh' _]]; [done|].
  congruence.
Qed.

Lemma lstrip_chars_idem s :
  lstrip_chars p1 p2 p3 (lstrip_chars p1 p2 p3 s) = lstrip_chars p1 p2 p3 s.
Proof. apply lstrip_chars_fix, lstrip_chars_clean. Qed.

Lemma lstrip_chars_suffix s : exists a, s = a +:+ lstrip_chars p1 p2 p3 s.
Proof.
  induction s as [s Hh Hfix|s a s' Hs Heq [a' IH]] using lstrip_chars_ind.
  - exists "". by rewrite Hfix, app_nil_l.
  - exists (a +:+ a'). by rewrite Heq, app_assoc_s, <- IH.
Qed.

(** A text that starts with a character to strip still does when it is
    extended. *)
Lemma starts_with_char_app a b :
  starts_with_char p1 p2 p3 a = true -> starts_with_char p1 p2 p3 (a +:+ b) = true.
Proof.
  destruct a as [|x a1]; [done|]. rewrite app_cons. simpl.
  destruct (p1 x); [done|]. simpl.
  destruct a1 as [|y a2]; [done|]. rewrite app_cons.
  destruct (p2 x y); [done|]. simpl.
  destruct a2 as [|z a3]; [done|]. by rewrite app_cons.
Qed.

End StripChars.

Lemma str_rstrip_prefix s : exists b, s = str_rstrip s +:+ b.
Proof.
  unfold str_rstrip.
  destruct (lstrip_chars_suffix str_isspace (fun a b => space2 b a)
              (fun a b c => space3 c b a) (String.rev s)) as [a Ha].
  exists (String.rev a).
  rewrite <- rev_append, <- Ha. by rewrite rev_involutive_s.
Qed.

Lemma str_rstrip_idem s : str_rstrip (str_rstrip s) = str_rstrip s.
Proof. unfold str_rstrip. by rewrite rev_involutive_s, lstrip_chars_idem. Qed.

(** Stripping a text that is stripped changes nothing. *)
Lemma str_strip_idem s : str_strip (str_strip s) = str_strip s.
Proof.
  unfold str_strip.
  assert (H : str_lstrip (str_rstrip (str_lstrip s)) = str_rstrip (str_lstrip s)).
  { unfold str_lstrip at 1. apply lstrip_chars_fix.
    destruct (str_rstrip_prefix (str_lstrip s)) as [b Hb].
    destruct (starts_with_char str_isspace space2 space3
                (str_rstrip (str_lstrip s))) eqn:E; [|done].
    apply (starts_with_char_app _ _ _ _ b) in E. rewrite <- Hb in E.
    unfold str_lstrip in E. by rewrite lstrip_chars_clean in E. }
  by rewrite H, str_rstrip_idem.
Qed.

(** ** GithubWrapper, further *)

Section GhApiMore.
Import GhApi.

Variable srv : server.
Variable self : GithubWrapper.

(** X1. A url whose last part but one is ['commits'] and whose cache file
    holds a document is answered from that file: no request is sent, and
    cache files and metadata stay as they are, whatever the server would
    have answered. *)
Theorem commit_url_is_served_from_disk fuel url st j :
  index_minus2 (split "/" url) = Some "commits" ->
  files st !! cdf_of self url = Some (GzipJson j) ->
  let r := get_cached_request srv self fuel url st in
  fst r = Ok j /\ sent (snd r) = sent st /\
  files (snd r) = files st /\ adb (snd r) = adb st.
Proof.
  intros Hpart Hfile. cbv zeta.
  rewrite get_cached_request_cases, Hpart.
  assert (Hex : path_exists (cdf_of self url) st = true).
  { unfold path_exists. rewrite Hfile. done. }
  rewrite Hex. simpl. unfold read_gzip_json_file.
  rewrite prepared_files, Hfile. simpl.
  by rewrite prepared_sent, prepared_files, prepared_adb.
Qed.

(** X2. A url without any ['/'] has no last part but one: the call raises
    [IndexError] before a request is sent, and cache files and metadata
    stay as they are. *)
Theorem url_without_slash_raises_index_error fuel url st :
  contains "/" url = false ->
  let r := get_cached_request srv self fuel url st in
  fst r = Raise IndexError /\ sent (snd r) = sent st /\
  files (snd r) = files st /\ adb (snd r) = adb st.
Proof.
  intros Hno. cbv zeta.
  rewrite get_cached_request_cases, (split_no_sep "/" url Hno). simpl.
  by rewrite prepared_sent, prepared_files, prepared_adb.
Qed.

(** With a first response that is cached, what is left of the call is the
    pagination, from a state that holds the body and the etag. *)
Lemma get_cached_request_then_paginates fuel url st part rr b :
  index_minus2 (split "/" url) = Some part ->
  String.eqb part "commits" && path_exists (cdf_of self url) st = false ->
  srv (sent st) (first_request self url st) = Some rr ->
  status_code rr <> 304 ->
  json_body rr = Some b ->
  ratelimit_free b ->
  cdf_of self url ∉ dirs st ->
  exists st2,
    get_cached_request srv self fuel url st = follow_next_link srv self fuel rr b st2 /\
    files st2 !! cdf_of self url = Some (GzipJson b) /\
    adb st2 !! (url, token self) =
      Some {| etag := header_get "ETag" (resp_headers rr);
              cachefile := cdf_of self url;
              headers_snapshot := resp_headers rr |}.
Proof.
  intros Hpart Hspecial Hsrv Hstatus Hbody Hfree Hdir.
  apply Z.eqb_neq in Hstatus.
  rewrite (get_cached_request_fetches srv self fuel url st part Hpart Hspecial), Hsrv.
  unfold after_response, bind at 1, response_data.
  rewrite Hstatus.
  unfold bind at 1, rr_json at 1. rewrite Hbody. unfold ret at 1.
  unfold bind at 1. rewrite Hfree.
  unfold bind at 1, write_gzip_json_file at 1.
  simpl dirs. rewrite bool_decide_false by (by rewrite prepared_cdf_in_dirs).
  unfold ret at 1. unfold bind at 1, set_github_api_request_meta at 1.
  eexists. split; [reflexivity|]. simpl. by rewrite !lookup_insert_eq.
Qed.

(** X3. Once the first response (not a 304) has a body that passes the
    rate limit test, that body is in the cache file and the etag of the
    response in the metadata row, whatever the pagination that follows
    does: return, raise, or never come back. *)
Theorem first_page_is_cached_whatever_follows fuel url st part rr b :
  index_minus2 (split "/" url) = Some part ->
  String.eqb part "commits" && path_exists (cdf_of self url) st = false ->
  srv (sent st) (first_request self url st) = Some rr ->
  status_code rr <> 304 ->
  json_body rr = Some b ->
  ratelimit_free b ->
  cdf_of self url ∉ dirs st ->
  let st' := snd (get_cached_request srv self fuel url st) in
  files st' !! cdf_of self url = Some (GzipJson b) /\
  adb st' !! (url, token self) =
    Some {| etag := header_get "ETag" (resp_headers rr);
            cachefile := cdf_of self url;
            headers_snapshot := resp_headers rr |}.
Proof.
  intros Hpart Hspecial Hsrv Hstatus Hbody Hfree Hdir. cbv zeta.
  destruct (get_cached_request_then_paginates fuel url st part rr b)
    as (st2 & -> & H1 & H2); try done.
  pose proof (follow_next_link_plain srv self fuel rr b st2) as (Hf & _ & Ha & _).
  by rewrite Hf, Ha.
Qed.

(** A body that is neither a list nor a mapping. *)
Lemma scalar_is_ratelimit_free b :
  match b with JList _ | JDict _ => False | _ => True end -> ratelimit_free b.
Proof. intros Hb st. by destruct b. Qed.

(** X4. The two functions differ on a first page that is neither a list
    nor a mapping and links to a next page. [get_request] fetches the next
    page and drops it: what it returns, if it returns, is the first page
    alone.  [get_cached_request] never returns a value: when the next
    page comes back, its [else] branch calls [update] on the body and
    raises [AttributeError]. *)
Theorem scalar_page_is_not_merged fuel url st rr b next :
  json_body rr = Some b ->
  match b with JList _ | JDict _ => False | _ => True end ->
  next_link rr = Some next ->
  (srv (sent st) (plain_request self url) = Some rr ->
   forall x st2,
     get_request srv self fuel next
       (with_sent (sent st ++ [plain_request self url]) st) = (Ok x, st2) ->
     get_request srv self (S fuel) url st = (Ok b, st2)) /\
  (forall part,
     index_minus2 (split "/" url) = Some part ->
     String.eqb part "commits" && path_exists (cdf_of self url) st = false ->
     srv (sent st) (first_request self url st) = Some rr ->
     status_code rr <> 304 ->
     cdf_of self url ∉ dirs st ->
     let r := get_cached_request srv self fuel url st in
     (forall v, fst r <> Ok v) /\
     (forall e, fst r = Raise e ->
        e = AttributeError \/
        exists st1, fst (get_request srv self fuel next st1) = Raise e)).
Proof.
  intros Hbody Hscalar Hnext.
  pose proof (scalar_is_ratelimit_free b Hscalar) as Hfree.
  split.
  - intros Hsrv x st2 Hrest.
    simpl get_request.
    unfold bind at 1, requests_get at 1. fold (plain_request self url).
    rewrite Hsrv. unfold bind at 1, rr_json at 1. rewrite Hbody.
    unfold ret at 1. unfold bind at 1. rewrite Hfree, Hnext.
    unfold bind at 1. rewrite Hrest. by destruct b.
  - intros part Hpart Hspecial Hsrv Hstatus Hdir. cbv zeta.
    destruct (get_cached_request_then_paginates fuel url st part rr b)
      as (st2 & -> & _ & _); try done.
    unfold follow_next_link. rewrite Hnext. unfold bind.
    destruct (get_request srv self fuel next st2) as [[x|e|] st3] eqn:Hrest.
    + split.
      * intros v. by destruct b.
      * intros e He. left. destruct b; try done; unfold raise in He; simpl in He; congruence.
    + split; [done|]. intros e' [= <-]. right. exists st2. by rewrite Hrest.
    + split; [done|]. done.
Qed.

(** X5. Where the cache file of a url is.  Its name is the url without
    any ['https://'], with [.json.gz] after it, and the file always ends
    in [.json.gz].  When that name does not start with ['/'] the file is
    the directory of cached requests, a ['/'] unless the directory is
    empty or ends in one, and the name, put together as text: parts
    ['..'] of the url stay in it, so that the file can be outside the
    directory.  When the name starts with ['/'], [os.path.join] drops the
    directory and the file is the name itself. *)
Theorem cache_file_location url :
  let name := replace "https://" "" url +:+ ".json.gz" in
  let dir := cached_requests_dir self in
  endswith ".json.gz" (cdf_of self url) = true /\
  (startswith "/" name = false ->
   cdf_of self url =
   (if String.eqb dir "" || endswith "/" dir then dir else dir +:+ "/") +:+ name) /\
  (startswith "/" name = true -> cdf_of self url = name).
Proof.
  cbv zeta. split; [|split].
  - unfold endswith.
    destruct (path_join_rev (cached_requests_dir self)
                (replace "https://" "" url +:+ ".json.gz")) as [t Ht].
    fold (cdf_of self url) in Ht. rewrite Ht, rev_append, app_assoc_s.
    apply prefix_refl_app.
  - intros Hrel. unfold cdf_of, path_join. rewrite Hrel.
    destruct (_ || _); [done|]. by rewrite app_assoc_s.
  - intros Habs. unfold cdf_of, path_join. by rewrite Habs.
Qed.

End GhApiMore.

Section GhApiMoreWitnesses.
Import GhApi Scenario.

Lemma commit_url_witness :
  let url := "https://api.github.com/repos/a/b/commits/abc123" in
  let st := with_files {[ cdf_of gh url := GzipJson issue_body ]} empty_cache in
  let r := get_cached_request quota_server gh 1 url st in
  fst r = Ok issue_body /\ sent (snd r) = sent st /\
  files (snd r) = files st /\ adb (snd r) = adb st.
Proof.
  apply (commit_url_is_served_from_disk quota_server gh 1); reflexivity.
Defined.

Lemma url_without_slash_witness :
  let r := get_cached_request etag_server gh 1 "rate_limit" empty_cache in
  fst r = Raise IndexError /\ sent (snd r) = sent empty_cache /\
  files (snd r) = files empty_cache /\ adb (snd r) = adb empty_cache.
Proof.
  apply (url_without_slash_raises_index_error etag_server gh 1); reflexivity.
Defined.

Lemma first_page_is_cached_witness :
  let st' := snd (get_cached_request labels_server gh 0 labels_url empty_cache) in
  fst (get_cached_request labels_server gh 0 labels_url empty_cache) = OutOfFuel /\
  files st' !! cdf_of gh labels_url = Some (GzipJson labels_page1) /\
  adb st' !! (labels_url, token gh) =
    Some {| etag := Some "l1"; cachefile := cdf_of gh labels_url;
            headers_snapshot := [("ETag", "l1")] |}.
Proof.
  split; [reflexivity|].
  refine (first_page_is_cached_whatever_follows labels_server gh 0 labels_url
    empty_cache "b" labels_response1 labels_page1 _ _ _ _ _ _ _);
    try reflexivity.
  - vm_compute. discriminate.
  - done.
  - vm_compute. set_solver.
Defined.

Lemma cache_file_location_witness :
  cdf_of gh issue_url =
    cached_requests_dir gh +:+ "/api.github.com/repos/a/b/issues/1.json.gz" /\
  cdf_of gh "https://../../etc/cron.d/x" =
    cached_requests_dir gh +:+ "/../../etc/cron.d/x.json.gz" /\
  cdf_of gh "https:///etc/cron.d/x" = "/etc/cron.d/x.json.gz".
Proof.
  split; [|split].
  - apply (proj1 (proj2 (cache_file_location gh issue_url))). reflexivity.
  - apply (proj1 (proj2 (cache_file_location gh "https://../../etc/cron.d/x"))).
    reflexivity.
  - apply (proj2 (proj2 (cache_file_location gh "https:///etc/cron.d/x"))).
    reflexivity.
Defined.

Lemma scalar_page_witness :
  fst (get_request Scenario2.zen_server gh 2 Scenario2.zen_url empty_cache) =
    Ok (JStr "Keep it logically awesome.") /\
  (forall v,
     fst (get_cached_request Scenario2.zen_server gh 1 Scenario2.zen_url empty_cache)
     <> Ok v).
Proof.
  destruct (scalar_page_is_not_merged Scenario2.zen_server gh 1 Scenario2.zen_url
    empty_cache Scenario2.zen_response1 (JStr "Keep it logically awesome.")
    Scenario2.zen_url2 eq_refl I eq_refl) as [Hplain Hcached].
  split.
  - erewrite Hplain; reflexivity.
  - refine (proj1 (Hcached "api.github.com" _ _ _ _ _)); try reflexivity.
    + vm_compute. discriminate.
    + vm_compute. set_solver.
Defined.

End GhApiMoreWitnesses.

(** ** RepoWrapper.load_update_fetch, further *)

Section RepoCacheMore.
Import RepoCache.

Variable DEFAULT_PICKLE_ISSUES : bool.
Variable self : RepoWrapper.

(** The state in which the cache file is looked at: the local repository
    object is refreshed and the cache directory is there. *)
Lemma load_update_fetch_start property_name st :
  exists st1,
    pickles st1 = pickles st /\ remote_get st1 = remote_get st /\
    fetched st1 = fetched st /\ now st1 = now st /\
    repo_updated_at st1 = remote_updated_at st /\
    load_update_fetch DEFAULT_PICKLE_ISSUES self property_name st =
    (let pfile := pfile_of self property_name in
     let '(edata, update, write_cache) :=
       match pickles st1 !! pfile with
       | Some PCorrupt => (None, true, true)
       | Some PFalsy => (None, false, false)
       | Some (PEntry u ev) => (Some (u, ev), false, false)
       | None => (None, false, false)
       end in
     let checked : outcome (option Z * list item * bool * bool) :=
       match edata with
       | Some (Some u, ev) =>
           if u <? repo_updated_at st1 then Ok (Some u, ev, true, true)
           else Ok (Some u, ev, update, write_cache)
       | Some (None, ev) => Raise TypeError
       | None => Ok (None, [], update, write_cache)
       end in
     match checked with
     | Raise e => (Raise e, st1)
     | OutOfFuel => (OutOfFuel, st1)
     | Ok (updated, events, update, write_cache) =>
         let pulled :=
           if update || match events with [] => true | _ => false end then
             match call_getter property_name st1 with
             | (Ok l, st') => (Ok (Some (now st1), l, true), st')
             | (Raise e, st') => (Raise e, st')
             | (OutOfFuel, st') => (OutOfFuel, st')
             end
           else (Ok (updated, events, write_cache), st1) in
         match pulled with
         | (Raise e, st') => (Raise e, st')
         | (OutOfFuel, st') => (OutOfFuel, st')
         | (Ok (updated, events, write_cache), st') =>
             if DEFAULT_PICKLE_ISSUES && (write_cache || negb (isfile pfile st'))
             then (Ok events,
                   with_pickles (<[pfile := PEntry updated events]> (pickles st')) st')
             else (Ok events, st')
         end
     end).
Proof.
  unfold load_update_fetch.
  set (st1 := if bool_decide _ then _ else _).
  exists st1. repeat split; unfold st1; by destruct (bool_decide _).
Qed.

(** X6. A cache file that does not load, or that holds a falsy value, is
    no error: the collection is fetched, returned, and, when pickling is
    enabled, written back under the time of the fetch. *)
Theorem unusable_cache_file_is_refetched property_name st items :
  pickles st !! pfile_of self property_name = Some PCorrupt \/
  pickles st !! pfile_of self property_name = Some PFalsy ->
  remote_get st property_name = Some items ->
  let r := load_update_fetch DEFAULT_PICKLE_ISSUES self property_name st in
  fst r = Ok items /\
  fetched (snd r) = fetched st ++ ["get_" +:+ property_name] /\
  (DEFAULT_PICKLE_ISSUES = true ->
   pickles (snd r) !! pfile_of self property_name =
   Some (PEntry (Some (now st)) items)).
Proof.
  intros Hfile Hget. cbv zeta.
  destruct (load_update_fetch_start property_name st)
    as (st1 & Hp & Hg & Hf & Hn & Hu & ->).
  cbv zeta. rewrite Hp.
  destruct Hfile as [-> | ->]; simpl;
    unfold call_getter; rewrite Hg, Hget; simpl; rewrite Hn, Hf.
  - destruct DEFAULT_PICKLE_ISSUES; simpl.
    + repeat split. intros _. by rewrite lookup_insert_eq.
    + repeat split; try done.
  - destruct DEFAULT_PICKLE_ISSUES; simpl.
    + repeat split. intros _. by rewrite lookup_insert_eq.
    + repeat split; try done.
Qed.

(** X7. A cached entry stamped before the repository's [updated_at] is
    dropped: the collection is fetched and returned in its place, and,
    when pickling is enabled, stored under the time of the fetch. *)
Theorem stale_entry_is_refetched property_name st u ev items :
  pickles st !! pfile_of self property_name = Some (PEntry (Some u) ev) ->
  u < remote_updated_at st ->
  remote_get st property_name = Some items ->
  let r := load_update_fetch DEFAULT_PICKLE_ISSUES self property_name st in
  fst r = Ok items /\
  fetched (snd r) = fetched st ++ ["get_" +:+ property_name] /\
  (DEFAULT_PICKLE_ISSUES = true ->
   pickles (snd r) !! pfile_of self property_name =
   Some (PEntry (Some (now st)) items)).
Proof.
  intros Hfile Hstale Hget. cbv zeta.
  destruct (load_update_fetch_start property_name st)
    as (st1 & Hp & Hg & Hf & Hn & Hu & ->).
  cbv zeta. rewrite Hp, Hfile, Hu.
  replace (u <? remote_updated_at st) with true by (symmetry; by apply Z.ltb_lt).
  simpl. unfold call_getter. rewrite Hg, Hget. simpl. rewrite Hn, Hf.
  destruct DEFAULT_PICKLE_ISSUES; simpl.
  - repeat split. intros _. by rewrite lookup_insert_eq.
  - repeat split; try done.
Qed.

(** X8. What a call leaves on disk. No pickle file other than the one of
    the property is touched; that one is either left as it was or holds
    the returned list under the time of this call (never a missing time
    stamp); and with pickling disabled nothing is written at all. *)
Theorem load_update_fetch_writes property_name st :
  let r := load_update_fetch DEFAULT_PICKLE_ISSUES self property_name st in
  (forall p, p <> pfile_of self property_name ->
     pickles (snd r) !! p = pickles st !! p) /\
  (pickles (snd r) !! pfile_of self property_name =
     pickles st !! pfile_of self property_name \/
   exists ev, fst r = Ok ev /\
     pickles (snd r) !! pfile_of self property_name =
     Some (PEntry (Some (now st)) ev)) /\
  (DEFAULT_PICKLE_ISSUES = false -> pickles (snd r) = pickles st).
Proof.
  cbv zeta.
  destruct (load_update_fetch_start property_name st)
    as (st1 & Hp & Hg & Hf & Hn & Hu & ->).
  cbv zeta.
  destruct (pickles st1 !! pfile_of self property_name) as [[| |[u|] ev]|] eqn:Hfile;
    try destruct (u <? repo_updated_at st1);
    try destruct ev as [|e ev];
    unfold call_getter, isfile; simpl;
    try destruct (remote_get st1 property_name) as [l|]; simpl;
    rewrite ?Hfile; simpl;
    destruct DEFAULT_PICKLE_ISSUES; simpl;
    rewrite ?Hp, ?Hn;
    (split; [|split]);
    try (intros p Hne; by rewrite ?lookup_insert_ne);
    try (by left);
    try (intros; done);
    try (right; eexists; split; [reflexivity|]; by rewrite lookup_insert_eq).
  all: left; by rewrite <- Hp.
Qed.

End RepoCacheMore.

Section RepoCacheMoreWitnesses.
Import RepoCache Scenario Scenario2.

Lemma unusable_cache_file_witness :
  let r := load_update_fetch true rw "labels" labels_corrupt in
  fst r = Ok ["bug"; "docs"] /\
  fetched (snd r) = ["get_labels"] /\
  pickles (snd r) !! pfile_of rw "labels" = Some (PEntry (Some 200) ["bug"; "docs"]).
Proof.
  destruct (unusable_cache_file_is_refetched true rw "labels" labels_corrupt
    ["bug"; "docs"]) as (H1 & H2 & H3); [by left | reflexivity |].
  split; [exact H1|]. split; [exact H2|]. by apply H3.
Defined.

Lemma stale_entry_witness :
  let r := load_update_fetch true rw "labels" labels_stale in
  fst r = Ok ["bug"; "docs"] /\
  fetched (snd r) = ["get_labels"] /\
  pickles (snd r) !! pfile_of rw "labels" = Some (PEntry (Some 200) ["bug"; "docs"]).
Proof.
  destruct (stale_entry_is_refetched true rw "labels" labels_stale 10 ["bug"]
    ["bug"; "docs"]) as (H1 & H2 & H3); [reflexivity | reflexivity | reflexivity |].
  split; [exact H1|]. split; [exact H2|]. by apply H3.
Defined.

Lemma load_update_fetch_writes_witness :
  let r := load_update_fetch false rw "labels" labels_stale in
  pickles (snd r) !! "/cache/a/b/assignees.pickle" =
    pickles labels_stale !! "/cache/a/b/assignees.pickle" /\
  pickles (snd r) = pickles labels_stale.
Proof.
  destruct (load_update_fetch_writes false rw "labels" labels_stale)
    as (Hother & _ & Hoff).
  split.
  - apply Hother. vm_compute. discriminate.
  - by apply Hoff.
Defined.

End RepoCacheMoreWitnesses.

(** ** GitRepoWrapper, further *)

Section GitToolsMore.
Import GitTools GitMore.

Variable W : world.

Lemma keeps_ret {A} (a : A) : keeps_config (ret a).
Proof. by intros st. Qed.

Lemma keeps_raise {A} e : keeps_config (@raise A e).
Proof. by intros st. Qed.

Lemma keeps_bind {A B} (m : M A) (k : A -> M B) :
  keeps_config m -> (forall a, keeps_config (k a)) -> keeps_config (bind m k).
Proof.
  intros Hm Hk st. unfold bind. specialize (Hm st).
  destruct (m st) as [[a|e|] st1]; simpl in *; try done.
  by rewrite (Hk a st1).
Qed.

Lemma keeps_get_self : keeps_config get_self.
Proof. by intros st. Qed.

Lemma keeps_emit e : keeps_config (emit e).
Proof. by intros st. Qed.

Lemma keeps_run_command cmd env : keeps_config (run_command W cmd env).
Proof. by intros st. Qed.

Lemma keeps_os_isdir p : keeps_config (os_isdir W p).
Proof. intros st. unfold os_isdir. by destruct p. Qed.

Lemma keeps_os_exists p : keeps_config (os_exists W p).
Proof. by intros st. Qed.

Lemma keeps_read_file p : keeps_config (read_file W p).
Proof. by intros st. Qed.

Lemma keeps_decode b : keeps_config (decode b).
Proof. by intros st. Qed.

Lemma keeps_modify_self f :
  (forall o, config (f o) = config o) -> keeps_config (modify_self f).
Proof. intros Hf st. simpl. apply Hf. Qed.

Ltac keeps :=
  repeat first
    [ apply keeps_ret | apply keeps_raise | apply keeps_get_self
    | apply keeps_emit | apply keeps_run_command | apply keeps_os_isdir
    | apply keeps_os_exists | apply keeps_read_file | apply keeps_decode
    | (apply keeps_modify_self; intros ?; reflexivity)
    | (apply keeps_bind; [|intros ?])
    | match goal with
      | |- keeps_config (if ?b then _ else _) => destruct b
      | |- keeps_config (match ?x with _ => _ end) => destruct x
      end ].

Lemma keeps_repo_endswith_targz : keeps_config repo_endswith_targz.
Proof. unfold repo_endswith_targz. keeps. Qed.

Lemma keeps_isgit : keeps_config isgit.
Proof. unfold isgit. apply keeps_bind; [apply keeps_repo_endswith_targz|]. intros; keeps. Qed.

Lemma keeps_create_checkout : keeps_config (create_checkout W).
Proof.
  unfold create_checkout.
  apply keeps_bind; [keeps|intros o].
  apply keeps_bind; [keeps|intros d].
  apply keeps_bind; [keeps|intros _].
  apply keeps_bind; [apply keeps_repo_endswith_targz|intros tgz].
  keeps.
Qed.

Lemma keeps_update_checkout : keeps_config (update_checkout W).
Proof.
  unfold update_checkout.
  apply keeps_bind; [keeps|intros o].
  destruct (truthy (commit o)).
  - apply keeps_bind; [keeps|intros [[rc so] se]].
    apply keeps_bind; [keeps|intros [rc' changed]].
    apply keeps_bind.
    + destruct (negb (rc' =? 0)); [|keeps].
      apply keeps_bind; [apply keeps_create_checkout|intros; keeps].
    + intros; keeps.
  - apply keeps_bind; [keeps|intros [[rc so] se]].
    destruct (negb (rc =? 0)); [|keeps].
    apply keeps_bind; [apply keeps_create_checkout|intros; keeps].
Qed.

Lemma keeps_manage_checkout : keeps_config (manage_checkout W).
Proof.
  unfold manage_checkout.
  apply keeps_bind; [keeps|intros o].
  destruct (negb (_is_git o)); [keeps|].
  apply keeps_bind; [keeps|intros d].
  destruct (negb d).
  - apply keeps_bind; [apply keeps_create_checkout|intros; keeps].
  - destruct (_needs_rebase o); [apply keeps_update_checkout|keeps].
Qed.

Lemma keeps_get_files force : keeps_config (get_files W force).
Proof.
  unfold get_files.
  apply keeps_bind; [apply keeps_isgit|intros g].
  apply keeps_bind; [keeps|intros o].
  keeps.
Qed.

Lemma keeps_update force : keeps_config (update W force).
Proof.
  unfold update.
  apply keeps_bind; [apply keeps_manage_checkout|intros changed].
  apply keeps_bind; [keeps|intros o].
  apply keeps_bind.
  - destruct (_ || _); [apply keeps_get_files|keeps].
  - intros; keeps.
Qed.

Lemma keeps_files : keeps_config (files W).
Proof.
  unfold files.
  apply keeps_bind; [apply keeps_get_files|intros _]. keeps.
Qed.

Lemma keeps_exists filename : keeps_config (exists_ W filename).
Proof.
  unfold exists_. apply keeps_bind; [apply keeps_files|intros; keeps].
Qed.

Lemma keeps_get_last_rev_for_file filepath :
  keeps_config (get_last_rev_for_file W filepath).
Proof. unfold get_last_rev_for_file. keeps. Qed.

Lemma keeps_existed filepath : keeps_config (existed W filepath).
Proof.
  unfold existed. apply keeps_bind; [keeps|intros o].
  apply keeps_bind; [apply keeps_get_last_rev_for_file|intros; keeps].
Qed.

Lemma keeps_get_file_content filepath follow :
  keeps_config (get_file_content W filepath follow).
Proof.
  unfold get_file_content.
  apply keeps_bind; [keeps|intros o].
  destruct (checkoutdir o) as [dir|]; [|keeps].
  apply keeps_bind; [keeps|intros e].
  destruct e; [keeps|]. destruct (negb follow); [keeps|].
  apply keeps_bind; [apply keeps_get_last_rev_for_file|intros lrev].
  apply keeps_bind; [keeps|intros [[rc so] se]].
  apply keeps_bind; [keeps|intros text].
  destruct (endswith ".py" text); [|keeps].
  apply keeps_bind; [keeps|intros text'].
  apply keeps_bind; [apply keeps_get_last_rev_for_file|intros lrev'].
  keeps.
Qed.

(** X9. No method changes what the constructor has set: the repository,
    the pinned commit, the context, the checkout directory and the
    rebase flag are the same after [update], [files], [exists],
    [existed], [get_file_content] and [create_checkout], whether they
    return or raise.  [isdir], [module_files] and [find] change nothing
    at all and run no command. *)
Theorem methods_keep_the_configuration st :
  (forall force, config (fst (snd (update W force st))) = config (fst st)) /\
  config (fst (snd (files W st))) = config (fst st) /\
  (forall f, config (fst (snd (exists_ W f st))) = config (fst st)) /\
  (forall f, config (fst (snd (existed W f st))) = config (fst st)) /\
  (forall f follow,
     config (fst (snd (get_file_content W f follow st))) = config (fst st)) /\
  config (fst (snd (create_checkout W st))) = config (fst st) /\
  (forall f, snd (isdir W f st) = st) /\
  snd (module_files st) = st /\
  (forall pattern, snd (find pattern st) = st).
Proof.
  split; [|split; [|split; [|split; [|split; [|split; [|split; [|split]]]]]]].
  - intros. apply keeps_update.
  - apply keeps_files.
  - intros. apply keeps_exists.
  - intros. apply keeps_existed.
  - intros. apply keeps_get_file_content.
  - apply keeps_create_checkout.
  - intros f. unfold isdir, bind, get_self, raise, os_isdir. simpl.
    by destruct (checkoutdir (fst st)).
  - done.
  - intros pattern. unfold find, bind, get_self, ret. simpl.
    by destruct (bool_decide _).
Qed.



(** X11. With [follow] unset [get_file_content] runs no subprocess and
    leaves the object as it is; for a path that is not in the working
    tree it returns [None]. *)
Theorem get_file_content_without_follow o hist filepath :
  snd (get_file_content W filepath false (o, hist)) = (o, hist) /\
  (forall d,
     checkoutdir o = Some d ->
     exists_result W hist (path_join d filepath) = false ->
     fst (get_file_content W filepath false (o, hist)) = Ok None).
Proof.
  unfold get_file_content, bind, get_self, os_exists, read_file, ret, raise.
  simpl. split.
  - destruct (checkoutdir o) as [d|]; [|done]. simpl.
    destruct (exists_result W hist (path_join d filepath)); [|done]. simpl.
    by destruct (read_result W hist (path_join d filepath)).
  - intros d -> Hno. simpl. by rewrite Hno.
Qed.

(** X12. [files] and [exists] run [git ls-files] exactly when the cached
    list of a git mirror is empty: a list that is not empty is served as
    it is, and an empty one (an empty repository, say) is asked of git
    again at every access. *)
Theorem file_list_is_listed_when_empty o hist r d filename :
  repo o = Some r -> endswith ".tar.gz" r = false -> checkoutdir o = Some d ->
  let listing := if _files o is [] then [Run (ls_files_cmd d) []] else [] in
  snd (snd (files W (o, hist))) = hist ++ listing /\
  snd (snd (exists_ W filename (o, hist))) = hist ++ listing /\
  (_files o <> [] ->
   fst (snd (files W (o, hist))) = o /\
   (truthy (context o) = false -> fst (files W (o, hist)) = Ok (_files o))).
Proof.
  intros Hr Htgz Hd. cbv zeta.
  assert (Hget : get_files W false (o, hist) =
    (Ok tt,
     (if _files o is [] then
        with_files (tracked_files (stdout_of (run_result W hist (ls_files_cmd d)))) o
      else o,
      hist ++ (if _files o is [] then [Run (ls_files_cmd d) []] else [])))).
  { destruct (run_result W hist (ls_files_cmd d)) as [[rc so] se] eqn:E.
    unfold get_files, isgit, repo_endswith_targz, bind, get_self, ret, raise,
      run_command, modify_self.
    simpl. rewrite Hr, Htgz. simpl. rewrite Hd. simpl.
    fold (ls_files_cmd d).
    destruct (_files o) as [|f fs] eqn:Hfs; simpl.
    - rewrite E. unfold stdout_of. simpl. by destruct (truthy (context o)).
    - by rewrite app_nil_r. }
  assert (Hfiles : snd (snd (files W (o, hist))) =
                   hist ++ (if _files o is [] then [Run (ls_files_cmd d) []] else [])).
  { unfold files. rewrite (git_bind_ok _ _ _ _ _ Hget).
    unfold bind, get_self, ret. simpl. by destruct (truthy (context _)). }
  split; [exact Hfiles|]. split.
  - unfold exists_, bind.
    destruct (files W (o, hist)) as [[l|e|] st1]; simpl in *; done.
  - intros Hne. unfold files. rewrite (git_bind_ok _ _ _ _ _ Hget).
    destruct (_files o) as [|f fs] eqn:Hfs; [done|].
    unfold bind, get_self, ret. simpl.
    split; [by destruct (truthy (context o))|].
    intros ->. by rewrite Hfs.
Qed.

(** Listing the files of a git checkout, when the list is there. *)
Lemma get_files_lazy o hist r :
  repo o = Some r -> endswith ".tar.gz" r = false -> _files o <> [] ->
  get_files W false (o, hist) = (Ok tt, (o, hist)).
Proof.
  intros Hr Htgz Hne.
  unfold get_files, isgit, repo_endswith_targz, bind, get_self, ret, raise.
  simpl. rewrite Hr, Htgz. simpl.
  by destruct (_files o).
Qed.

Lemma elem_of_tracked_files f so :
  f ∈ tracked_files so <->
  exists line, line ∈ split "010" so /\ str_strip line = f /\ f <> "".
Proof.
  unfold tracked_files. rewrite list_elem_of_In, in_map_iff. split.
  - intros (line & <- & Hin). exists line.
    apply list_elem_of_In, list_elem_of_filter in Hin as [Hp Hin].
    split; [done|]. split; [done|].
    intros Heq. rewrite Heq in Hp. done.
  - intros (line & Hin & <- & Hne). exists line. split; [done|].
    apply list_elem_of_In, list_elem_of_filter. split; [|done].
    destruct (String.eqb_spec (str_strip line) ""); done.
Qed.

(** X13. What [git ls-files] prints is kept line by line, stripped, and
    without the lines that are blank: after a forced listing a name is in
    the list exactly when it is not empty and is some line of the output
    with the white space at its ends removed, the white space of Unicode
    included; stripping a name of the list again changes nothing.  The
    context plays no part in it. *)
Theorem forced_listing_is_the_stripped_output o hist r d :
  repo o = Some r -> endswith ".tar.gz" r = false -> checkoutdir o = Some d ->
  let so := stdout_of (run_result W hist (ls_files_cmd d)) in
  let o' := fst (snd (get_files W true (o, hist))) in
  (forall f, f ∈ _files o' <->
             exists line, line ∈ split "010" so /\ str_strip line = f /\ f <> "") /\
  (forall f, f ∈ _files o' -> str_strip f = f).
Proof.
  intros Hr Htgz Hd. cbv zeta.
  rewrite (get_files_force_git W o hist r d Hr Htgz Hd). simpl.
  split.
  - intros f. apply elem_of_tracked_files.
  - intros f Hf. apply elem_of_tracked_files in Hf as (line & _ & <- & _).
    apply str_strip_idem.
Qed.

(** A rebase that succeeds reports a change unless git says that the
    branch is up to date. *)
Lemma manage_checkout_rebased o hist d :
  checkoutdir o = Some d -> _is_git o = true -> _needs_rebase o = true ->
  truthy (commit o) = false -> isdir_result W hist d = true ->
  rc_of (run_result W hist (pull_cmd d)) = 0 ->
  manage_checkout W (o, hist) =
  (Ok (negb (contains "current branch devel is up to date."
               (lower (stdout_of (run_result W hist (pull_cmd d)))))),
   (with_commits_by_email None o, hist ++ [Run (pull_cmd d) GIT_ENV])).
Proof.
  intros Hd Hgit Hreb Hc Hdir Hrc.
  destruct (run_result W hist (pull_cmd d)) as [[rc so] se] eqn:E.
  unfold rc_of, stdout_of in *. simpl in Hrc. subst rc.
  unfold manage_checkout.
  unfold bind at 1. rewrite get_self_eq, Hgit. cbn [negb]. cbv beta iota.
  unfold bind at 1, os_isdir at 1. rewrite Hd. cbn [snd]. rewrite Hdir.
  cbn [negb]. cbv beta iota. rewrite Hreb.
  unfold update_checkout.
  unfold bind at 1. rewrite get_self_eq, Hc. cbv beta iota zeta.
  rewrite Hd. cbn [fmt]. fold (pull_cmd d).
  unfold bind at 1. rewrite run_command_eq, E. done.
Qed.

(** X14. A mirror whose rebase succeeds is listed again only if git
    reports something new.  When the output of [git pull --rebase]
    mentions, in any letter case, that the current branch devel is up to
    date, [update] runs that one command and keeps the list of files;
    otherwise it runs [git ls-files] after it and replaces the list.
    Both memos are emptied either way. *)
Theorem listing_follows_the_rebase_report o hist r d :
  repo o = Some r -> endswith ".tar.gz" r = false -> checkoutdir o = Some d ->
  _is_git o = true -> _needs_rebase o = true -> truthy (commit o) = false ->
  isdir_result W hist d = true ->
  rc_of (run_result W hist (pull_cmd d)) = 0 ->
  let so := stdout_of (run_result W hist (pull_cmd d)) in
  let h1 := hist ++ [Run (pull_cmd d) GIT_ENV] in
  exists o',
    _lrev_map o' = ∅ /\ commits_by_email o' = None /\
    if contains "current branch devel is up to date." (lower so) then
      update W false (o, hist) = (Ok tt, (o', h1)) /\ _files o' = _files o
    else
      update W false (o, hist) = (Ok tt, (o', h1 ++ [Run (ls_files_cmd d) []])) /\
      _files o' = tracked_files (stdout_of (run_result W h1 (ls_files_cmd d))).
Proof.
  intros Hr Htgz Hd Hgit Hreb Hc Hdir Hrc. cbv zeta.
  pose proof (manage_checkout_rebased o hist d Hd Hgit Hreb Hc Hdir Hrc) as Hm.
  unfold update. rewrite (git_bind_ok _ _ _ _ _ Hm).
  destruct (contains _ (lower _)).
  - eexists. split; [|split]; [| |split]; [| |unfold bind, get_self, ret, modify_self; simpl;
      rewrite Hgit; simpl; reflexivity|]; done.
  - unfold bind at 1. rewrite get_self_eq. simpl negb. simpl orb.
    unfold bind at 1.
    rewrite (get_files_force_git W (with_commits_by_email None o) _ r d Hr Htgz Hd).
    eexists. split; [|split]; [| |split]; [| |unfold bind, modify_self; simpl; reflexivity|];
      done.
Qed.


(** Recreating the checkout of an archive. *)
Lemma create_checkout_archive o hist r d :
  repo o = Some r -> endswith ".tar.gz" r = true -> checkoutdir o = Some d ->
  create_checkout W (o, hist) =
  (Ok tt,
   (with_is_git false o,
    hist ++ (if isdir_result W hist d then [Rmtree d] else []) ++
    [Download r; Makedirs d; Extract d])).
Proof.
  intros Hr Htgz Hd.
  unfold create_checkout.
  unfold bind at 1, get_self at 1. simpl fst.
  unfold bind at 1, os_isdir at 1. rewrite Hd. simpl snd.
  destruct (isdir_result W hist d).
  - unfold bind at 1, emit at 1. simpl.
    unfold bind at 1. rewrite (repo_endswith_targz_some _ _ r Hr), Htgz.
    unfold bind, modify_self, emit. simpl. rewrite Hr. simpl.
    by rewrite <- !app_assoc.
  - unfold bind at 1, ret at 1.
    unfold bind at 1. rewrite (repo_endswith_targz_some _ _ r Hr), Htgz.
    unfold bind, modify_self, emit. simpl. rewrite Hr. simpl.
    by rewrite <- !app_assoc.
Qed.

(** Listing the files of an extracted archive. *)
Lemma get_files_archive force o hist r d :
  repo o = Some r -> endswith ".tar.gz" r = true -> checkoutdir o = Some d ->
  get_files W force (o, hist) =
  (Ok tt,
   (with_files (found_files (stdout_of (run_result W hist (find_cmd d)))) o,
    hist ++ [Run (find_cmd d) []])).
Proof.
  intros Hr Htgz Hd.
  unfold get_files, isgit, repo_endswith_targz, bind, get_self, ret, raise,
    run_command, modify_self.
  simpl. rewrite Hr, Htgz. simpl. rewrite Hd. simpl.
  fold (find_cmd d).
  destruct (run_result W hist (find_cmd d)) as [[rc so] se].
  done.
Qed.

Lemma prefix_app_inv (a s : string) :
  String.prefix a s = true -> exists b, s = a +:+ b.
Proof.
  revert s. induction a as [|c a IH]; intros s H.
  - exists s. by rewrite app_nil_l.
  - destruct s as [|c' s]; [done|].
    rewrite prefix_cons_eq in H. apply andb_true_iff in H as [Hc Hs].
    apply Ascii.eqb_eq in Hc as <-.
    destruct (IH s Hs) as [b ->]. exists b. by rewrite app_cons.
Qed.

Lemma elem_of_found_files f so :
  f ∈ found_files so <-> "./" +:+ f ∈ split "010" so.
Proof.
  unfold found_files. rewrite list_elem_of_In, in_map_iff. split.
  - intros (line & <- & Hin).
    apply list_elem_of_In, list_elem_of_filter in Hin as [Hp Hin].
    unfold startswith in Hp.
    destruct (String.prefix "./" line) eqn:E; [|done].
    destruct (prefix_app_inv _ _ E) as [b ->].
    by rewrite replace_first_prefix, app_nil_l.
  - intros Hin. exists ("./" +:+ f). split.
    + by rewrite replace_first_prefix, app_nil_l.
    + apply list_elem_of_In, list_elem_of_filter. split; [|done].
      unfold startswith. by rewrite prefix_refl_app.
Qed.

(** X15. An archive is downloaded by [create_checkout] only, and the
    object is marked as not being a git checkout.  From then on
    [manage_checkout] does nothing and reports no change, and [update],
    forced or not, runs one command, [find .] in the checkout directory:
    the archive is never downloaded again.  The list of files is then
    made of the lines of the output that start with ['./'], without that
    prefix. *)
Theorem archive_is_downloaded_once o hist r d :
  repo o = Some r -> endswith ".tar.gz" r = true -> checkoutdir o = Some d ->
  let o1 := with_is_git false o in
  let h1 := hist ++ (if isdir_result W hist d then [Rmtree d] else []) ++
            [Download r; Makedirs d; Extract d] in
  create_checkout W (o, hist) = (Ok tt, (o1, h1)) /\
  (forall h, manage_checkout W (o1, h) = (Ok false, (o1, h))) /\
  (forall force h,
     exists o2,
       update W force (o1, h) = (Ok tt, (o2, h ++ [Run (find_cmd d) []])) /\
       _is_git o2 = false /\
       forall f, f ∈ _files o2 <->
                 "./" +:+ f ∈ split "010" (stdout_of (run_result W h (find_cmd d)))).
Proof.
  intros Hr Htgz Hd. cbv zeta.
  split; [by apply create_checkout_archive|].
  assert (Hm : forall h, manage_checkout W (with_is_git false o, h) =
                         (Ok false, (with_is_git false o, h))) by done.
  split; [exact Hm|].
  intros force h. unfold update.
  rewrite (git_bind_ok _ _ _ _ _ (Hm h)).
  unfold bind at 1. rewrite get_self_eq.
  replace (false || force || negb (_is_git (with_is_git false o))) with true
    by (by destruct force).
  unfold bind at 1.
  rewrite (get_files_archive true (with_is_git false o) h r d Hr Htgz Hd).
  eexists. split; [unfold bind, modify_self; simpl; reflexivity|].
  split; [done|]. simpl. intros f. apply elem_of_found_files.
Qed.

(** X16. The constructor does not know yet that an archive is no git
    checkout: when the directory of an archive is there from an earlier
    run, the first [update] runs [git pull --rebase] in it, and when that
    fails the directory is removed and the archive downloaded and
    extracted again. *)
Theorem archive_left_by_an_earlier_run_is_rebased o hist r d :
  repo o = Some r -> endswith ".tar.gz" r = true -> checkoutdir o = Some d ->
  _is_git o = true -> _needs_rebase o = true -> truthy (commit o) = false ->
  isdir_result W hist d = true ->
  rc_of (run_result W hist (pull_cmd d)) <> 0 ->
  let h1 := hist ++ [Run (pull_cmd d) GIT_ENV] in
  let h2 := h1 ++ (if isdir_result W h1 d then [Rmtree d] else []) ++
            [Download r; Makedirs d; Extract d] in
  manage_checkout W (o, hist) = (Ok true, (with_is_git false o, h2)).
Proof.
  intros Hr Htgz Hd Hgit Hreb Hc Hdir Hrc. cbv zeta.
  destruct (run_result W hist (pull_cmd d)) as [[rc so] se] eqn:E.
  unfold rc_of in Hrc. simpl in Hrc. apply Z.eqb_neq in Hrc.
  unfold manage_checkout.
  unfold bind at 1. rewrite get_self_eq, Hgit. cbn [negb]. cbv beta iota.
  unfold bind at 1, os_isdir at 1. rewrite Hd. cbn [snd]. rewrite Hdir.
  cbn [negb]. cbv beta iota. rewrite Hreb.
  unfold update_checkout.
  unfold bind at 1. rewrite get_self_eq, Hc. cbv beta iota zeta.
  rewrite Hd. cbn [fmt]. fold (pull_cmd d).
  unfold bind at 1. rewrite run_command_eq, E, Hrc. cbn [negb]. cbv beta iota.
  unfold bind at 1.
  rewrite (create_checkout_archive o _ r d Hr Htgz Hd). done.
Qed.

(** X17. Seen through a context, a file of the mirror that lies under
    the context is listed by its path relative to it: for a context
    [ctx], a tracked file [ctx.rstrip('/') + '/' + p] that starts with
    [ctx] is listed by [files] as [p], and [exists] answers true for
    [p], provided that the prefix does not occur again inside [p]. *)
Theorem file_under_the_context_is_listed_relative o hist r ctx p :
  repo o = Some r -> endswith ".tar.gz" r = false ->
  context o = Some ctx -> ctx <> "" ->
  let pre := rstrip_slash ctx +:+ "/" in
  pre +:+ p ∈ _files o ->
  startswith ctx (pre +:+ p) = true ->
  contains pre p = false ->
  exists l,
    files W (o, hist) = (Ok l, (o, hist)) /\ p ∈ l /\
    exists_ W p (o, hist) = (Ok true, (o, hist)).
Proof.
  intros Hr Htgz Hctx Hne. cbv zeta. intros Hin Hstart Hno.
  assert (Hfs : _files o <> []) by (intros E; rewrite E in Hin; inversion Hin).
  assert (Ht : truthy (context o) = true).
  { rewrite Hctx. simpl. by destruct (String.eqb_spec ctx ""). }
  set (l := map (replace (rstrip_slash ctx +:+ "/") "")
              (filter (fun x => startswith ctx x) (_files o))).
  assert (Hfiles : files W (o, hist) = (Ok l, (o, hist))).
  { unfold files. rewrite (git_bind_ok _ _ _ _ _ (get_files_lazy o hist r Hr Htgz Hfs)).
    unfold bind. rewrite get_self_eq, Ht. cbv zeta. rewrite Hctx. done. }
  assert (Hp : p ∈ l).
  { unfold l. apply list_elem_of_In, in_map_iff.
    exists ((rstrip_slash ctx +:+ "/") +:+ p). split.
    - destruct (rstrip_slash ctx +:+ "/") as [|a old] eqn:E.
      { exfalso. destruct (rstrip_slash ctx); [rewrite app_nil_l in E|rewrite app_cons in E];
          done. }
      rewrite replace_prefix, app_nil_l. by apply replace_absent.
    - apply list_elem_of_In, list_elem_of_filter. split; [|done].
      by rewrite Hstart. }
  exists l. split; [done|]. split; [done|].
  unfold exists_. rewrite (git_bind_ok _ _ _ _ _ Hfiles).
  unfold ret. by rewrite bool_decide_eq_true_2.
Qed.

Lemma fold_find_step ctx pattern l acc fn :
  fn ∈ fold_left (find_step ctx pattern) l acc <->
  fn ∈ acc \/
  (fn ∈ l /\ endswith pattern fn = true /\
   (truthy ctx = true -> contains (fmt ctx) fn = true)).
Proof.
  revert acc. induction l as [|x l IH]; intros acc; simpl.
  - split; [by left|]. intros [H|[H _]]; [done|inversion H].
  - rewrite IH. unfold find_step.
    destruct (truthy ctx) eqn:Ht; simpl.
    + destruct (contains (fmt ctx) x) eqn:Hc; simpl.
      * destruct (endswith pattern x) eqn:He.
        -- rewrite elem_of_union, elem_of_singleton, elem_of_cons.
           split.
           ++ intros [[->|H]|(H1 & H2 & H3)]; [right|left|right]; auto.
           ++ intros [H|([->|H1] & H2 & H3)]; auto.
        -- rewrite elem_of_cons.
           split.
           ++ intros [H|(H1 & H2 & H3)]; auto.
           ++ intros [H|([->|H1] & H2 & H3)]; auto. congruence.
      * rewrite elem_of_cons. split.
        -- intros [H|(H1 & H2 & H3)]; auto.
        -- intros [H|([->|H1] & H2 & H3)]; auto.
           specialize (H3 eq_refl). congruence.
    + destruct (endswith pattern x) eqn:He.
      * rewrite elem_of_union, elem_of_singleton, elem_of_cons.
        split.
        -- intros [[->|H]|(H1 & H2 & H3)]; [right|left|right]; auto.
           split; [by left|]. split; [done|]. intros; discriminate.
        -- intros [H|([->|H1] & H2 & H3)]; auto.
      * rewrite elem_of_cons.
        split.
        -- intros [H|(H1 & H2 & H3)]; auto.
        -- intros [H|([->|H1] & H2 & H3)]; auto. congruence.
Qed.

(** X18. [find] answers a tracked path by the path itself, a string;
    any other pattern by the set of the tracked paths that end with it
    and, when there is a context, mention the context somewhere.  The
    paths are those of the repository, not those relative to the
    context, and the list of files is taken as it is: no command is
    run. *)
Theorem find_answers_path_or_suffix_matches o hist pattern :
  (pattern ∈ _files o ->
   find pattern (o, hist) = (Ok (Exact pattern), (o, hist))) /\
  (pattern ∉ _files o ->
   exists m,
     find pattern (o, hist) = (Ok (Matches m), (o, hist)) /\
     forall fn,
       fn ∈ m <->
       fn ∈ _files o /\ endswith pattern fn = true /\
       (truthy (context o) = true -> contains (fmt (context o)) fn = true)).
Proof.
  unfold find, bind. rewrite get_self_eq. split; intros H.
  - by rewrite bool_decide_eq_true_2.
  - rewrite bool_decide_eq_false_2 by done.
    eexists. split; [reflexivity|].
    intros fn. rewrite fold_find_step. split.
    + intros [Hf|Hf]; [by apply elem_of_empty in Hf|done].
    + intros Hf. by right.
Qed.

Lemma returns_bind {A B} (m : M A) (k : A -> M B) st r d :
  returns m st -> keeps_config m ->
  repo (fst st) = Some r -> checkoutdir (fst st) = Some d ->
  (forall a st1,
     repo (fst st1) = Some r -> checkoutdir (fst st1) = Some d ->
     returns (k a) st1) ->
  returns (bind m k) st.
Proof.
  intros (a & o1 & evs & E) Hk Hr Hd Hcont.
  pose proof (Hk st) as Hcfg. rewrite E in Hcfg. simpl in Hcfg.
  unfold config in Hcfg. injection Hcfg as _ Hr1 _ _ Hd1.
  destruct (Hcont a (o1, snd st ++ evs)) as (b & o2 & evs' & E').
  { simpl. congruence. }
  { simpl. congruence. }
  exists b, o2, (evs ++ evs'). unfold bind. rewrite E, E'. simpl.
  by rewrite app_assoc.
Qed.

Lemma bind_get_self {B} (k : GitRepoWrapper -> M B) st :
  bind get_self k st = k (fst st) st.
Proof. done. Qed.

Lemma returns_get_self {B} (k : GitRepoWrapper -> M B) st :
  returns (k (fst st)) st -> returns (bind get_self k) st.
Proof. intros (a & o1 & evs & E). exists a, o1, evs. by rewrite bind_get_self. Qed.

Lemma returns_now {A} (m : M A) st a o1 evs :
  m st = (Ok a, (o1, snd st ++ evs)) -> returns m st.
Proof. intros E. by exists a, o1, evs. Qed.

Lemma returns_ret {A} (a : A) st : returns (ret a) st.
Proof. exists a, (fst st), []. destruct st. simpl. by rewrite app_nil_r. Qed.

Lemma returns_run_command cmd env st : returns (run_command W cmd env) st.
Proof. by eexists _, _, _. Qed.

Lemma returns_modify_self f st : returns (modify_self f) st.
Proof. exists tt, (f (fst st)), []. simpl. by rewrite app_nil_r. Qed.

Lemma returns_create_checkout st r d :
  repo (fst st) = Some r -> checkoutdir (fst st) = Some d ->
  returns (create_checkout W) st.
Proof.
  destruct st as [o h]. simpl. intros Hr Hd.
  destruct (endswith ".tar.gz" r) eqn:Htgz.
  - eapply returns_now. by apply create_checkout_archive.
  - eapply returns_now. by apply create_checkout_git.
Qed.

Lemma returns_update_checkout st r d :
  repo (fst st) = Some r -> checkoutdir (fst st) = Some d ->
  returns (update_checkout W) st.
Proof.
  intros Hr Hd. unfold update_checkout.
  apply returns_get_self.
  destruct (truthy (commit (fst st))).
  - cbv zeta.
    eapply returns_bind; [apply returns_run_command|keeps|done|done|].
    intros [[rc so] se] st1 Hr1 Hd1.
    eapply returns_bind; [|keeps|done|done|].
    { destruct (negb _); [|apply returns_ret].
      cbv zeta.
      eapply returns_bind; [apply returns_run_command|keeps|done|done|].
      intros [[rc' so'] se'] st2 _ _. apply returns_ret. }
    intros [rc' changed] st2 Hr2 Hd2.
    eapply returns_bind; [| |done|done|].
    + destruct (negb (rc' =? 0)); [|apply returns_ret].
      eapply returns_bind;
        [by eapply returns_create_checkout|apply keeps_create_checkout|done|done|].
      intros; apply returns_ret.
    + destruct (negb (rc' =? 0)); [|keeps].
      apply keeps_bind; [apply keeps_create_checkout|intros; keeps].
    + intros changed' st3 Hr3 Hd3.
      eapply returns_bind; [apply returns_modify_self|keeps|done|done|].
      intros; apply returns_ret.
  - cbv zeta.
    eapply returns_bind; [apply returns_run_command|keeps|done|done|].
    intros [[rc so] se] st1 Hr1 Hd1.
    destruct (negb (rc =? 0)).
    + eapply returns_bind;
        [by eapply returns_create_checkout|apply keeps_create_checkout|done|done|].
      intros; apply returns_ret.
    + eapply returns_bind; [apply returns_modify_self|keeps|done|done|].
      intros; apply returns_ret.
Qed.

Lemma returns_manage_checkout st r d :
  repo (fst st) = Some r -> checkoutdir (fst st) = Some d ->
  returns (manage_checkout W) st.
Proof.
  intros Hr Hd. unfold manage_checkout.
  apply returns_get_self.
  destruct (negb (_is_git (fst st))); [apply returns_ret|].
  rewrite Hd.
  eapply returns_bind; [|keeps|done|done|].
  { destruct st as [o h]. eapply returns_now. unfold os_isdir. simpl.
    by rewrite app_nil_r. }
  intros b st1 Hr1 Hd1.
  destruct (negb b).
  - eapply returns_bind;
      [by eapply returns_create_checkout|apply keeps_create_checkout|done|done|].
    intros; apply returns_ret.
  - destruct (_needs_rebase (fst st)); [by eapply returns_update_checkout|].
    apply returns_ret.
Qed.

(** The command that lists the files of a checkout, and the names that
    are read off its output. *)
Lemma get_files_force o hist r d :
  repo o = Some r -> checkoutdir o = Some d ->
  let cmd := if endswith ".tar.gz" r then find_cmd d else ls_files_cmd d in
  let names := if endswith ".tar.gz" r then found_files else tracked_files in
  get_files W true (o, hist) =
  (Ok tt, (with_files (names (stdout_of (run_result W hist cmd))) o,
           hist ++ [Run cmd []])).
Proof.
  intros Hr Hd. cbv zeta. destruct (endswith ".tar.gz" r) eqn:Htgz.
  - by apply (get_files_archive true o hist r d).
  - by apply (get_files_force_git W o hist r d).
Qed.

(** X19. What the constructor does for a repository whose url is not
    empty, in the runs in which its file operations and the download
    return.  Whatever git exits with and prints, its checkout directory
    is made of the parts of the url under the cache directory, the parent
    of that directory is made if it is not there, and the last thing the
    constructor does is to list the files: with [git ls-files], or with
    [find .] for an archive.  The object holds that list, what it was
    given, and empty memos. *)
Theorem constructor_with_a_repository cachedir r commit_ rebase context_ hist :
  r <> "" ->
  let d := checkout_path cachedir r in
  let cmd := if endswith ".tar.gz" r then find_cmd d else ls_files_cmd d in
  let names := if endswith ".tar.gz" r then found_files else tracked_files in
  exists o pre,
    init W cachedir (Some r) commit_ rebase context_ hist =
      (Ok tt, (o, (hist ++ pre) ++ [Run cmd []])) /\
    config o = (rebase, Some r, commit_, context_, Some d) /\
    _lrev_map o = ∅ /\
    _files o = names (stdout_of (run_result W (hist ++ pre) cmd)) /\
    (exists_result W hist (dirname d) = false ->
     exists rest, pre = Makedirs (dirname d) :: rest).
Proof.
  intros Hne. cbv zeta.
  assert (Ht : truthy (Some r) = true).
  { simpl. by destruct (String.eqb_spec r ""). }
  set (d := checkout_path cachedir r).
  set (o0 := {| _needs_rebase := rebase; repo := Some r; commit := commit_;
                context := context_; _lrev_map := ∅; _is_git := true;
                checkoutdir := Some d; _files := [];
                commits_by_email := None |}).
  set (made := if exists_result W hist (dirname d) then []
               else [Makedirs (dirname d)]).
  assert (Hinit : init W cachedir (Some r) commit_ rebase context_ hist =
                  update W true (o0, hist ++ made)).
  { unfold init. rewrite Ht. cbv zeta. simpl fmt. fold (checkout_path cachedir r).
    fold d. unfold bind at 1. unfold bind at 1. unfold modify_self at 1.
    simpl fst. simpl snd. unfold bind at 1. rewrite os_exists_eq. unfold made.
    destruct (exists_result W hist (dirname d)); simpl; [by rewrite app_nil_r|done]. }
  destruct (returns_manage_checkout (o0, hist ++ made) r d eq_refl eq_refl)
    as (c & o1 & evs & Hm).
  pose proof (keeps_manage_checkout (o0, hist ++ made)) as Hcfg.
  rewrite Hm in Hcfg. simpl in Hcfg, Hm.
  assert (Hr1 : repo o1 = Some r).
  { unfold config in Hcfg. by injection Hcfg as _ -> _ _ _. }
  assert (Hd1 : checkoutdir o1 = Some d).
  { unfold config in Hcfg. by injection Hcfg as _ _ _ _ ->. }
  exists (with_lrev_map ∅ (with_commits_by_email None
            (with_files
               ((if endswith ".tar.gz" r then found_files else tracked_files)
                  (stdout_of (run_result W ((hist ++ made) ++ evs)
                     (if endswith ".tar.gz" r then find_cmd d else ls_files_cmd d))))
               o1))),
         (made ++ evs).
  rewrite app_assoc. split; [|split; [|split; [|split]]].
  - rewrite Hinit. unfold update. rewrite (git_bind_ok _ _ _ _ _ Hm).
    unfold bind at 1. rewrite get_self_eq.
    rewrite orb_true_r. cbn [orb].
    unfold bind at 1. rewrite (get_files_force o1 _ r d Hr1 Hd1).
    cbv zeta. done.
  - exact Hcfg.
  - done.
  - done.
  - intros Hno. unfold made. rewrite Hno. by eexists.
Qed.

(** X20. The checkout directory does not tell the scheme of the url, nor
    any part of it that mentions ['http']: the urls of one repository
    over http and over https share a directory, and so do a url and the
    same url followed by one more part if that part mentions ['http'] or
    is empty. *)
Theorem checkout_path_drops_http_parts cachedir r :
  checkout_path cachedir ("https://" +:+ r) = checkout_path cachedir r /\
  checkout_path cachedir ("http://" +:+ r) = checkout_path cachedir r /\
  checkout_path cachedir (r +:+ "/") = checkout_path cachedir r /\
  (forall x,
     has_http x = true -> contains "/" x = false ->
     checkout_path cachedir (r +:+ "/" +:+ x) = checkout_path cachedir r).
Proof.
  unfold checkout_path, split.
  split; [|split; [|split]].
  - change ("https://" +:+ r) with ("https:" +:+ String "/" (String "/" r)).
    rewrite split_go_app. done.
  - change ("http://" +:+ r) with ("http:" +:+ String "/" (String "/" r)).
    rewrite split_go_app. done.
  - change (r +:+ "/") with (r +:+ String "/" "").
    rewrite split_go_app, filter_app. simpl.
    by rewrite app_nil_r.
  - intros x Hx Hno.
    change (r +:+ "/" +:+ x) with (r +:+ ("/" +:+ x)).
    rewrite app_cons, app_nil_l.
    rewrite split_go_app, filter_app.
    rewrite (split_go_no_sep "/" "" x Hno). simpl String.rev. rewrite app_nil_l.
    rewrite filter_cons, Hx, andb_false_r. simpl.
    by rewrite app_nil_r.
Qed.

End GitToolsMore.

Section GitToolsMoreWitnesses.
Import GitTools GitMore Scenario Scenario2.


Lemma get_file_content_without_follow_witness :
  snd (get_file_content history_world "removed_module.py" false (mirror, [])) =
    (mirror, []) /\
  fst (get_file_content history_world "removed_module.py" false (mirror, [])) =
    Ok None.
Proof.
  destruct (get_file_content_without_follow history_world mirror []
              "removed_module.py") as [Hst Hnone].
  split; [exact Hst|]. apply (Hnone mirror_dir); reflexivity.
Defined.

Lemma file_list_witness :
  (snd (snd (files conflict_world (with_files [] mirror, []))) =
     [Run (ls_files_cmd mirror_dir) []] /\
   snd (snd (exists_ conflict_world "setup.py" (with_files [] mirror, []))) =
     [Run (ls_files_cmd mirror_dir) []]) /\
  files conflict_world (mirror, []) = (Ok ["setup.py"], (mirror, [])).
Proof.
  split.
  - destruct (file_list_is_listed_when_empty conflict_world (with_files [] mirror) []
                "https://github.com/ansible/ansible" mirror_dir "setup.py"
                eq_refl eq_refl eq_refl) as (H1 & H2 & _).
    split; [exact H1|exact H2].
  - destruct (file_list_is_listed_when_empty conflict_world mirror []
                "https://github.com/ansible/ansible" mirror_dir "setup.py"
                eq_refl eq_refl eq_refl) as (H1 & _ & H3).
    destruct H3 as [Ho Hl]; [discriminate|].
    specialize (Hl eq_refl).
    rewrite (surjective_pairing (files conflict_world (mirror, []))).
    rewrite (surjective_pairing (snd (files conflict_world (mirror, [])))).
    by rewrite Hl, Ho, H1.
Defined.

Lemma forced_listing_witness :
  (forall f,
     f ∈ _files (fst (snd (get_files quiet_world true (mirror, [])))) <->
     exists line,
       line ∈ split "010"
                (stdout_of (run_result quiet_world [] (ls_files_cmd mirror_dir))) /\
       str_strip line = f /\ f <> "") /\
  (forall f,
     f ∈ _files (fst (snd (get_files quiet_world true (mirror, [])))) ->
     str_strip f = f) /\
  _files (fst (snd (get_files quiet_world true (mirror, [])))) =
    ["README.md"; "setup.py"; "nbsp.py"].
Proof.
  split; [|split; [|reflexivity]];
    apply (forced_listing_is_the_stripped_output quiet_world mirror []
             "https://github.com/ansible/ansible" mirror_dir); reflexivity.
Defined.

Lemma up_to_date_rebase_witness :
  exists o',
    _lrev_map o' = ∅ /\ commits_by_email o' = None /\
    update quiet_world false (mirror, []) =
      (Ok tt, (o', [Run (pull_cmd mirror_dir) GIT_ENV])) /\
    _files o' = ["setup.py"].
Proof.
  exact (listing_follows_the_rebase_report quiet_world mirror []
           "https://github.com/ansible/ansible" mirror_dir
           eq_refl eq_refl eq_refl eq_refl eq_refl eq_refl eq_refl eq_refl).
Defined.


Lemma archive_witness :
  create_checkout archive_world (archive, []) =
    (Ok tt,
     (with_is_git false archive,
      [Rmtree archive_dir; Download archive_url; Makedirs archive_dir;
       Extract archive_dir])) /\
  (forall h,
     manage_checkout archive_world (with_is_git false archive, h) =
     (Ok false, (with_is_git false archive, h))) /\
  (forall force h,
     exists o2,
       update archive_world force (with_is_git false archive, h) =
         (Ok tt, (o2, h ++ [Run (find_cmd archive_dir) []])) /\
       _is_git o2 = false /\
       forall f,
         f ∈ _files o2 <->
         "./" +:+ f ∈ split "010"
                        (stdout_of (run_result archive_world h (find_cmd archive_dir)))).
Proof.
  exact (archive_is_downloaded_once archive_world archive [] archive_url archive_dir
           eq_refl eq_refl eq_refl).
Defined.

Lemma archive_rebase_witness :
  manage_checkout archive_world (archive, []) =
  (Ok true,
   (with_is_git false archive,
    [Run (pull_cmd archive_dir) GIT_ENV; Rmtree archive_dir; Download archive_url;
     Makedirs archive_dir; Extract archive_dir])).
Proof.
  apply (archive_left_by_an_earlier_run_is_rebased archive_world archive []
           archive_url archive_dir); try reflexivity.
  discriminate.
Defined.

Lemma context_listing_witness :
  exists l,
    files conflict_world (lib_mirror, []) = (Ok l, (lib_mirror, [])) /\
    "a.py" ∈ l /\
    exists_ conflict_world "a.py" (lib_mirror, []) = (Ok true, (lib_mirror, [])).
Proof.
  apply (file_under_the_context_is_listed_relative conflict_world lib_mirror []
           "https://github.com/ansible/ansible" "lib/" "a.py");
    try reflexivity.
  - discriminate.
  - apply (bool_decide_unpack _). vm_compute. exact I.
Defined.

Lemma find_witness :
  find "setup.py" (lib_mirror, []) = (Ok (Exact "setup.py"), (lib_mirror, [])) /\
  exists m,
    find "b.py" (lib_mirror, []) = (Ok (Matches m), (lib_mirror, [])) /\
    forall fn,
      fn ∈ m <->
      fn ∈ _files lib_mirror /\ endswith "b.py" fn = true /\
      (truthy (context lib_mirror) = true ->
       contains (fmt (context lib_mirror)) fn = true).
Proof.
  split.
  - apply (proj1 (find_answers_path_or_suffix_matches lib_mirror [] "setup.py")).
    apply (bool_decide_unpack _). vm_compute. exact I.
  - apply (proj2 (find_answers_path_or_suffix_matches lib_mirror [] "b.py")).
    apply (bool_decide_unpack _). vm_compute. exact I.
Defined.

Lemma constructor_witness :
  exists o pre,
    init conflict_world "/cache" (Some "https://github.com/ansible/ansible")
      None true None [] =
      (Ok tt, (o, ([] ++ pre) ++ [Run (ls_files_cmd mirror_dir) []])) /\
    config o =
      (true, Some "https://github.com/ansible/ansible", None, None, Some mirror_dir) /\
    _lrev_map o = ∅ /\
    _files o =
      tracked_files
        (stdout_of (run_result conflict_world ([] ++ pre) (ls_files_cmd mirror_dir))) /\
    (exists_result conflict_world [] (dirname mirror_dir) = false ->
     exists rest, pre = Makedirs (dirname mirror_dir) :: rest).
Proof.
  apply (constructor_with_a_repository conflict_world "/cache"
           "https://github.com/ansible/ansible" None true None []).
  discriminate.
Defined.

Lemma checkout_path_witness :
  checkout_path "/cache" ("https://github.com/jkbr" +:+ "/" +:+ "httpie") =
  checkout_path "/cache" "https://github.com/jkbr".
Proof.
  apply (proj2 (proj2 (proj2 (checkout_path_drops_http_parts "/cache"
                                "https://github.com/jkbr"))));
    reflexivity.
Defined.

End GitToolsMoreWitnesses.

(** ** The memos of RepoWrapper *)

Section RepoMemoFacts.
Import RepoCache RepoMore.

Variable DEFAULT_PICKLE_ISSUES : bool.
Variable self : RepoWrapper.
Variable login : item -> string.

(** X21. The labels and the assignees are loaded once in the life of the
    object.  Once [labels] has returned a list, every later access
    returns that list without looking at the cache or at the repository,
    whatever has changed there and even if the list is empty; the same
    holds for [assignees], and [has_in_assignees] then answers from that
    list alone. *)
Theorem properties_are_loaded_once m st l m1 st1 :
  (labels DEFAULT_PICKLE_ISSUES self m st = (Ok l, (m1, st1)) ->
   forall st2, labels DEFAULT_PICKLE_ISSUES self m1 st2 = (Ok l, (m1, st2))) /\
  (assignees DEFAULT_PICKLE_ISSUES self m st = (Ok l, (m1, st1)) ->
   forall st2 x,
     assignees DEFAULT_PICKLE_ISSUES self m1 st2 = (Ok l, (m1, st2)) /\
     has_in_assignees DEFAULT_PICKLE_ISSUES self login x m1 st2 =
       (Ok (bool_decide (x ∈ map login l)), (m1, st2))).
Proof.
  split.
  - unfold labels. destruct (_labels m) as [l0|] eqn:Hm.
    + intros [= <- <- <-] st2. by rewrite Hm.
    + destruct (load_update_fetch _ _ _ _) as [[l0|e|] st'];
        intros [= <- <- <-]. done.
  - unfold has_in_assignees, assignees. destruct (_assignees m) as [l0|] eqn:Hm.
    + intros [= <- <- <-] st2 x. by rewrite Hm.
    + destruct (load_update_fetch _ _ _ _) as [[l0|e|] st'];
        intros [= <- <- <-]. done.
Qed.

End RepoMemoFacts.

(** ** The issues of RepoWrapper *)

Section IssueFacts.
Import IssueCache.

Lemma no_slash_app a b : no_slash (a +:+ b) = no_slash a && no_slash b.
Proof.
  induction a as [|c a IH]; [by rewrite app_nil_l|].
  rewrite app_cons. simpl. rewrite IH. by rewrite andb_assoc.
Qed.

Lemma no_slash_rev s : no_slash (String.rev s) = no_slash s.
Proof.
  induction s as [|c s IH]; [done|].
  rewrite rev_cons, no_slash_app, IH. simpl. rewrite andb_true_r.
  apply andb_comm.
Qed.

Lemma pretty_N_char_no_slash x : Ascii.eqb (pretty_N_char x) "/" = false.
Proof. unfold pretty_N_char. by repeat case_match. Qed.

Lemma pretty_N_go_no_slash x s :
  no_slash s = true -> s <> "" ->
  no_slash (pretty_N_go x s) = true /\ pretty_N_go x s <> "".
Proof.
  revert s. induction (N.lt_wf_0 x) as [x _ IH]; intros s Hs Hne.
  destruct (decide (x = 0)%N) as [->|Hx].
  - by rewrite pretty_N_go_0.
  - rewrite pretty_N_go_step by lia. apply IH.
    + apply N.div_lt; lia.
    + simpl. by rewrite pretty_N_char_no_slash, Hs.
    + done.
Qed.

Lemma pretty_N_no_slash (x : N) :
  no_slash (pretty x) = true /\ pretty x <> "".
Proof.
  unfold pretty, pretty_N. destruct (decide (x = 0)%N) as [->|Hx]; [done|].
  rewrite pretty_N_go_step by lia. apply pretty_N_go_no_slash; [|done].
  simpl. by rewrite pretty_N_char_no_slash.
Qed.

(** The decimal text of a number is not empty and has no slash. *)
Lemma pretty_Z_no_slash (n : Z) :
  no_slash (pretty n) = true /\ pretty n <> "".
Proof.
  destruct n as [|p|p].
  - done.
  - apply (pretty_N_no_slash (Npos p)).
  - change (pretty (Z.neg p)) with ("-" +:+ pretty (Npos p)).
    rewrite app_cons, app_nil_l. simpl.
    split; [apply (pretty_N_no_slash (Npos p))|done].
Qed.

Lemma path_join_relative a b :
  no_slash b = true -> b <> "" -> path_join a b = joined_prefix a +:+ b.
Proof.
  intros Hb Hne. unfold path_join, joined_prefix, startswith.
  destruct b as [|c b]; [done|]. simpl in Hb.
  apply andb_true_iff in Hb as [Hc _].
  replace (String.prefix "/" (String c b)) with false.
  - destruct (String.eqb a "" || endswith "/" a); [done|].
    by rewrite app_assoc_s.
  - rewrite prefix_cons_eq. rewrite Ascii.eqb_sym.
    by destruct (Ascii.eqb c "/").
Qed.

Lemma no_trailing_slash a b :
  no_slash b = true -> b <> "" ->
  a +:+ b <> "" /\ endswith "/" (a +:+ b) = false.
Proof.
  intros Hb Hne. split.
  - destruct a; [by rewrite app_nil_l|by rewrite app_cons].
  - unfold endswith. rewrite rev_append.
    rewrite <- no_slash_rev in Hb.
    assert (Hr : String.rev b <> "").
    { intros E. apply Hne. by rewrite <- (rev_involutive_s b), E. }
    destruct (String.rev b) as [|c rb]; [done|]. simpl in Hb.
    apply andb_true_iff in Hb as [Hc _].
    rewrite app_cons. change (String.rev "/") with "/".
    rewrite prefix_cons_eq, Ascii.eqb_sym.
    by destruct (Ascii.eqb c "/").
Qed.

Variable cachedir : string.

(** The directory and the file of an issue, spelled out. *)
Lemma issue_dir_eq n :
  issue_dir cachedir n = joined_prefix (path_join cachedir "issues") +:+ pretty n.
Proof.
  unfold issue_dir. apply path_join_relative; apply pretty_Z_no_slash.
Qed.

Lemma issue_file_eq n :
  issue_file cachedir n = issue_dir cachedir n +:+ "/issue.pickle".
Proof.
  unfold issue_file. rewrite (path_join_relative _ "issue.pickle") by done.
  unfold joined_prefix.
  destruct (no_trailing_slash (joined_prefix (path_join cachedir "issues"))
              (pretty n)) as [Hne Hend]; try apply pretty_Z_no_slash.
  rewrite <- issue_dir_eq in Hne, Hend. rewrite Hend, orb_false_r.
  destruct (String.eqb_spec (issue_dir cachedir n) ""); [done|].
  by rewrite app_assoc_s.
Qed.

(** The file of an issue lies in the directory of the issue. *)
Lemma issue_file_under_dir n :
  under (issue_dir cachedir n) (issue_file cachedir n) = true.
Proof.
  unfold under, startswith. rewrite issue_file_eq.
  change "/issue.pickle" with ("/" +:+ "issue.pickle").
  rewrite <- app_assoc_s, prefix_refl_app. apply orb_true_r.
Qed.

Lemma app_inv_head_s (a b c : string) : a +:+ b = a +:+ c -> b = c.
Proof.
  induction a as [|x a IH]; [by rewrite !app_nil_l|].
  rewrite !app_cons. intros [= H]. auto.
Qed.

Lemma app_inv_tail_s (a b c : string) : a +:+ c = b +:+ c -> a = b.
Proof.
  intros H. apply (f_equal String.rev) in H. rewrite !rev_append in H.
  apply app_inv_head_s in H.
  by rewrite <- (rev_involutive_s a), H, rev_involutive_s.
Qed.

(** Two issues share a file only if they share the number. *)
Lemma issue_file_inj n m :
  issue_file cachedir n = issue_file cachedir m -> n = m.
Proof.
  rewrite !issue_file_eq, !issue_dir_eq. intros H.
  apply app_inv_tail_s, app_inv_head_s in H.
  by apply (inj pretty).
Qed.

Lemma load_issue_some st n i :
  files st !! issue_file cachedir n = Some (PIssue i) ->
  load_issue true cachedir n st = Returned (Some i).
Proof. unfold load_issue. simpl. by intros ->. Qed.

Lemma load_issue_missing dpi st n :
  dpi = false \/ files st !! issue_file cachedir n = None ->
  load_issue dpi cachedir n st = Returned None.
Proof.
  unfold load_issue. intros [->|H]; [done|].
  rewrite H. by destruct dpi.
Qed.

Lemma save_issue_files i st :
  files (save_issue true cachedir i st) =
  <[issue_file cachedir (number i) := PIssue i]> (files st).
Proof. unfold save_issue. simpl. by destruct (bool_decide _). Qed.

Lemma save_issue_calls dpi i st :
  calls (save_issue dpi cachedir i st) = calls st.
Proof.
  unfold save_issue. destruct dpi; simpl; [|done]. by destruct (bool_decide _).
Qed.

(** X22. What [save_issue] writes, [load_issue] reads back: after an
    issue is saved, loading its number gives that issue, and loading any
    other number gives what it gave before.  With the pickling of issues
    switched off, [load_issue] finds nothing and [save_issue] writes
    nothing. *)
Theorem saved_issue_is_loaded_back i st :
  load_issue true cachedir (number i) (save_issue true cachedir i st) =
    Returned (Some i) /\
  (forall n, n <> number i ->
     load_issue true cachedir n (save_issue true cachedir i st) =
     load_issue true cachedir n st) /\
  (forall n, load_issue false cachedir n st = Returned None) /\
  save_issue false cachedir i st = st.
Proof.
  split; [|split; [|split]].
  - apply load_issue_some. by rewrite save_issue_files, lookup_insert_eq.
  - intros n Hn. unfold load_issue. cbn [negb].
    rewrite save_issue_files, lookup_insert_ne; [done|].
    intros E. apply issue_file_inj in E. congruence.
  - done.
  - done.
Qed.

(** The [try] block never goes round. *)
Lemma get_issue_try_ends dpi n st :
  fst (get_issue_try dpi cachedir n st) <> Looping.
Proof.
  unfold get_issue_try, load_issue.
  destruct (negb dpi); simpl.
  - by destruct (remote_get_issue st (calls st) n).
  - destruct (files st !! issue_file cachedir n) as [[i| |[| |name]]|]; simpl;
      try done;
      try (by destruct (remote_get_issue st (calls st) n)).
    by destruct (remote_update st (calls st) i) as [e|[i'|]].
Qed.

(** What is left after a directory is removed. *)
Lemma rmtree_returned p st st' :
  rmtree p st = (Returned tt, st') ->
  (p ∉ dirs st') /\
  (forall x, under p x = true -> files st' !! x = None) /\
  calls st' = calls st /\ remote_get_issue st' = remote_get_issue st /\
  remote_update st' = remote_update st.
Proof.
  unfold rmtree. destruct (bool_decide (p ∈ dirs st)); [|done].
  intros [= <-]. simpl. split; [|split; [|done]].
  - intros Hin. apply elem_of_filter in Hin as [Hp _].
    unfold under in Hp. rewrite String.eqb_refl in Hp. exact Hp.
  - intros x Hx. apply map_lookup_filter_None. right.
    intros v _. simpl. rewrite Hx. simpl. tauto.
Qed.

(** A round that finds neither the file nor the directory of the issue
    is the last one. *)
Lemma get_issue_fresh dpi fuel n st :
  dpi = false \/ files st !! issue_file cachedir n = None ->
  issue_dir cachedir n ∉ dirs st ->
  get_issue dpi cachedir (S fuel) n st = get_issue dpi cachedir 1 n st /\
  fst (get_issue dpi cachedir 1 n st) <> Looping.
Proof.
  intros Hmiss Hdir. simpl.
  unfold get_issue_try. rewrite (load_issue_missing dpi st n Hmiss).
  destruct (remote_get_issue st (calls st) n) as [e|i]; [|done].
  destruct e as [| |name]; try done.
  unfold rmtree. simpl. by rewrite bool_decide_eq_false_2.
Qed.

(** X23. The loop of [get_issue] goes round at most twice: whatever is in
    the cache and whatever the API answers, the second round returns or
    raises.  A cache that does not decode is removed in the first round,
    and the second round, finding no directory to remove, lets a second
    [UnicodeDecodeError] end in the error of [shutil.rmtree]. *)
Theorem get_issue_ends_within_two_rounds dpi n st fuel :
  get_issue dpi cachedir (S (S fuel)) n st = get_issue dpi cachedir 2 n st /\
  fst (get_issue dpi cachedir 2 n st) <> Looping.
Proof.
  change (get_issue dpi cachedir (S (S fuel)) n st) with
    (match get_issue_try dpi cachedir n st with
     | (Raised UnicodeDecodeError, st') =>
         match rmtree (issue_dir cachedir n) st' with
         | (Returned _, st'') => get_issue dpi cachedir (S fuel) n st''
         | (Raised e, st'') => (Raised e, st'')
         | (Looping, st'') => (Looping, st'')
         end
     | r => r
     end).
  change (get_issue dpi cachedir 2 n st) with
    (match get_issue_try dpi cachedir n st with
     | (Raised UnicodeDecodeError, st') =>
         match rmtree (issue_dir cachedir n) st' with
         | (Returned _, st'') => get_issue dpi cachedir 1 n st''
         | (Raised e, st'') => (Raised e, st'')
         | (Looping, st'') => (Looping, st'')
         end
     | r => r
     end).
  pose proof (get_issue_try_ends dpi n st) as Hends.
  destruct (get_issue_try dpi cachedir n st) as [[i|[| |name]|] st']; try done.
  destruct (rmtree (issue_dir cachedir n) st') as [[[]|e|] st''] eqn:Hrm.
  - apply rmtree_returned in Hrm as (Hdir & Hfiles & _).
    apply get_issue_fresh; [|done].
    right. apply Hfiles, issue_file_under_dir.
  - done.
  - unfold rmtree in Hrm. by destruct (bool_decide _).
Qed.

(** X24. A cache file of an issue that does not load is replaced.  When
    loading it raises [UnicodeDecodeError], the directory of the issue
    is removed and the next round fetches the issue from the API; when
    it raises [TypeError], the file is taken as missing and the issue is
    fetched at once.  Either way the API is asked for the issue once and
    the issue it gives is returned and saved. *)
Theorem unloadable_cache_file_is_replaced n st e i :
  files st !! issue_file cachedir n = Some (PBroken e) ->
  e = PickleTypeError \/
  (e = UnicodeDecodeError /\ issue_dir cachedir n ∈ dirs st) ->
  remote_get_issue st (calls st) n = inr i ->
  exists st',
    get_issue true cachedir 2 n st = (Returned i, st') /\
    calls st' = calls st ++ [GetIssue n] /\
    load_issue true cachedir (number i) st' = Returned (Some i).
Proof.
  intros Hfile [->|[-> Hdir]] Hremote.
  - eexists. split; [|split].
    + simpl. unfold get_issue_try, load_issue. simpl.
      rewrite Hfile, Hremote. reflexivity.
    + by rewrite save_issue_calls.
    + apply load_issue_some. by rewrite save_issue_files, lookup_insert_eq.
  - destruct (rmtree (issue_dir cachedir n) st) as [r st1] eqn:Hrm.
    assert (r = Returned tt) as ->.
    { unfold rmtree in Hrm. rewrite bool_decide_eq_true_2 in Hrm by done.
      by injection Hrm as <- _. }
    destruct (rmtree_returned _ _ _ Hrm) as (_ & Hgone & Hcalls & Hget & _).
    eexists. split; [|split].
    + simpl. unfold get_issue_try at 1, load_issue at 1. simpl.
      rewrite Hfile, Hrm.
      unfold get_issue_try, load_issue. simpl.
      rewrite (Hgone _ (issue_file_under_dir n)), Hget, Hcalls, Hremote.
      reflexivity.
    + by rewrite save_issue_calls.
    + apply load_issue_some. by rewrite save_issue_files, lookup_insert_eq.
Qed.

(** X25. An issue that is in the cache is refreshed with [update()],
    which is called once.  When that finds nothing new the cached issue
    is returned and nothing is written; when it gives the issue new
    attributes, the new issue is returned and saved; when it raises, the
    exception is that of [get_issue], unless it is a
    [UnicodeDecodeError].  Only then is [repo.get_issue] called: the
    directory of the issue is removed and the next round fetches the
    issue, returns it and saves it (or the call ends in the error of
    [shutil.rmtree] if the directory is not there).  The issue is taken
    from the file as it is, whatever its number. *)
Theorem cached_issue_is_updated_in_place n st i fuel :
  files st !! issue_file cachedir n = Some (PIssue i) ->
  let st1 := with_calls (calls st ++ [Update i]) st in
  (remote_update st (calls st) i = inr None ->
   get_issue true cachedir (S fuel) n st = (Returned i, st1)) /\
  (forall i',
     remote_update st (calls st) i = inr (Some i') ->
     exists st',
       get_issue true cachedir (S fuel) n st = (Returned i', st') /\
       calls st' = calls st ++ [Update i] /\
       load_issue true cachedir (number i') st' = Returned (Some i')) /\
  (forall e,
     remote_update st (calls st) i = inl e -> e <> UnicodeDecodeError ->
     get_issue true cachedir (S fuel) n st = (Raised e, st1)) /\
  (remote_update st (calls st) i = inl UnicodeDecodeError ->
   (issue_dir cachedir n ∉ dirs st ->
    get_issue true cachedir (S fuel) n st =
      (Raised (OtherError "FileNotFoundError"), st1)) /\
   (issue_dir cachedir n ∈ dirs st ->
    forall i2,
      remote_get_issue st (calls st ++ [Update i]) n = inr i2 ->
      exists st',
        get_issue true cachedir (S (S fuel)) n st = (Returned i2, st') /\
        calls st' = calls st ++ [Update i; GetIssue n] /\
        load_issue true cachedir (number i2) st' = Returned (Some i2))).
Proof.
  intros Hfile. cbv zeta.
  assert (Htry : get_issue_try true cachedir n st =
    match remote_update st (calls st) i with
    | inl e => (Raised e, with_calls (calls st ++ [Update i]) st)
    | inr None => (Returned i, with_calls (calls st ++ [Update i]) st)
    | inr (Some i') =>
        (Returned i', save_issue true cachedir i'
                        (with_calls (calls st ++ [Update i]) st))
    end).
  { unfold get_issue_try, load_issue. simpl. by rewrite Hfile. }
  split; [|split; [|split]].
  - intros Hup. simpl. by rewrite Htry, Hup.
  - intros i' Hup. eexists. split; [|split].
    + simpl. rewrite Htry, Hup. reflexivity.
    + by rewrite save_issue_calls.
    + apply load_issue_some. by rewrite save_issue_files, lookup_insert_eq.
  - intros e Hup Hne. simpl. rewrite Htry, Hup. by destruct e.
  - intros Hup. split.
    + intros Hdir. simpl. rewrite Htry, Hup.
      unfold rmtree. simpl. by rewrite bool_decide_eq_false_2.
    + intros Hdir i2 Hremote.
      set (st1 := with_calls (calls st ++ [Update i]) st).
      destruct (rmtree (issue_dir cachedir n) st1) as [r st2] eqn:Hrm.
      assert (r = Returned tt) as ->.
      { unfold rmtree in Hrm. rewrite bool_decide_eq_true_2 in Hrm by done.
        by injection Hrm as <- _. }
      destruct (rmtree_returned _ _ _ Hrm) as (_ & Hgone & Hcalls & Hget & _).
      assert (Hr2 : remote_get_issue st2 (calls st2) n = inr i2).
      { rewrite Hget, Hcalls. exact Hremote. }
      exists (save_issue true cachedir i2 (with_calls (calls st2 ++ [GetIssue n]) st2)).
      split; [|split].
      * change (get_issue true cachedir (S (S fuel)) n st) with
          (match get_issue_try true cachedir n st with
           | (Raised UnicodeDecodeError, st') =>
               match rmtree (issue_dir cachedir n) st' with
               | (Returned _, st'') => get_issue true cachedir (S fuel) n st''
               | (Raised e, st'') => (Raised e, st'')
               | (Looping, st'') => (Looping, st'')
               end
           | r => r
           end).
        rewrite Htry, Hup. fold st1. rewrite Hrm.
        simpl. unfold get_issue_try, load_issue. simpl.
        rewrite (Hgone _ (issue_file_under_dir n)), Hr2. done.
      * rewrite save_issue_calls. simpl. rewrite Hcalls. simpl.
        by rewrite <- app_assoc.
      * apply load_issue_some. by rewrite save_issue_files, lookup_insert_eq.
Qed.

(** X26. With the pickling of issues switched off the cache plays no
    part: every call of [get_issue] asks the API for the issue, whatever
    the cache holds, and leaves the files and the directories as they
    are. *)
Theorem without_pickling_every_call_fetches n st i fuel :
  remote_get_issue st (calls st) n = inr i ->
  get_issue false cachedir (S fuel) n st =
    (Returned i, with_calls (calls st ++ [GetIssue n]) st).
Proof.
  intros Hremote. simpl. unfold get_issue_try, load_issue. simpl.
  by rewrite Hremote.
Qed.

End IssueFacts.

Section MoreWitnesses.
Import Scenario Scenario2.

Lemma properties_are_loaded_once_witness :
  RepoMore.labels true rw
    {| RepoMore._assignees := None; RepoMore._labels := Some [] |} two_labels_cold =
  (Ok [], ({| RepoMore._assignees := None; RepoMore._labels := Some [] |},
           two_labels_cold)).
Proof.
  apply (proj1 (properties_are_loaded_once true rw (fun x => x) RepoMore.fresh
                  no_labels_cold []
                  {| RepoMore._assignees := None; RepoMore._labels := Some [] |}
                  (snd (snd (RepoMore.labels true rw RepoMore.fresh no_labels_cold))))).
  reflexivity.
Defined.

Lemma saved_issue_witness :
  IssueCache.load_issue true "/cache/a/b" 8
    (IssueCache.save_issue true "/cache/a/b" issue7 issues_cold) =
  IssueCache.load_issue true "/cache/a/b" 8 issues_cold.
Proof.
  apply (proj1 (proj2 (saved_issue_is_loaded_back "/cache/a/b" issue7 issues_cold))).
  discriminate.
Defined.

Lemma get_issue_ends_witness :
  IssueCache.get_issue true "/cache/a/b" 5 7 issues_undecodable =
    IssueCache.get_issue true "/cache/a/b" 2 7 issues_undecodable /\
  fst (IssueCache.get_issue true "/cache/a/b" 2 7 issues_undecodable) =
    IssueCache.Raised (IssueCache.OtherError "FileNotFoundError").
Proof.
  split.
  - apply (proj1 (get_issue_ends_within_two_rounds "/cache/a/b" true 7
                    issues_undecodable 3)).
  - vm_compute. reflexivity.
Defined.

Lemma unloadable_cache_file_witness :
  exists st',
    IssueCache.get_issue true "/cache/a/b" 2 7 issues_broken =
      (IssueCache.Returned issue7_edited, st') /\
    IssueCache.calls st' = [IssueCache.GetIssue 7] /\
    IssueCache.load_issue true "/cache/a/b" 7 st' =
      IssueCache.Returned (Some issue7_edited).
Proof.
  apply (unloadable_cache_file_is_replaced "/cache/a/b" 7 issues_broken
           IssueCache.UnicodeDecodeError issue7_edited).
  - vm_compute. reflexivity.
  - right. split; [reflexivity|].
    apply (bool_decide_unpack _). vm_compute. exact I.
  - reflexivity.
Defined.

Lemma cached_issue_witness :
  (exists st',
     IssueCache.get_issue true "/cache/a/b" 1 7 issues_cached =
       (IssueCache.Returned issue7_edited, st') /\
     IssueCache.calls st' = [IssueCache.Update issue7] /\
     IssueCache.load_issue true "/cache/a/b" 7 st' =
       IssueCache.Returned (Some issue7_edited)) /\
  IssueCache.get_issue true "/cache/a/b" 1 7 issues_up_to_date =
    (IssueCache.Returned issue7_edited,
     IssueCache.with_calls [IssueCache.Update issue7_edited] issues_up_to_date) /\
  (exists st',
     IssueCache.get_issue true "/cache/a/b" 2 7 issues_cached_undecodable =
       (IssueCache.Returned issue7_edited, st') /\
     IssueCache.calls st' = [IssueCache.Update issue7; IssueCache.GetIssue 7] /\
     IssueCache.load_issue true "/cache/a/b" 7 st' =
       IssueCache.Returned (Some issue7_edited)).
Proof.
  split; [|split].
  - apply (proj1 (proj2 (cached_issue_is_updated_in_place "/cache/a/b" 7
                           issues_cached issue7 0 ltac:(vm_compute; reflexivity)))
             issue7_edited).
    reflexivity.
  - apply (proj1 (cached_issue_is_updated_in_place "/cache/a/b" 7 issues_up_to_date
                    issue7_edited 0 ltac:(vm_compute; reflexivity))).
    reflexivity.
  - apply (proj2 (proj2 (proj2 (proj2 (cached_issue_is_updated_in_place "/cache/a/b" 7
             issues_cached_undecodable issue7 0 ltac:(vm_compute; reflexivity))))
             eq_refl)).
    + apply (bool_decide_unpack _). vm_compute. exact I.
    + reflexivity.
Defined.

Lemma without_pickling_witness :
  IssueCache.get_issue false "/cache/a/b" 1 7 issues_broken =
  (IssueCache.Returned issue7_edited,
   IssueCache.with_calls [IssueCache.GetIssue 7] issues_broken).
Proof.
  apply (without_pickling_every_call_fetches "/cache/a/b" 7 issues_broken
           issue7_edited 0).
  reflexivity.
Defined.

End MoreWitnesses.
